(** * practica.py: an ETL flow (OpenWeather -> JSON checkpoint -> MongoDB)

    A shallow embedding of [practica.py] and the properties of its
    configuration loading, its retry policy, its transformation stage, the
    JSON checkpoint and the MongoDB load.

    Conventions.
    - A Python [str] is a Rocq [string] holding the UTF-8 encoding of the text.
    - [os.environ] and the file system are finite maps ([gmap]).
    - A function that may raise returns [result A = exn + A]; a function that
      also touches the outside world threads a [world] explicitly.
    - What the program obtains from outside the repository (the local time
      zone, binary floating point, the HTTP provider, the document store) is
      a [Variable] of a section or an oracle stored in the [world]. *)

From Stdlib Require Import ZArith Ascii String List Lia Bool.
From Stdlib Require Import Decimal DecimalString DecimalZ DecimalFacts.
From stdpp Require Import base gmap strings list.

Local Open Scope Z_scope.
Local Open Scope stdpp_scope.

(** ** Exceptions and results *)

(** The key of a failed subscript: [d["k"]] or [d[0]]. *)
Inductive pykey :=
| KStr (s : string)
| KInt (z : Z).

(** The exception classes the program can meet.  [ValueError] is the class the
    program itself raises for a failed validation or a missing setting.
    [HTTPError] is what [raise_for_status] raises, [JSONDecodeError] what the
    JSON decoder raises, and [ExternalError] stands for any other exception
    class of a collaborator (requests, pymongo, the operating system), named
    by its class. *)
Inductive exn :=
| ValueError (msg : string)
| KeyError (k : pykey)
| IndexError
| TypeError
| AttributeError
| HTTPError (status_code : Z)
| JSONDecodeError
| ExternalError (cls : string).

Definition result (A : Type) : Type := exn + A.

Definition Ok {A} (a : A) : result A := inr a.
Definition Err {A} (e : exn) : result A := inl e.

Definition bind {A B} (m : result A) (f : A -> result B) : result B :=
  match m with
  | inl e => inl e
  | inr a => f a
  end.

Notation "'let*' x ':=' m 'in' k" := (bind m (fun x => k))
  (at level 10, x pattern, m at level 100, k at level 200).

Definition is_ValueError (e : exn) : bool :=
  match e with ValueError _ => true | _ => false end.

(** ** Python string methods used by the configuration loader *)

Module PyStr.

Definition byte (n : nat) : ascii := ascii_of_nat n.

Definition dquote : ascii := byte 34.

(** [str.isspace] on a one-byte character: TAB, LF, VT, FF, CR, the
    separators FS, GS, RS, US and the space. *)
Definition is_space1 (c : ascii) : bool :=
  let n := nat_of_ascii c in
  ((9 <=? n)%nat && (n <=? 13)%nat) || ((28 <=? n)%nat && (n <=? 32)%nat).

(** The remaining Unicode white space, as UTF-8 sequences:
    U+0085, U+00A0 (two bytes), U+1680, U+2000..U+200A, U+2028, U+2029,
    U+202F, U+205F, U+3000 (three bytes). *)
Definition is_space2 (a b : ascii) : bool :=
  (nat_of_ascii a =? 194)%nat
  && ((nat_of_ascii b =? 133)%nat || (nat_of_ascii b =? 160)%nat).

Definition is_space3 (a b c : ascii) : bool :=
  let x := nat_of_ascii a in
  let y := nat_of_ascii b in
  let z := nat_of_ascii c in
  ((x =? 225) && (y =? 154) && (z =? 128))%nat
  || ((x =? 226) && (y =? 128)
      && (((128 <=? z) && (z <=? 138)) || (z =? 168) || (z =? 169) || (z =? 175)))%nat
  || ((x =? 226) && (y =? 129) && (z =? 159))%nat
  || ((x =? 227) && (y =? 128) && (z =? 128))%nat.

(** [s.lstrip()] *)
Fixpoint lstrip (s : string) : string :=
  match s with
  | EmptyString => EmptyString
  | String a s1 =>
      if is_space1 a then lstrip s1
      else match s1 with
           | EmptyString => s
           | String b s2 =>
               if is_space2 a b then lstrip s2
               else match s2 with
                    | EmptyString => s
                    | String c s3 => if is_space3 a b c then lstrip s3 else s
                    end
           end
  end.

(** The same scan on the reversed text, where the bytes of a character
    come last byte first. *)
Fixpoint lstrip_rev (s : string) : string :=
  match s with
  | EmptyString => EmptyString
  | String a s1 =>
      if is_space1 a then lstrip_rev s1
      else match s1 with
           | EmptyString => s
           | String b s2 =>
               if is_space2 b a then lstrip_rev s2
               else match s2 with
                    | EmptyString => s
                    | String c s3 => if is_space3 c b a then lstrip_rev s3 else s
                    end
           end
  end.

Definition rstrip (s : string) : string := String.rev (lstrip_rev (String.rev s)).

(** [s.strip()] *)
Definition strip (s : string) : string := rstrip (lstrip s).

(** [s.strip(c)] for a one-character argument [c]. *)
Fixpoint lstrip_char (c : ascii) (s : string) : string :=
  match s with
  | EmptyString => EmptyString
  | String a s1 => if Ascii.eqb a c then lstrip_char c s1 else s
  end.

Definition strip_char (c : ascii) (s : string) : string :=
  String.rev (lstrip_char c (String.rev (lstrip_char c s))).

(** [s.startswith(c)] for a one-character argument. *)
Definition startswith_char (c : ascii) (s : string) : bool :=
  match s with
  | String a _ => Ascii.eqb a c
  | EmptyString => false
  end.

(** [c in s] for a one-character [c]. *)
Fixpoint contains_char (c : ascii) (s : string) : bool :=
  match s with
  | EmptyString => false
  | String a s1 => Ascii.eqb a c || contains_char c s1
  end.

(** [s.split(c, 1)] when [c] occurs in [s]: the text before the first
    occurrence and the text after it.  Without an occurrence the whole
    text is the first component. *)
Fixpoint split1 (c : ascii) (s : string) : string * string :=
  match s with
  | EmptyString => (EmptyString, EmptyString)
  | String a s1 =>
      if Ascii.eqb a c then (EmptyString, s1)
      else let '(k, v) := split1 c s1 in (String a k, v)
  end.

(** The lines of a text file opened in text mode (universal newlines):
    a line ends at LF, at CR LF or at a lone CR.  The terminator is not
    kept; [strip] would remove it. *)
Fixpoint lines_go (cur : string) (s : string) : list string :=
  match s with
  | EmptyString =>
      match cur with EmptyString => [] | _ => [String.rev cur] end
  | String a s1 =>
      if Ascii.eqb a (byte 10) then String.rev cur :: lines_go EmptyString s1
      else if Ascii.eqb a (byte 13) then
        match s1 with
        | String b s2 =>
            if Ascii.eqb b (byte 10)
            then String.rev cur :: lines_go EmptyString s2
            else String.rev cur :: lines_go EmptyString s1
        | EmptyString => [String.rev cur]
        end
      else lines_go (String a cur) s1
  end.

Definition lines (s : string) : list string := lines_go EmptyString s.

(** [c in s] on bytes, used for the NUL test of [os.putenv]. *)
Definition has_nul (s : string) : bool := contains_char (byte 0) s.

End PyStr.

(** ** Configuration: [load_env_file] and [get_required_env] *)

(** [os.environ]: variable name to value. *)
Abbreviation environ := (gmap string string).

(** The files that exist, with their text. *)
Abbreviation filesystem := (gmap string string).

(** [os.putenv]: a name or a value with a NUL byte is refused when the
    arguments are converted, a name with [=] by the function itself (a name
    cannot hold [=] here: it is cut at the first one), and an empty name by
    [setenv], whose [EINVAL] comes back as [OSError]. *)
Definition putenv_error (key value : string) : option exn :=
  if PyStr.has_nul key || PyStr.has_nul value
  then Some (ValueError "embedded null byte")
  else if PyStr.contains_char "=" key
  then Some (ValueError "illegal environment variable name")
  else if String.eqb key EmptyString
  then Some (ExternalError "OSError")
  else None.

(** [os.environ.setdefault(key, value)]: a key that is set is left alone. *)
Definition environ_setdefault (key value : string) (env : environ)
  : result environ :=
  match env !! key with
  | Some _ => Ok env
  | None =>
      match putenv_error key value with
      | Some e => Err e
      | None => Ok (<[key := value]> env)
      end
  end.

(** The body of the [for raw_line in env_file] loop, over the lines still to
    read.  The environment reached is returned also when a line raises. *)
Fixpoint load_env_lines (raw_lines : list string) (env : environ)
  : result unit * environ :=
  match raw_lines with
  | [] => (Ok tt, env)
  | raw_line :: rest =>
      let line := PyStr.strip raw_line in
      if String.eqb line EmptyString || PyStr.startswith_char "#" line
         || negb (PyStr.contains_char "=" line)
      then load_env_lines rest env
      else
        let '(key, value) := PyStr.split1 "=" line in
        let key := PyStr.strip key in
        let value :=
          PyStr.strip_char "'" (PyStr.strip_char PyStr.dquote (PyStr.strip value)) in
        match environ_setdefault key value env with
        | inl e => (Err e, env)
        | inr env' => load_env_lines rest env'
        end
  end.

(** [default_path] is [Path(__file__).resolve().parent / ".env"]. *)
Definition load_env_file (default_path : string) (path : option string)
    (fs : filesystem) (env : environ) : result unit * environ :=
  let env_path := match path with Some p => p | None => default_path end in
  match fs !! env_path with
  | None => (Ok tt, env)
  | Some text => load_env_lines (PyStr.lines text) env
  end.

Definition getenv (env : environ) (var_name : string) : option string :=
  env !! var_name.

Definition getenv_default (env : environ) (var_name default : string) : string :=
  match env !! var_name with Some v => v | None => default end.

Definition missing_env_message (var_name : string) : string :=
  "Variable de entorno requerida no definida: " +:+ var_name.

(** [if not value: raise ValueError(...)]: [None] and the empty text are
    the two falsy values [os.getenv] can return. *)
Definition get_required_env (env : environ) (var_name : string) : result string :=
  match getenv env var_name with
  | None => Err (ValueError (missing_env_message var_name))
  | Some value =>
      if String.eqb value EmptyString
      then Err (ValueError (missing_env_message var_name))
      else Ok value
  end.


(** The module-level statements: the settings of a run, read once when the
    module is loaded.  A missing required variable stops the program there. *)
Record settings := mkSettings {
  s_MONGO_URI : string;
  s_API_KEY : string;
  s_DB_NAME : string;
  s_COLLECTION_NAME : string;
  s_DEFAULT_CITY : string;
}.

Definition load_settings (default_path : string) (fs : filesystem)
    (env : environ) : result settings * environ :=
  let '(r, env1) := load_env_file default_path None fs env in
  match r with
  | inl e => (Err e, env1)
  | inr _ =>
      (let* uri := get_required_env env1 "MONGO_URI" in
       let* key := get_required_env env1 "OPENWEATHER_API_KEY" in
       Ok (mkSettings uri key
             (getenv_default env1 "MONGO_DB_NAME" "clima_data")
             (getenv_default env1 "MONGO_COLLECTION_NAME" "clima_data")
             (getenv_default env1 "CITY" "San Jose,CR")),
       env1)
  end.

(** ** JSON documents and the Python operations applied to them *)

Section Practica.

(** Python [float] (binary64).  The program only copies floats, tests them
    for truth and hands them to library code, so the type and those library
    operations are parameters. *)
Variable float : Type.

(** [bool(x)] for a float: false exactly for the two zeros. *)
Variable float_nonzero : float -> bool.

(** The whole seconds [datetime.fromtimestamp] keeps of a float timestamp
    (it rounds to microseconds first), or the exception for NaN and
    infinities. *)
Variable float_time_t : float -> result Z.

(** The offset of local time from UTC, in seconds, at a POSIX timestamp:
    what the platform's [localtime] applies. *)
Variable utcoffset : Z -> Z.

(** The exception [datetime.fromtimestamp] raises for a timestamp outside
    the supported range ([OverflowError], [OSError] or [ValueError],
    depending on the platform), [None] for a timestamp it accepts. *)
Variable timestamp_error : Z -> option exn.

(** [float.__repr__] as [json.dump] writes a float ([NaN], [Infinity] and
    [-Infinity] for the values that are not finite), and [float(text)]. *)
Variable float_repr : float -> string.
Variable float_of_str : string -> float.

(** A document as [json.loads] and [response.json()] build it.  A [dict]
    keeps its insertion order. *)
#[local] Unset Elimination Schemes.
Inductive json :=
| JNull
| JBool (b : bool)
| JInt (z : Z)
| JFloat (f : float)
| JStr (s : string)
| JList (l : list json)
| JDict (d : list (string * json)).
#[local] Set Elimination Schemes.

Abbreviation dict := (list (string * json)).

(** [d.get(k)] as an option. *)
Fixpoint dict_get (d : dict) (k : string) : option json :=
  match d with
  | [] => None
  | (k', v) :: d' => if String.eqb k' k then Some v else dict_get d' k
  end.

(** [k in d] *)
Definition dict_mem (k : string) (d : dict) : bool :=
  match dict_get d k with Some _ => true | None => false end.

(** [d.get(k, default)] *)
Definition dict_get_default (d : dict) (k : string) (default : json) : json :=
  match dict_get d k with Some v => v | None => default end.

(** [d[k]] on a dict *)
Definition dict_getitem (d : dict) (k : string) : result json :=
  match dict_get d k with
  | Some v => Ok v
  | None => Err (KeyError (KStr k))
  end.

(** [bool(v)] *)
Definition truthy (v : json) : bool :=
  match v with
  | JNull => false
  | JBool b => b
  | JInt z => negb (z =? 0)
  | JFloat f => float_nonzero f
  | JStr s => negb (String.eqb s EmptyString)
  | JList l => match l with [] => false | _ => true end
  | JDict d => match d with [] => false | _ => true end
  end.

(** The first character of a text: one to four bytes of UTF-8. *)
Definition first_char (s : string) : string :=
  match s with
  | EmptyString => EmptyString
  | String a _ =>
      let n := nat_of_ascii a in
      let len := if (n <? 192)%nat then 1%nat
                 else if (n <? 224)%nat then 2%nat
                 else if (n <? 240)%nat then 3%nat else 4%nat in
      String.substring 0 len s
  end.

(** [v[k]] with a [str] subscript: only a dict accepts it. *)
Definition getitem_str (v : json) (k : string) : result json :=
  match v with
  | JDict d => dict_getitem d k
  | _ => Err TypeError
  end.

(** [v[0]]: the first element of a list, the first character of a text; a
    dict of a JSON document has no key [0]; nothing else has subscripts. *)
Definition getitem_0 (v : json) : result json :=
  match v with
  | JList (x :: _) => Ok x
  | JList [] => Err IndexError
  | JStr EmptyString => Err IndexError
  | JStr s => Ok (JStr (first_char s))
  | JDict _ => Err (KeyError (KInt 0))
  | _ => Err TypeError
  end.

(** [v.get(k, default)]: only a dict has the method. *)
Definition get_method (v : json) (k : string) (default : json) : result json :=
  match v with
  | JDict d => Ok (dict_get_default d k default)
  | _ => Err AttributeError
  end.

(** ** [datetime.fromtimestamp(x).strftime("%H:%M:%S")] *)

(** The timestamp as whole seconds; [bool] is a subclass of [int]. *)
Definition time_t_of (x : json) : result Z :=
  match x with
  | JInt z => Ok z
  | JBool b => Ok (if b then 1 else 0)
  | JFloat f => float_time_t f
  | _ => Err TypeError
  end.

(** The local wall clock reading, in seconds since 1970-01-01T00:00:00 of
    the local calendar. *)
Definition fromtimestamp (x : json) : result Z :=
  let* t := time_t_of x in
  match timestamp_error t with
  | Some e => Err e
  | None => Ok (t + utcoffset t)
  end.

Definition digit (n : Z) : ascii := ascii_of_nat (48 + Z.to_nat n).

(** [%02d] for [0 <= n < 100] *)
Definition two_digits (n : Z) : string :=
  String (digit (n / 10)) (String (digit (n mod 10)) EmptyString).

Definition strftime_HMS (local : Z) : string :=
  let s := local mod 86400 in
  two_digits (s / 3600) +:+ ":" +:+ two_digits (s mod 3600 / 60)
  +:+ ":" +:+ two_digits (s mod 60).

Definition hora_local (x : json) : result json :=
  let* local := fromtimestamp x in Ok (JStr (strftime_HMS local)).

(** ** The transformation: validation and field extraction *)

Definition required_top_keys : list string :=
  ["name"; "sys"; "main"; "weather"; "clouds"; "coord"].

(** [[k for k in required_top_keys if k not in data]] *)
Definition missing_keys (data : dict) : list string :=
  filter (fun k => negb (dict_mem k data)) required_top_keys.

(** [repr] of a text without quotes, backslashes or unprintable characters,
    which is what the six required names are. *)
Definition repr_str (s : string) : string := "'" +:+ s +:+ "'".

Fixpoint join (sep : string) (l : list string) : string :=
  match l with
  | [] => EmptyString
  | [x] => x
  | x :: l' => x +:+ sep +:+ join sep l'
  end.

(** [repr] of a list of such texts: [['sys', 'coord']]. *)
Definition repr_list (l : list string) : string :=
  "[" +:+ join ", " (map repr_str l) +:+ "]".

Definition missing_keys_message (missing : list string) : string :=
  "Faltan claves requeridas en la respuesta: " +:+ repr_list missing.

Definition weather_empty_message : string :=
  "La clave 'weather' no contiene información.".

(** The two checks before the record is built. *)
Definition validar (data : dict) : result unit :=
  let missing := missing_keys data in
  match missing with
  | _ :: _ => Err (ValueError (missing_keys_message missing))
  | [] =>
      if negb (truthy (dict_get_default data "weather" JNull))
      then Err (ValueError weather_empty_message)
      else Ok tt
  end.

(** [data[a][b]] *)
Definition item2 (data : dict) (a b : string) : result json :=
  let* x := dict_getitem data a in getitem_str x b.

(** [data["weather"][0][b]] *)
Definition weather0 (data : dict) (b : string) : result json :=
  let* w := dict_getitem data "weather" in
  let* w0 := getitem_0 w in
  getitem_str w0 b.

(** [data.get("wind", {}).get(b, 0)] *)
Definition wind (data : dict) (b : string) : result json :=
  get_method (dict_get_default data "wind" (JDict [])) b (JInt 0).

(** The dict display [registro_clima = {...}]: the entries are evaluated in
    order, and the first one that raises ends the construction.  [now] is
    [datetime.now().isoformat()]. *)
Definition construir_registro (now : string) (data : dict) : result dict :=
  let* ciudad := dict_getitem data "name" in
  let* pais := item2 data "sys" "country" in
  let* temperatura := item2 data "main" "temp" in
  let* sensacion_termica := item2 data "main" "feels_like" in
  let* temp_min := item2 data "main" "temp_min" in
  let* temp_max := item2 data "main" "temp_max" in
  let* humedad := item2 data "main" "humidity" in
  let* presion := item2 data "main" "pressure" in
  let* descripcion := weather0 data "description" in
  let* icono := weather0 data "icon" in
  let* nubosidad := item2 data "clouds" "all" in
  let* viento_velocidad := wind data "speed" in
  let* viento_direccion := wind data "deg" in
  let visibilidad := dict_get_default data "visibility" (JInt 0) in
  let* sunrise := item2 data "sys" "sunrise" in
  let* amanecer := hora_local sunrise in
  let* sunset := item2 data "sys" "sunset" in
  let* atardecer := hora_local sunset in
  let* latitud := item2 data "coord" "lat" in
  let* longitud := item2 data "coord" "lon" in
  Ok [ ("ciudad", ciudad);
       ("pais", pais);
       ("temperatura", temperatura);
       ("sensacion_termica", sensacion_termica);
       ("temp_min", temp_min);
       ("temp_max", temp_max);
       ("humedad", humedad);
       ("presion", presion);
       ("descripcion", descripcion);
       ("icono", icono);
       ("nubosidad", nubosidad);
       ("viento_velocidad", viento_velocidad);
       ("viento_direccion", viento_direccion);
       ("visibilidad", visibilidad);
       ("amanecer", amanecer);
       ("atardecer", atardecer);
       ("coordenadas", JDict [("latitud", latitud); ("longitud", longitud)]);
       ("timestamp", JStr now) ].

(** [unicodedata.normalize("NFKD", x)] accepts a [str] only; the result
    goes to the log line and nowhere else. *)
Definition normalize_check (x : json) : result unit :=
  match x with
  | JStr _ => Ok tt
  | _ => Err TypeError
  end.

(** The [try] block of [transformar_datos] without its log lines. *)
Definition transformar (now : string) (data : dict) : result dict :=
  let* _ := validar data in
  let* registro := construir_registro now data in
  let* ciudad := dict_getitem registro "ciudad" in
  let* _ := normalize_check ciudad in
  let* _ := dict_getitem registro "temperatura" in
  Ok registro.

(** ** [json.dump(registro, f, ensure_ascii=False, indent=2)] *)

Definition hex_digit (n : N) : ascii :=
  ascii_of_N (if (n <? 10)%N then 48 + n else 87 + n).

(** [ESCAPE_DCT]: the two-character escapes, and [\u00xx] for the other
    control characters; with [ensure_ascii=False] every other character is
    written as it is. *)
Definition escape_char (c : ascii) : string :=
  let n := N_of_ascii c in
  if (n =? 34)%N then "\" +:+ String PyStr.dquote EmptyString
  else if (n =? 92)%N then "\\"
  else if (n =? 8)%N then "\b"
  else if (n =? 12)%N then "\f"
  else if (n =? 10)%N then "\n"
  else if (n =? 13)%N then "\r"
  else if (n =? 9)%N then "\t"
  else if (n <? 32)%N
  then "\u00" +:+ String (hex_digit (n / 16)) (String (hex_digit (n mod 16)) EmptyString)
  else String c EmptyString.

Fixpoint escape (s : string) : string :=
  match s with
  | EmptyString => EmptyString
  | String c s' => escape_char c +:+ escape s'
  end.

Definition encode_basestring (s : string) : string :=
  String PyStr.dquote (escape s +:+ String PyStr.dquote EmptyString).

(** [int.__repr__] *)
Definition repr_int (z : Z) : string := NilZero.string_of_int (Z.to_int z).

Fixpoint spaces (n : nat) : string :=
  match n with
  | O => EmptyString
  | S n' => String " " (spaces n')
  end.

(** ['\n' + _indent * level] with [_indent = "  "] *)
Definition newline_indent (level : nat) : string :=
  String (PyStr.byte 10) (spaces (2 * level)).

(** [_iterencode] at a nesting level: an empty list or dict has no line
    break; the items of the others stand on lines of their own, one level
    deeper, separated by a comma.  Every document of type [json] can be
    written: the keys are texts, and the limits of an interpreter (the
    recursion depth, the optional bound on the digits of an [int] written as
    text) are not part of the model. *)
Fixpoint iterencode (level : nat) (v : json) : string :=
  match v with
  | JNull => "null"
  | JBool true => "true"
  | JBool false => "false"
  | JInt z => repr_int z
  | JFloat f => float_repr f
  | JStr s => encode_basestring s
  | JList [] => "[]"
  | JList (x :: l) =>
      "[" +:+ newline_indent (S level) +:+ iterencode (S level) x
      +:+ (fix items (l : list json) : string :=
             match l with
             | [] => EmptyString
             | y :: l' =>
                 "," +:+ newline_indent (S level) +:+ iterencode (S level) y
                 +:+ items l'
             end) l
      +:+ newline_indent level +:+ "]"
  | JDict [] => "{}"
  | JDict ((k, x) :: d) =>
      "{" +:+ newline_indent (S level) +:+ encode_basestring k +:+ ": "
      +:+ iterencode (S level) x
      +:+ (fix items (d : list (string * json)) : string :=
             match d with
             | [] => EmptyString
             | (k', y) :: d' =>
                 "," +:+ newline_indent (S level) +:+ encode_basestring k'
                 +:+ ": " +:+ iterencode (S level) y +:+ items d'
             end) d
      +:+ newline_indent level +:+ "}"
  end.

Definition dumps (v : json) : string := iterencode 0 v.

(** *** The pieces [json.dump] writes *)

(** The limit of the interpreter on the digits of an [int] written as text
    ([sys.get_int_max_str_digits()]: 4300 unless configured otherwise, 0 for
    no limit). *)
Variable int_max_str_digits : nat.

Definition int_digits (z : Z) : nat := String.length (repr_int (Z.abs z)).

(** [int.__repr__] as the encoder calls it: over the limit it raises
    [ValueError] (the message, which names the limit, is shortened). *)
Definition int_str (z : Z) : result string :=
  if (0 <? int_max_str_digits)%nat && (int_max_str_digits <? int_digits z)%nat
  then Err (ValueError "Exceeds the limit for integer string conversion")
  else Ok (repr_int z).

(** What the encoder yields for a value it writes in one piece, or the
    exception raised instead; [None] for a list and for a dict. *)
Definition scalar_chunk (v : json) : option (result string) :=
  match v with
  | JNull => Some (Ok "null")
  | JBool true => Some (Ok "true")
  | JBool false => Some (Ok "false")
  | JInt z => Some (int_str z)
  | JFloat f => Some (Ok (float_repr f))
  | JStr s => Some (Ok (encode_basestring s))
  | JList _ | JDict _ => None
  end.

(** An item of a list: [yield buf + text] for an item written in one piece,
    [yield buf] and then the pieces of the item for a list or a dict. *)
Definition item_chunks (buf : string) (v : json) (inner : list (result string))
  : list (result string) :=
  match scalar_chunk v with
  | Some (inr text) => [Ok (buf +:+ text)]
  | Some (inl e) => [Err e]
  | None => Ok buf :: inner
  end.

(** The pieces [_iterencode] yields, in order, as [json.dump] asks for them
    (the generator of the [json] module written in Python, which is the one
    used with an indent); a piece is a text, or the exception raised when it
    is asked for. *)
Fixpoint chunks (level : nat) (v : json) : list (result string) :=
  match v with
  | JList [] => [Ok "[]"]
  | JList (x :: l) =>
      item_chunks ("[" +:+ newline_indent (S level)) x (chunks (S level) x)
      ++ (fix items (l : list json) : list (result string) :=
            match l with
            | [] => []
            | y :: l' =>
                item_chunks ("," +:+ newline_indent (S level)) y
                  (chunks (S level) y)
                ++ items l'
            end) l
      ++ [Ok (newline_indent level); Ok "]"]
  | JDict [] => [Ok "{}"]
  | JDict ((k, x) :: d) =>
      [Ok "{"; Ok (newline_indent (S level)); Ok (encode_basestring k); Ok ": "]
      ++ chunks (S level) x
      ++ (fix items (d : list (string * json)) : list (result string) :=
            match d with
            | [] => []
            | (k', y) :: d' =>
                [Ok ("," +:+ newline_indent (S level));
                 Ok (encode_basestring k'); Ok ": "]
                ++ chunks (S level) y ++ items d'
            end) d
      ++ [Ok (newline_indent level); Ok "}"]
  | JNull | JBool _ | JInt _ | JFloat _ | JStr _ =>
      match scalar_chunk v with
      | Some c => [c]
      | None => []
      end
  end.

(** A text holds a lone surrogate: the byte 237 followed by a byte from 160
    to 191 (in the UTF-8 of the other characters 237 is followed by a byte
    below 160, and is no continuation byte). *)
Fixpoint has_surrogate (s : string) : bool :=
  match s with
  | EmptyString => false
  | String a s' =>
      match s' with
      | EmptyString => false
      | String b _ =>
          ((N_of_ascii a =? 237)%N && (160 <=? N_of_ascii b)%N
           && (N_of_ascii b <=? 191)%N)
          || has_surrogate s'
      end
  end.

(** [fp.write(text)] on a file opened with [encoding="utf-8"]: the codec is
    strict, and a lone surrogate cannot be encoded. *)
Definition encode_error (text : string) : option exn :=
  if has_surrogate text then Some (ExternalError "UnicodeEncodeError") else None.

(** [for chunk in iterable: fp.write(chunk)]: the outcome of the loop and
    what has been written when it ends or raises. *)
Fixpoint write_chunks (cs : list (result string)) (written : string)
  : result unit * string :=
  match cs with
  | [] => (Ok tt, written)
  | inl e :: _ => (Err e, written)
  | inr text :: cs' =>
      match encode_error text with
      | Some e => (Err e, written)
      | None => write_chunks cs' (written +:+ text)
      end
  end.

(** [json.dump(v, fp, ensure_ascii=False, indent=2)] on a file that has just
    been opened for writing: its outcome and the text in the file. *)
Definition json_dump_result (v : json) : result unit * string :=
  write_chunks (chunks 0 v) EmptyString.

(** ** [json.load(f)] *)

(** [WHITESPACE]: space, TAB, LF, CR. *)
Definition is_ws (c : ascii) : bool :=
  let n := N_of_ascii c in
  (n =? 32)%N || (n =? 9)%N || (n =? 10)%N || (n =? 13)%N.

Fixpoint skip_ws (s : string) : string :=
  match s with
  | EmptyString => EmptyString
  | String c s' => if is_ws c then skip_ws s' else s
  end.

Definition is_digit (c : ascii) : bool :=
  let n := N_of_ascii c in (48 <=? n)%N && (n <=? 57)%N.

Definition hex_value (c : ascii) : option N :=
  let n := N_of_ascii c in
  if (48 <=? n)%N && (n <=? 57)%N then Some (n - 48)%N
  else if (97 <=? n)%N && (n <=? 102)%N then Some (n - 87)%N
  else if (65 <=? n)%N && (n <=? 70)%N then Some (n - 55)%N
  else None.

(** [_decode_uXXXX]: four hexadecimal digits. *)
Definition hex4 (a b c d : ascii) : option N :=
  match hex_value a, hex_value b, hex_value c, hex_value d with
  | Some x, Some y, Some z, Some t => Some (((x * 16 + y) * 16 + z) * 16 + t)%N
  | _, _, _, _ => None
  end.

(** [chr(u)] in the UTF-8 representation of texts (a surrogate that stands
    alone gets the three bytes of its code point). *)
Definition utf8_cont (x : N) : ascii := ascii_of_N (128 + x mod 64).

Definition utf8_char (u : N) : string :=
  if (u <? 128)%N then String (ascii_of_N u) EmptyString
  else if (u <? 2048)%N
  then String (ascii_of_N (192 + u / 64)) (String (utf8_cont u) EmptyString)
  else if (u <? 65536)%N
  then String (ascii_of_N (224 + u / 4096))
         (String (utf8_cont (u / 64)) (String (utf8_cont u) EmptyString))
  else String (ascii_of_N (240 + u / 262144))
         (String (utf8_cont (u / 4096))
            (String (utf8_cont (u / 64)) (String (utf8_cont u) EmptyString))).

(** [BACKSLASH]: the character a two-character escape stands for. *)
Definition backslash (esc : ascii) : option ascii :=
  let n := N_of_ascii esc in
  if (n =? 34)%N || (n =? 92)%N || (n =? 47)%N then Some esc
  else if (n =? 98)%N then Some (PyStr.byte 8)
  else if (n =? 102)%N then Some (PyStr.byte 12)
  else if (n =? 110)%N then Some (PyStr.byte 10)
  else if (n =? 114)%N then Some (PyStr.byte 13)
  else if (n =? 116)%N then Some (PyStr.byte 9)
  else None.

Definition is_high_surrogate (u : N) : bool := (55296 <=? u)%N && (u <=? 56319)%N.
Definition is_low_surrogate (u : N) : bool := (56320 <=? u)%N && (u <=? 57343)%N.
Definition join_surrogates (u u2 : N) : N :=
  (65536 + ((u - 55296) * 1024 + (u2 - 56320)))%N.

Definition prepend (chunk : string) (r : option (string * string))
  : option (string * string) :=
  match r with
  | Some (content, rest) => Some (chunk +:+ content, rest)
  | None => None
  end.

(** [scanstring(s, end, strict=True)], from the character after the opening
    quote: the decoded text and what follows the closing quote. *)
Fixpoint scanstring (s : string) : option (string * string) :=
  match s with
  | EmptyString => None
  | String c s1 =>
      let n := N_of_ascii c in
      if (n =? 34)%N then Some (EmptyString, s1)
      else if (n <? 32)%N then None
      else if negb (n =? 92)%N then prepend (String c EmptyString) (scanstring s1)
      else
        match s1 with
        | EmptyString => None
        | String esc s2 =>
            if negb (Ascii.eqb esc "u") then
              match backslash esc with
              | Some ch => prepend (String ch EmptyString) (scanstring s2)
              | None => None
              end
            else
              match s2 with
              | String h1 (String h2 (String h3 (String h4 s3))) =>
                  match hex4 h1 h2 h3 h4 with
                  | None => None
                  | Some uni =>
                      match s3 with
                      | String b (String u (String g1 (String g2 (String g3 (String g4 s4))))) =>
                          if is_high_surrogate uni && Ascii.eqb b "\" && Ascii.eqb u "u"
                          then match hex4 g1 g2 g3 g4 with
                               | None => None
                               | Some uni2 =>
                                   if is_low_surrogate uni2
                                   then prepend (utf8_char (join_surrogates uni uni2))
                                          (scanstring s4)
                                   else prepend (utf8_char uni) (scanstring s3)
                               end
                          else prepend (utf8_char uni) (scanstring s3)
                      | _ => prepend (utf8_char uni) (scanstring s3)
                      end
                  end
              | _ => None
              end
        end
  end.

(** The digits a text starts with, and the rest. *)
Fixpoint span_digits (s : string) : string * string :=
  match s with
  | EmptyString => (EmptyString, EmptyString)
  | String c s' =>
      if is_digit c
      then let '(ds, rest) := span_digits s' in (String c ds, rest)
      else (EmptyString, s)
  end.

(** The integer part of [NUMBER_RE]: an optional minus sign, then a single
    zero or a digit from 1 to 9 followed by any digits. *)
Definition match_integer (s : string) : option (string * string) :=
  let '(sign, s1) :=
    match s with
    | String c s' => if Ascii.eqb c "-" then ("-", s') else (EmptyString, s)
    | EmptyString => (EmptyString, s)
    end in
  match s1 with
  | EmptyString => None
  | String c s2 =>
      if Ascii.eqb c "0" then Some (sign +:+ "0", s2)
      else if is_digit c
      then let '(ds, rest) := span_digits s2 in Some (sign +:+ String c ds, rest)
      else None
  end.

(** The optional fraction: a point and at least one digit. *)
Definition match_frac (s : string) : option string * string :=
  match s with
  | String c s1 =>
      if Ascii.eqb c "."
      then match span_digits s1 with
           | (EmptyString, _) => (None, s)
           | (ds, rest) => (Some (String c ds), rest)
           end
      else (None, s)
  | EmptyString => (None, s)
  end.

(** The optional exponent: e or E, an optional sign, at least one digit. *)
Definition match_exp (s : string) : option string * string :=
  match s with
  | String e s1 =>
      if Ascii.eqb e "e" || Ascii.eqb e "E"
      then
        let '(sign, s2) :=
          match s1 with
          | String c s' =>
              if Ascii.eqb c "-" || Ascii.eqb c "+"
              then (String c EmptyString, s') else (EmptyString, s1)
          | EmptyString => (EmptyString, s1)
          end in
        match span_digits s2 with
        | (EmptyString, _) => (None, s)
        | (ds, rest) => (Some (String e (sign +:+ ds)), rest)
        end
      else (None, s)
  | EmptyString => (None, s)
  end.

(** [int(text)] for a text [match_integer] accepted. *)
Definition parse_int (text : string) : Z :=
  match NilZero.int_of_string text with
  | Some d => Z.of_int d
  | None => 0
  end.

(** [NUMBER_RE] and the choice between [int] and [float]. *)
Definition match_number (s : string) : option (json * string) :=
  match match_integer s with
  | None => None
  | Some (integer, s1) =>
      let '(frac, s2) := match_frac s1 in
      let '(exp, s3) := match_exp s2 in
      match frac, exp with
      | None, None => Some (JInt (parse_int integer), s3)
      | _, _ =>
          let text := integer +:+ default EmptyString frac +:+ default EmptyString exp in
          Some (JFloat (float_of_str text), s3)
      end
  end.

(** [s[idx:idx + len(word)] == word]: the rest after [word]. *)
Fixpoint strip_prefix (word s : string) : option string :=
  match word, s with
  | EmptyString, _ => Some s
  | String a word', String b s' =>
      if Ascii.eqb a b then strip_prefix word' s' else None
  | String _ _, EmptyString => None
  end.

(** [d[k] = v] *)
Fixpoint dict_set (d : dict) (k : string) (v : json) : dict :=
  match d with
  | [] => [(k, v)]
  | (k', v') :: d' =>
      if String.eqb k' k then (k', v) :: d' else (k', v') :: dict_set d' k v
  end.

(** [dict(pairs)] *)
Definition dict_of_pairs (pairs : list (string * json)) : dict :=
  fold_left (fun d '(k, v) => dict_set d k v) pairs [].

(** [scan_once], [JSONObject] and [JSONArray].  [None] is a
    [JSONDecodeError].  The three call each other; [fuel] bounds the number
    of calls, and a text never needs more of them than it has characters.
    [object_items] starts after the opening quote of a key and returns the
    pairs up to the closing brace; [array_items] starts at a value and
    returns the values up to the closing bracket. *)
Fixpoint scan_once (fuel : nat) (s : string) {struct fuel}
  : option (json * string) :=
  match fuel with
  | O => None
  | S fuel' =>
      match s with
      | EmptyString => None
      | String c s1 =>
          if Ascii.eqb c PyStr.dquote then
            match scanstring s1 with
            | Some (text, rest) => Some (JStr text, rest)
            | None => None
            end
          else if Ascii.eqb c "{" then
            match skip_ws s1 with
            | String c2 s2 =>
                if Ascii.eqb c2 "}" then Some (JDict [], s2)
                else if Ascii.eqb c2 PyStr.dquote then
                  match object_items fuel' s2 with
                  | Some (pairs, rest) => Some (JDict (dict_of_pairs pairs), rest)
                  | None => None
                  end
                else None
            | EmptyString => None
            end
          else if Ascii.eqb c "[" then
            match skip_ws s1 with
            | String c2 s2 =>
                if Ascii.eqb c2 "]" then Some (JList [], s2)
                else
                  match array_items fuel' (String c2 s2) with
                  | Some (values, rest) => Some (JList values, rest)
                  | None => None
                  end
            | EmptyString => None
            end
          else
            match strip_prefix "null" s, strip_prefix "true" s, strip_prefix "false" s with
            | Some rest, _, _ => Some (JNull, rest)
            | _, Some rest, _ => Some (JBool true, rest)
            | _, _, Some rest => Some (JBool false, rest)
            | None, None, None =>
                match match_number s with
                | Some r => Some r
                | None =>
                    match strip_prefix "NaN" s, strip_prefix "Infinity" s,
                          strip_prefix "-Infinity" s with
                    | Some rest, _, _ => Some (JFloat (float_of_str "nan"), rest)
                    | _, Some rest, _ => Some (JFloat (float_of_str "inf"), rest)
                    | _, _, Some rest => Some (JFloat (float_of_str "-inf"), rest)
                    | None, None, None => None
                    end
                end
            end
      end
  end

with object_items (fuel : nat) (s : string) {struct fuel}
  : option (list (string * json) * string) :=
  match fuel with
  | O => None
  | S fuel' =>
      match scanstring s with
      | None => None
      | Some (key, s1) =>
          match skip_ws s1 with
          | String c s2 =>
              if negb (Ascii.eqb c ":") then None
              else
                match scan_once fuel' (skip_ws s2) with
                | None => None
                | Some (value, s3) =>
                    match skip_ws s3 with
                    | String c2 s4 =>
                        if Ascii.eqb c2 "}" then Some ([(key, value)], s4)
                        else if negb (Ascii.eqb c2 ",") then None
                        else
                          match skip_ws s4 with
                          | String c3 s5 =>
                              if negb (Ascii.eqb c3 PyStr.dquote) then None
                              else
                                match object_items fuel' s5 with
                                | Some (pairs, rest) => Some ((key, value) :: pairs, rest)
                                | None => None
                                end
                          | EmptyString => None
                          end
                    | EmptyString => None
                    end
                end
          | EmptyString => None
          end
      end
  end

with array_items (fuel : nat) (s : string) {struct fuel}
  : option (list json * string) :=
  match fuel with
  | O => None
  | S fuel' =>
      match scan_once fuel' s with
      | None => None
      | Some (value, s1) =>
          match skip_ws s1 with
          | String c s2 =>
              if Ascii.eqb c "]" then Some ([value], s2)
              else if negb (Ascii.eqb c ",") then None
              else
                match array_items fuel' (skip_ws s2) with
                | Some (values, rest) => Some (value :: values, rest)
                | None => None
                end
          | EmptyString => None
          end
      end
  end.

(** The byte order mark U+FEFF, which [json.loads] refuses. *)
Definition bom : string :=
  String (PyStr.byte 239) (String (PyStr.byte 187) (String (PyStr.byte 191) EmptyString)).

(** [json.loads(s)]: one value between white space, and nothing after it. *)
Definition loads (s : string) : option json :=
  match strip_prefix bom s with
  | Some _ => None
  | None =>
      match scan_once (S (String.length s)) (skip_ws s) with
      | Some (v, rest) =>
          match skip_ws rest with
          | EmptyString => Some v
          | String _ _ => None
          end
      | None => None
      end
  end.

(** ** The outside world and the effects of a stage *)

(** What a run leaves behind, in order: the log events (the [event=...] name
    of each [logger.info] and [logger.exception] line), the waits of the
    task engine between two attempts, and the calls to the collaborators. *)
Inductive event :=
| Log (name : string)
| Sleep (seconds : Z)
| HttpGet (url : string)
| MongoClient (client : nat) (uri : string)
| InsertOne (client : nat) (db collection : string)
| Close (client : nat).

(** The reply to one [requests.get]: the call raises, or it returns a
    response with its status code and, when the body is JSON, the document
    [response.json()] builds. *)
Inductive http_outcome :=
| RequestError (e : exn)
| Response (status_code : Z) (body : option json).

(** The fate of one [try] block of the loader: the construction of the client
    raises; the client is there and [client[DB_NAME]] or
    [db[COLLECTION_NAME]] raises (the driver refuses a name, the empty one
    for instance), so that [insert_one] is not called; [insert_one] raises;
    or the insert returns the id the store generated. *)
Inductive mongo_outcome :=
| ClientError (e : exn)
| HandleError (e : exn)
| InsertError (e : exn)
| Inserted (inserted_id : string).

(** The state a stage can change: the files, and how many times each
    collaborator has been called (the collaborators answer by call number). *)
Record world := mkWorld {
  files : filesystem;
  http_calls : nat;
  open_calls : nat;
  mongo_calls : nat;
  clock_reads : nat;
}.

(** The collaborators. *)
Variable http_reply : nat -> string -> http_outcome.
Variable open_error : nat -> string -> option exn.
Variable mongo_reply : nat -> mongo_outcome.
Variable now_isoformat : nat -> string.

(** The settings read when the module is loaded. *)
Variable MONGO_URI API_KEY DB_NAME COLLECTION_NAME : string.

(** A stage: from a world to an outcome, the events of the run and the world
    after it. *)
Definition M (A : Type) : Type := world -> result A * list event * world.

Definition ret {A} (a : A) : M A := fun w => (Ok a, [], w).

Definition raise {A} (e : exn) : M A := fun w => (Err e, [], w).

Definition bindM {A B} (m : M A) (f : A -> M B) : M B :=
  fun w =>
    let '(r, t1, w1) := m w in
    match r with
    | inl e => (inl e, t1, w1)
    | inr a => let '(r2, t2, w2) := f a w1 in (r2, t1 ++ t2, w2)
    end.

Notation "'run' x ':=' m 'in' k" := (bindM m (fun x => k))
  (at level 10, x pattern, m at level 100, k at level 200).
Notation "'exec' m 'in' k" := (bindM m (fun _ => k))
  (at level 10, m at level 100, k at level 200).

Definition emit (ev : event) : M unit := fun w => (Ok tt, [ev], w).

(** A pure computation that may raise. *)
Definition lift {A} (r : result A) : M A := fun w => (r, [], w).

(** [try: body / except Exception: <log on_error>; raise / finally: final]:
    the exception of the body, when there is one, is raised again unchanged
    after the two blocks. *)
Definition try_except_finally {A} (body : M A) (on_error : list event)
    (final : list event) : M A :=
  fun w =>
    let '(r, t, w1) := body w in
    match r with
    | inl e => (inl e, t ++ on_error ++ final, w1)
    | inr a => (inr a, t ++ final, w1)
    end.

(** ** The task engine: [@task(retries=..., retry_delay_seconds=...)] *)

(** The engine is Prefect's, outside the repository; this is its documented
    behaviour for a task called in a flow.  A call of a task runs its
    function; when the run raises and retries are left, the engine waits
    [retry_delay_seconds] and runs it again: [retries] counts the runs after
    the first.  The value of the first run that returns is the value of the
    call; when no retry is left, the exception of the last run is raised.
    The number returned is the count of runs made. *)
Fixpoint run_task {A} (retries_left : nat) (delay : Z) (fn : M A)
    (w : world) : result A * nat * list event * world :=
  let '(r, t, w1) := fn w in
  match r, retries_left with
  | inr a, _ => (inr a, 1%nat, t, w1)
  | inl e, O => (inl e, 1%nat, t, w1)
  | inl e, S n =>
      let '(r', runs, t', w') := run_task n delay fn w1 in
      (r', S runs, t ++ Sleep delay :: t', w')
  end.

(** The largest number of runs a call can make. *)
Definition max_attempts (retries_allowed : nat) : nat := S retries_allowed.

(** The options of the five [@task] decorators; [retries] is 0 and the
    delay 0 when the decorator names none. *)
Record task_options := mkTask {
  retries : nat;
  retry_delay_seconds : Z;
}.

Definition task_extraer_datos_clima : task_options := mkTask 3 5.
Definition task_transformar_datos : task_options := mkTask 0 0.
Definition task_guardar_json : task_options := mkTask 2 2.
Definition task_leer_json : task_options := mkTask 2 2.
Definition task_cargar_a_mongo : task_options := mkTask 3 5.

(** The call of a task as the flow sees it. *)
Definition call_task {A} (options : task_options) (fn : M A) : M A :=
  fun w =>
    let '(r, _, t, w') :=
      run_task (retries options) (retry_delay_seconds options) fn w in
    (r, t, w').

(** The world in which run number [i] (from 0) of a task starts. *)
Fixpoint world_before {A} (fn : M A) (w : world) (i : nat) : world :=
  match i with
  | O => w
  | S j => snd (fn (world_before fn w j))
  end.

(** The outcome of run number [i]. *)
Definition attempt_outcome {A} (fn : M A) (w : world) (i : nat) : result A :=
  fst (fst (fn (world_before fn w i))).

(** ** The five stages *)

Definition count_http (w : world) : world :=
  mkWorld (files w) (S (http_calls w)) (open_calls w) (mongo_calls w) (clock_reads w).

Definition count_open (w : world) : world :=
  mkWorld (files w) (http_calls w) (S (open_calls w)) (mongo_calls w) (clock_reads w).

Definition count_mongo (w : world) : world :=
  mkWorld (files w) (http_calls w) (open_calls w) (S (mongo_calls w)) (clock_reads w).

Definition count_clock (w : world) : world :=
  mkWorld (files w) (http_calls w) (open_calls w) (mongo_calls w) (S (clock_reads w)).

Definition set_file (path text : string) (w : world) : world :=
  mkWorld (<[path := text]> (files w)) (http_calls w) (open_calls w)
    (mongo_calls w) (clock_reads w).

Definition weather_url (ciudad : string) : string :=
  "https://api.openweathermap.org/data/2.5/weather?q=" +:+ ciudad
  +:+ "&appid=" +:+ API_KEY +:+ "&units=metric".

(** [requests.get(url, timeout=30)]: the status code and the body. *)
Definition requests_get (url : string) : M (Z * option json) :=
  fun w =>
    match http_reply (http_calls w) url with
    | RequestError e => (Err e, [HttpGet url], count_http w)
    | Response status_code body => (Ok (status_code, body), [HttpGet url], count_http w)
    end.

(** [response.raise_for_status()]: the 4xx and 5xx codes raise. *)
Definition raise_for_status (status_code : Z) : result unit :=
  if (400 <=? status_code) && (status_code <? 600)
  then Err (HTTPError status_code)
  else Ok tt.

(** [response.json()] *)
Definition response_json (body : option json) : result json :=
  match body with
  | Some v => Ok v
  | None => Err JSONDecodeError
  end.

(** [if not isinstance(data, dict) or not data: raise ValueError(msg)] *)
Definition nonempty_dict (msg : string) (data : json) : result dict :=
  match data with
  | JDict (p :: d) => Ok (p :: d)
  | _ => Err (ValueError msg)
  end.

Definition extraer_datos_clima (ciudad : string) : M dict :=
  try_except_finally
    (exec emit (Log "extract_start") in
     run response := requests_get (weather_url ciudad) in
     exec lift (raise_for_status (fst response)) in
     run data := lift (response_json (snd response)) in
     run data := lift (nonempty_dict "Respuesta vacía o inválida de la API." data) in
     exec emit (Log "extract_success") in
     ret data)
    [Log "extract_error"] [Log "extract_time"].

(** The checks, the dict display and the arguments of the log line.
    [datetime.now()] is the last entry of the display: the clock is read
    when the checks have passed and every entry before it was built, also
    when the log line after the display then raises. *)
Definition transformar_reloj (data : dict) : M dict :=
  fun w =>
    let now := now_isoformat (clock_reads w) in
    (transformar now data, [],
     match validar data, construir_registro now data with
     | inr _, inr _ => count_clock w
     | _, _ => w
     end).

Definition transformar_datos (data : dict) : M dict :=
  try_except_finally
    (exec emit (Log "transform_start") in
     run registro_clima := transformar_reloj data in
     exec emit (Log "transform_success") in
     ret registro_clima)
    [Log "transform_error"] [Log "transform_time"].

(** [open(path, mode)]: the operating system may refuse. *)
Definition open_file (path : string) : M unit :=
  fun w =>
    match open_error (open_calls w) path with
    | Some e => (Err e, [], count_open w)
    | None => (Ok tt, [], count_open w)
    end.

(** [open(path, "w", encoding="utf-8")]: when the operating system does not
    refuse, the file is there and empty. *)
Definition open_write (path : string) : M unit :=
  fun w =>
    match open_error (open_calls w) path with
    | Some e => (Err e, [], count_open w)
    | None => (Ok tt, [], set_file path EmptyString (count_open w))
    end.

(** [json.dump(obj, fp, ensure_ascii=False, indent=2)] inside the [with]
    block: the pieces are written one after the other, and the file is
    closed with what was written, also when a piece raises. *)
Definition json_dump (v : json) (path : string) : M unit :=
  fun w =>
    let '(r, text) := json_dump_result v in
    (r, [], set_file path text w).

Definition guardar_json (registro_clima : dict) (json_path : string) : M string :=
  try_except_finally
    (exec emit (Log "save_json_start") in
     exec open_write json_path in
     exec json_dump (JDict registro_clima) json_path in
     exec emit (Log "save_json_success") in
     ret json_path)
    [Log "save_json_error"] [Log "save_json_time"].

(** The text of a file opened for reading. *)
Definition read_text (path : string) : M string :=
  fun w =>
    match files w !! path with
    | Some text => (Ok text, [], w)
    | None => (Err (ExternalError "FileNotFoundError"), [], w)
    end.

(** [json.load(json_file)] *)
Definition json_load (text : string) : result json :=
  match loads text with
  | Some v => Ok v
  | None => Err JSONDecodeError
  end.

Definition leer_json (json_path : string) : M dict :=
  try_except_finally
    (exec emit (Log "read_json_start") in
     exec open_file json_path in
     run text := read_text json_path in
     run data := lift (json_load text) in
     run data :=
       lift (nonempty_dict "El JSON leído está vacío o no tiene formato de objeto." data) in
     exec emit (Log "read_json_success") in
     ret data)
    [Log "read_json_error"] [Log "read_json_time"].

Definition inserted_message (inserted_id : string) : string :=
  "Documento insertado en MongoDB con _id=" +:+ inserted_id.

(** The [try] block of [cargar_a_mongo], with the value the variable
    [client] has when the block is left ([None] until the constructor has
    returned). *)
Definition cargar_try (data_from_json : dict)
  : world -> option nat * (result string * list event * world) :=
  fun w =>
    let c := mongo_calls w in
    match mongo_reply c with
    | ClientError e => (None, (Err e, [Log "load_start"], count_mongo w))
    | HandleError e =>
        (Some c, (Err e, [Log "load_start"; MongoClient c MONGO_URI], count_mongo w))
    | InsertError e =>
        (Some c, (Err e, [Log "load_start"; MongoClient c MONGO_URI; InsertOne c DB_NAME COLLECTION_NAME], count_mongo w))
    | Inserted inserted_id =>
        (Some c,
         (Ok (inserted_message inserted_id),
          [Log "load_start"; MongoClient c MONGO_URI; InsertOne c DB_NAME COLLECTION_NAME; Log "load_success"],
          count_mongo w))
    end.

(** [finally: if client is not None: client.close()], then the time line. *)
Definition cargar_finally (client : option nat) : list event :=
  match client with
  | Some c => [Close c; Log "load_time"]
  | None => [Log "load_time"]
  end.

Definition cargar_a_mongo (data_from_json : dict) : M string :=
  fun w =>
    let '(client, body) := cargar_try data_from_json w in
    try_except_finally (fun _ => body) [Log "load_error"] (cargar_finally client) w.

(** ** The flow *)

Definition clima_flow (ciudad json_path : string) : M unit :=
  try_except_finally
    (exec emit (Log "flow_start") in
     run data := call_task task_extraer_datos_clima (extraer_datos_clima ciudad) in
     run registro_clima := call_task task_transformar_datos (transformar_datos data) in
     run ruta_json := call_task task_guardar_json (guardar_json registro_clima json_path) in
     run data_from_json := call_task task_leer_json (leer_json ruta_json) in
     run resultado := call_task task_cargar_a_mongo (cargar_a_mongo data_from_json) in
     run ciudad_registro := lift (dict_getitem registro_clima "ciudad") in
     exec lift (normalize_check ciudad_registro) in
     exec lift (dict_getitem registro_clima "temperatura") in
     exec emit (Log "flow_success") in
     ret tt)
    [Log "flow_error"] [Log "flow_time"].

(** ** Notions used to state the properties *)

(** The outcome of a run of the extractor for a reply of the provider. *)
Definition reply_result (o : http_outcome) : result dict :=
  match o with
  | RequestError e => Err e
  | Response status_code body =>
      let* _ := raise_for_status status_code in
      let* data := response_json body in
      nonempty_dict "Respuesta vacía o inválida de la API." data
  end.

(** The events of one run of the extractor that raises. *)
Definition failed_extract_events (ciudad : string) : list event :=
  [Log "extract_start"; HttpGet (weather_url ciudad); Log "extract_error";
   Log "extract_time"].

(** The clients that are open after a trace, given how many were open
    before it; [None] when the trace closes a client that is not open. *)
Fixpoint open_clients (t : list event) (opened : nat) : option nat :=
  match t with
  | [] => Some opened
  | MongoClient _ _ :: t' => open_clients t' (S opened)
  | Close _ :: t' =>
      match opened with
      | O => None
      | S n => open_clients t' n
      end
  | _ :: t' => open_clients t' opened
  end.

Definition is_client (ev : event) : bool :=
  match ev with MongoClient _ _ => true | _ => false end.

Definition is_close (ev : event) : bool :=
  match ev with Close _ => true | _ => false end.

(** How many events of a trace satisfy a test. *)
Fixpoint count_events (p : event -> bool) (t : list event) : nat :=
  match t with
  | [] => 0%nat
  | ev :: t' => ((if p ev then 1 else 0) + count_events p t')%nat
  end.

(** The events of the stages after the extraction. *)
Definition later_stage_event (ev : event) : bool :=
  match ev with
  | Log name =>
      negb (String.eqb name "flow_start" || String.eqb name "flow_error"
            || String.eqb name "flow_time" || String.eqb name "extract_start"
            || String.eqb name "extract_success" || String.eqb name "extract_error"
            || String.eqb name "extract_time")
  | Sleep _ | HttpGet _ => false
  | MongoClient _ _ | InsertOne _ _ _ | Close _ => true
  end.

(** The events of the loader. *)
Definition loader_event (ev : event) : bool :=
  match ev with
  | Log name =>
      String.eqb name "load_start" || String.eqb name "load_success"
      || String.eqb name "load_error" || String.eqb name "load_time"
  | MongoClient _ _ | InsertOne _ _ _ | Close _ => true
  | Sleep _ | HttpGet _ => false
  end.

(** A message names a key when the [repr] of the key occurs in it. *)
Definition mentions (msg key : string) : Prop :=
  exists before after, msg = before +:+ repr_str key +:+ after.

(** The names of the fields of a record, in the order of the dict display. *)
Definition campos_registro : list string :=
  ["ciudad"; "pais"; "temperatura"; "sensacion_termica"; "temp_min";
   "temp_max"; "humedad"; "presion"; "descripcion"; "icono"; "nubosidad";
   "viento_velocidad"; "viento_direccion"; "visibilidad"; "amanecer";
   "atardecer"; "coordenadas"; "timestamp"].

(** The values the transformation reads in a payload. *)
Record campos := mkCampos {
  c_name : string;
  c_country : json;
  c_sunrise : json;
  c_sunset : json;
  c_temp : json;
  c_feels_like : json;
  c_temp_min : json;
  c_temp_max : json;
  c_humidity : json;
  c_pressure : json;
  c_description : json;
  c_icon : json;
  c_all : json;
  c_lat : json;
  c_lon : json;
}.

(** The payload holds the sections [name], [sys], [main], [weather] and
    [clouds] with the fields read in them: [name] is a text, [sys], [main]
    and [clouds] are objects, [weather] is a list whose first item is an
    object. *)
Definition secciones (data : dict) (c : campos) : Prop :=
  dict_get data "name" = Some (JStr (c_name c))
  /\ (exists sys,
        dict_get data "sys" = Some (JDict sys)
        /\ dict_get sys "country" = Some (c_country c)
        /\ dict_get sys "sunrise" = Some (c_sunrise c)
        /\ dict_get sys "sunset" = Some (c_sunset c))
  /\ (exists main,
        dict_get data "main" = Some (JDict main)
        /\ dict_get main "temp" = Some (c_temp c)
        /\ dict_get main "feels_like" = Some (c_feels_like c)
        /\ dict_get main "temp_min" = Some (c_temp_min c)
        /\ dict_get main "temp_max" = Some (c_temp_max c)
        /\ dict_get main "humidity" = Some (c_humidity c)
        /\ dict_get main "pressure" = Some (c_pressure c))
  /\ (exists first others,
        dict_get data "weather" = Some (JList (JDict first :: others))
        /\ dict_get first "description" = Some (c_description c)
        /\ dict_get first "icon" = Some (c_icon c))
  /\ (exists clouds,
        dict_get data "clouds" = Some (JDict clouds)
        /\ dict_get clouds "all" = Some (c_all c)).

(** The section [coord] is an object with both coordinates. *)
Definition seccion_coord (data : dict) (c : campos) : Prop :=
  exists coord,
    dict_get data "coord" = Some (JDict coord)
    /\ dict_get coord "lat" = Some (c_lat c)
    /\ dict_get coord "lon" = Some (c_lon c).

(** The optional section [wind]: absent, or an object [wind]. *)
Definition seccion_wind (data : dict) (wind : dict) : Prop :=
  (dict_get data "wind" = None /\ wind = [])
  \/ dict_get data "wind" = Some (JDict wind).

(** The two sun times are timestamps the platform accepts. *)
Definition horas (c : campos) (sunrise sunset : Z) : Prop :=
  time_t_of (c_sunrise c) = Ok sunrise /\ timestamp_error sunrise = None
  /\ time_t_of (c_sunset c) = Ok sunset /\ timestamp_error sunset = None.

(** The record the transformation builds from those values. *)
Definition registro_esperado (data : dict) (c : campos) (wind : dict)
    (sunrise sunset : Z) (now : string) : dict :=
  [ ("ciudad", JStr (c_name c));
    ("pais", c_country c);
    ("temperatura", c_temp c);
    ("sensacion_termica", c_feels_like c);
    ("temp_min", c_temp_min c);
    ("temp_max", c_temp_max c);
    ("humedad", c_humidity c);
    ("presion", c_pressure c);
    ("descripcion", c_description c);
    ("icono", c_icon c);
    ("nubosidad", c_all c);
    ("viento_velocidad", default (JInt 0) (dict_get wind "speed"));
    ("viento_direccion", default (JInt 0) (dict_get wind "deg"));
    ("visibilidad", default (JInt 0) (dict_get data "visibility"));
    ("amanecer", JStr (strftime_HMS (sunrise + utcoffset sunrise)));
    ("atardecer", JStr (strftime_HMS (sunset + utcoffset sunset)));
    ("coordenadas", JDict [("latitud", c_lat c); ("longitud", c_lon c)]);
    ("timestamp", JStr now) ].

(** The entries of the dict display of the transformation, in the order
    written, each with what evaluating it alone gives: its value, or the
    exception it raises. *)
Definition entradas (now : string) (data : dict) : list (string * result json) :=
  [ ("ciudad", dict_getitem data "name");
    ("pais", item2 data "sys" "country");
    ("temperatura", item2 data "main" "temp");
    ("sensacion_termica", item2 data "main" "feels_like");
    ("temp_min", item2 data "main" "temp_min");
    ("temp_max", item2 data "main" "temp_max");
    ("humedad", item2 data "main" "humidity");
    ("presion", item2 data "main" "pressure");
    ("descripcion", weather0 data "description");
    ("icono", weather0 data "icon");
    ("nubosidad", item2 data "clouds" "all");
    ("viento_velocidad", wind data "speed");
    ("viento_direccion", wind data "deg");
    ("visibilidad", Ok (dict_get_default data "visibility" (JInt 0)));
    ("amanecer", let* sunrise := item2 data "sys" "sunrise" in hora_local sunrise);
    ("atardecer", let* sunset := item2 data "sys" "sunset" in hora_local sunset);
    ("coordenadas",
     let* latitud := item2 data "coord" "lat" in
     let* longitud := item2 data "coord" "lon" in
     Ok (JDict [("latitud", latitud); ("longitud", longitud)]));
    ("timestamp", Ok (JStr now)) ].

(** The exception of the first entry that raises. *)
Fixpoint primera_falla (l : list (string * result json)) : option exn :=
  match l with
  | [] => None
  | (_, inl e) :: _ => Some e
  | (_, inr _) :: l' => primera_falla l'
  end.

(** ** Documents that survive the checkpoint *)

(** A character that cannot continue a number: a number followed by such a
    character, or by nothing, is read whole. *)
Definition number_end (rest : string) : bool :=
  match rest with
  | EmptyString => true
  | String c _ =>
      negb (is_digit c || Ascii.eqb c "." || Ascii.eqb c "e" || Ascii.eqb c "E"
            || Ascii.eqb c "+" || Ascii.eqb c "-")
  end.

(** A text whose first character is not a digit. *)
Definition no_digit_head (rest : string) : Prop :=
  match rest with
  | EmptyString => True
  | String c _ => is_digit c = false
  end.

(** A text that starts with a character that is not white space. *)
Definition starts_value (s : string) : Prop :=
  exists c s', s = String c s' /\ is_ws c = false.

(** [NUMBER_RE] matches the whole text, with a fraction or an exponent. *)
Definition float_literal (text : string) : bool :=
  match match_integer text with
  | None => false
  | Some (_, s1) =>
      let '(frac, s2) := match_frac s1 in
      let '(exp, s3) := match_exp s2 in
      String.eqb s3 EmptyString
      && match frac, exp with None, None => false | _, _ => true end
  end.

(** A finite float: its [repr] is a decimal literal, and [float] of that
    literal is the float again ([repr] gives the shortest text with this
    property). *)
Definition float_text_ok (f : float) : Prop :=
  float_literal (float_repr f) = true /\ float_of_str (float_repr f) = f.

(** A document as Python can hold it and write it: the keys of a dict are
    distinct, and the floats are finite. *)
#[local] Unset Elimination Schemes.
Inductive well_formed : json -> Prop :=
| wf_null : well_formed JNull
| wf_bool (b : bool) : well_formed (JBool b)
| wf_int (z : Z) : well_formed (JInt z)
| wf_float (f : float) : float_text_ok f -> well_formed (JFloat f)
| wf_str (s : string) : well_formed (JStr s)
| wf_list (l : list json) : Forall well_formed l -> well_formed (JList l)
| wf_dict (d : dict) :
    NoDup (map fst d) -> Forall (fun kv => well_formed kv.2) d ->
    well_formed (JDict d).
#[local] Set Elimination Schemes.

(** The number of calls of [scan_once], [object_items] and [array_items] the
    text of a document needs at most. *)
Fixpoint scan_size (v : json) : nat :=
  match v with
  | JList l =>
      S ((fix sum (l : list json) : nat :=
            match l with
            | [] => O
            | x :: l' => S (scan_size x + sum l')
            end) l)
  | JDict d =>
      S ((fix sum (d : list (string * json)) : nat :=
            match d with
            | [] => O
            | (_, x) :: d' => S (scan_size x + sum d')
            end) d)
  | _ => 1%nat
  end.

(** The text of the items of a list after the first, and of the pairs of a
    dict after the first, as [iterencode] writes them. *)
Definition list_items (level : nat) : list json -> string :=
  fix items (l : list json) : string :=
    match l with
    | [] => EmptyString
    | y :: l' =>
        "," +:+ newline_indent (S level) +:+ iterencode (S level) y +:+ items l'
    end.

Definition dict_items (level : nat) : list (string * json) -> string :=
  fix items (d : list (string * json)) : string :=
    match d with
    | [] => EmptyString
    | (k', y) :: d' =>
        "," +:+ newline_indent (S level) +:+ encode_basestring k'
        +:+ ": " +:+ iterencode (S level) y +:+ items d'
    end.

(** The parts of [scan_size] for the items of a list and the pairs of a
    dict. *)
Definition list_size : list json -> nat :=
  fix sum (l : list json) : nat :=
    match l with
    | [] => O
    | x :: l' => S (scan_size x + sum l')
    end.

Definition dict_size : list (string * json) -> nat :=
  fix sum (d : list (string * json)) : nat :=
    match d with
    | [] => O
    | (_, x) :: d' => S (scan_size x + sum d')
    end.

(** What the scanner is to return for the text of a document. *)
Definition scans_back (v : json) : Prop :=
  forall level rest fuel,
    number_end rest = true -> (scan_size v <= fuel)%nat ->
    scan_once fuel (iterencode level v +:+ rest) = Some (v, rest).

(** A document [json.dump] can write to a file opened with
    [encoding="utf-8"]: no text in it, key or value, holds a lone surrogate,
    and no [int] is over the limit on digits. *)
Fixpoint escribible (v : json) : bool :=
  match v with
  | JNull | JBool _ => true
  | JInt z => match int_str z with inl _ => false | inr _ => true end
  | JFloat f => negb (has_surrogate (float_repr f))
  | JStr s => negb (has_surrogate s)
  | JList l =>
      (fix all (l : list json) : bool :=
         match l with
         | [] => true
         | x :: l' => escribible x && all l'
         end) l
  | JDict d =>
      (fix all (d : list (string * json)) : bool :=
         match d with
         | [] => true
         | (k, x) :: d' => negb (has_surrogate k) && escribible x && all d'
         end) d
  end.

Definition escribible_items : list json -> bool :=
  fix all (l : list json) : bool :=
    match l with
    | [] => true
    | x :: l' => escribible x && all l'
    end.

Definition escribible_pairs : list (string * json) -> bool :=
  fix all (d : list (string * json)) : bool :=
    match d with
    | [] => true
    | (k, x) :: d' => negb (has_surrogate k) && escribible x && all d'
    end.

(** The pieces of the items of a list after the first, and of the pairs of a
    dict after the first. *)
Definition list_chunks (level : nat) : list json -> list (result string) :=
  fix items (l : list json) : list (result string) :=
    match l with
    | [] => []
    | y :: l' =>
        item_chunks ("," +:+ newline_indent (S level)) y (chunks (S level) y)
        ++ items l'
    end.

Definition dict_chunks (level : nat) : list (string * json) -> list (result string) :=
  fix items (d : list (string * json)) : list (result string) :=
    match d with
    | [] => []
    | (k', y) :: d' =>
        [Ok ("," +:+ newline_indent (S level)); Ok (encode_basestring k'); Ok ": "]
        ++ chunks (S level) y ++ items d'
    end.

(** A text without the byte 237. *)
Fixpoint no_byte_237 (s : string) : bool :=
  match s with
  | EmptyString => true
  | String c s' => negb (N_of_ascii c =? 237)%N && no_byte_237 s'
  end.

(** The first byte of a text is one that makes a surrogate after 237. *)
Definition head_160_191 (s : string) : bool :=
  match s with
  | EmptyString => false
  | String b _ => (160 <=? N_of_ascii b)%N && (N_of_ascii b <=? 191)%N
  end.

(** What the escape of a character is, for the search of surrogates: the
    character itself, or a text that starts with a backslash and brings in no
    byte 237, and then the character is neither 237 nor can it follow one. *)
Definition escape_char_kind (c : ascii) : bool :=
  String.eqb (escape_char c) (String c EmptyString)
  || (no_byte_237 (escape_char c)
      && negb (String.eqb (escape_char c) EmptyString)
      && negb (head_160_191 (escape_char c))
      && negb (N_of_ascii c =? 237)%N
      && negb (head_160_191 (String c EmptyString))).

(** Writing the pieces [cs] after any text: when [ok], the loop ends and has
    written [text]; otherwise it raises. *)
Definition writes (cs : list (result string)) (ok : bool) (text : string) : Prop :=
  forall written,
    if ok then write_chunks cs written = (Ok tt, written +:+ text)
    else exists e t, write_chunks cs written = (Err e, t).

(** ** Notions for the properties of whole calls and of the flow *)

(** The events of [runs] consecutive runs of a task from a world, with the
    wait of the engine between two of them. *)
Fixpoint runs_trace {A} (fn : M A) (delay : Z) (w : world) (runs : nat)
  : list event :=
  match runs with
  | O => []
  | S n =>
      (fn w).1.2
      ++ match n with
         | O => []
         | S _ => Sleep delay :: runs_trace fn delay (fn w).2 n
         end
  end.

(** Two file systems agree outside one path. *)
Definition same_files_except (path : string) (fs fs' : filesystem) : Prop :=
  forall p, p <> path -> fs' !! p = fs !! p.

(** What the loop of [load_env_file] reads in one line: nothing for a blank
    line, a comment or a line without [=]; otherwise the name before the
    first [=] and the value after it, both stripped, the value also of the
    double and then the single quotes around it. *)
Definition env_assignment (raw_line : string) : option (string * string) :=
  let line := PyStr.strip raw_line in
  if String.eqb line EmptyString || PyStr.startswith_char "#" line
     || negb (PyStr.contains_char "=" line)
  then None
  else
    let '(key, value) := PyStr.split1 "=" line in
    Some (PyStr.strip key,
          PyStr.strip_char "'" (PyStr.strip_char PyStr.dquote (PyStr.strip value))).

(** The five stages of the flow. *)
Inductive stage_name := Extract | Transform | SaveJson | ReadJson | Load.

(** The names of the log events of a stage: start, success, error, time. *)
Definition stage_logs (s : stage_name) : list string :=
  match s with
  | Extract => ["extract_start"; "extract_success"; "extract_error"; "extract_time"]
  | Transform =>
      ["transform_start"; "transform_success"; "transform_error"; "transform_time"]
  | SaveJson =>
      ["save_json_start"; "save_json_success"; "save_json_error"; "save_json_time"]
  | ReadJson =>
      ["read_json_start"; "read_json_success"; "read_json_error"; "read_json_time"]
  | Load => ["load_start"; "load_success"; "load_error"; "load_time"]
  end.

Definition success_log (s : stage_name) : string :=
  match s with
  | Extract => "extract_success"
  | Transform => "transform_success"
  | SaveJson => "save_json_success"
  | ReadJson => "read_json_success"
  | Load => "load_success"
  end.

(** The events a call of a stage can leave: its own log events, the request
    for the extraction, the calls to the store for the loader, and the waits
    of the engine between two runs. *)
Definition stage_event (s : stage_name) (ev : event) : bool :=
  match ev with
  | Log name => existsb (String.eqb name) (stage_logs s)
  | Sleep _ => true
  | HttpGet _ => match s with Extract => true | _ => false end
  | MongoClient _ _ | InsertOne _ _ _ | Close _ =>
      match s with Load => true | _ => false end
  end.

(** The two log events that end a run of the flow. *)
Definition flow_end {A} (r : result A) : list event :=
  match r with
  | inl _ => [Log "flow_error"; Log "flow_time"]
  | inr _ => [Log "flow_success"; Log "flow_time"]
  end.

(** A computation that leaves only events of a stage, at least one, and
    whose trace holds the success event of the stage exactly when it
    returns a value. *)
Definition stage_run {A} (s : stage_name) (fn : M A) : Prop :=
  forall w,
    Forall (fun ev => stage_event s ev = true) (fn w).1.2
    /\ (fn w).1.2 <> []
    /\ ((exists a, (fn w).1.1 = Ok a) <-> In (Log (success_log s)) (fn w).1.2).

(** What a computation may use of the world: the files outside [path] stay
    as they are, and the counts of the calls to the collaborators grow by at
    most [h] requests, [o] opened files, [m] connections to the store and [c]
    readings of the clock. *)
Definition footprint (path : string) (h o m c : nat) (w w' : world) : Prop :=
  same_files_except path (files w) (files w')
  /\ (http_calls w <= http_calls w' <= http_calls w + h)%nat
  /\ (open_calls w <= open_calls w' <= open_calls w + o)%nat
  /\ (mongo_calls w <= mongo_calls w' <= mongo_calls w + m)%nat
  /\ (clock_reads w <= clock_reads w' <= clock_reads w + c)%nat.

(** What a run of [leer_json] returns or raises. *)
Definition leer_json_result (json_path : string) (w : world) : result dict :=
  match open_error (open_calls w) json_path with
  | Some e => Err e
  | None =>
      match files w !! json_path with
      | None => Err (ExternalError "FileNotFoundError")
      | Some text =>
          let* data := json_load text in
          nonempty_dict "El JSON leído está vacío o no tiene formato de objeto." data
      end
  end.

(** The keys of the payload the transformation looks up. *)
Definition claves_leidas : list string :=
  ["name"; "sys"; "main"; "weather"; "clouds"; "coord"; "wind"; "visibility"].

(** A text without a double quote, a backslash or a control character; the
    bytes of the characters outside ASCII are all above 127. *)
Fixpoint plain_text (s : string) : bool :=
  match s with
  | EmptyString => true
  | String c s' =>
      let n := N_of_ascii c in
      (32 <=? n)%N && negb (n =? 34)%N && negb (n =? 92)%N && plain_text s'
  end.

(** * Properties *)

(** ** Configuration *)

Lemma environ_setdefault_keeps (key value : string) (env env' : environ)
    (k v : string) :
  environ_setdefault key value env = inr env' ->
  env !! k = Some v -> env' !! k = Some v.
Proof.
  unfold environ_setdefault. intros Hset Hk.
  destruct (env !! key) as [old|] eqn:Hkey.
  - injection Hset as <-. exact Hk.
  - destruct (putenv_error key value); [discriminate|].
    injection Hset as <-.
    rewrite lookup_insert_ne; [exact Hk|].
    intros ->. rewrite Hk in Hkey. discriminate.
Qed.

Lemma load_env_lines_keeps (raw_lines : list string) :
  forall (env : environ) (k v : string),
    env !! k = Some v -> (load_env_lines raw_lines env).2 !! k = Some v.
Proof.
  induction raw_lines as [|raw_line rest IH]; intros env k v Hk; simpl.
  - exact Hk.
  - destruct (_ || _ || _); [by apply IH|].
    destruct (PyStr.split1 _ _) as [key value].
    destruct (environ_setdefault _ _ env) as [e|env'] eqn:Hset; simpl.
    + exact Hk.
    + apply IH. eapply environ_setdefault_keeps; eauto.
Qed.

(** C9. A variable that is defined before [load_env_file] runs keeps its
    value, whatever the file holds and whether or not a line of it raises; a
    key changed by the call was not set before; and without a file at the
    path the call returns normally and leaves the environment as it was. *)
Theorem load_env_file_keeps_defined (default_path : string)
    (path : option string) (fs : filesystem) (env : environ) :
  (forall k v, env !! k = Some v ->
     (load_env_file default_path path fs env).2 !! k = Some v)
  /\ (forall k, (load_env_file default_path path fs env).2 !! k <> env !! k ->
        env !! k = None)
  /\ (fs !! (match path with Some p => p | None => default_path end) = None ->
      load_env_file default_path path fs env = (Ok tt, env)).
Proof.
  assert (Hkeep : forall k v, env !! k = Some v ->
            (load_env_file default_path path fs env).2 !! k = Some v).
  { intros k v Hk. unfold load_env_file.
    destruct (fs !! _); [by apply load_env_lines_keeps | exact Hk]. }
  split; [exact Hkeep|]. split.
  - intros k Hne. destruct (env !! k) as [v|] eqn:Hk; [|done].
    exfalso. apply Hne. by apply Hkeep.
  - intros Hnone. unfold load_env_file. by rewrite Hnone.
Qed.

(** C10. [get_required_env] raises the configuration error when the variable
    is unset and also when it is set to the empty text; it returns a value
    exactly when the variable is set to that value and the value is not
    empty. *)
Theorem get_required_env_spec (env : environ) (var_name : string) :
  (getenv env var_name = None \/ getenv env var_name = Some EmptyString ->
   get_required_env env var_name
   = Err (ValueError (missing_env_message var_name)))
  /\ (forall value,
        get_required_env env var_name = Ok value
        <-> getenv env var_name = Some value /\ value <> EmptyString).
Proof.
  unfold get_required_env. split.
  - intros [-> | ->]; reflexivity.
  - intros value. destruct (getenv env var_name) as [v|]; simpl.
    + destruct (String.eqb_spec v EmptyString) as [-> | Hne].
      * split; [discriminate|]. intros [[= <-] H]. by destruct H.
      * split.
        -- intros [= ->]. by split.
        -- by intros [[= ->] _].
    + split; [discriminate|]. by intros [? _].
Qed.

(** ** The retry policy *)

Lemma world_before_shift {A} (fn : M A) (w : world) (i : nat) :
  world_before fn w (S i) = world_before fn (fn w).2 i.
Proof.
  induction i as [|i IH]; [reflexivity|].
  change (world_before fn w (S (S i))) with (fn (world_before fn w (S i))).2.
  by rewrite IH.
Qed.

Lemma attempt_outcome_shift {A} (fn : M A) (w : world) (i : nat) :
  attempt_outcome fn w (S i) = attempt_outcome fn (fn w).2 i.
Proof. unfold attempt_outcome. by rewrite world_before_shift. Qed.

(** The shape of every call: how many runs, which outcome, which world and
    which events. *)
Lemma run_task_shape {A} (delay : Z) (fn : M A) (n : nat) :
  forall w,
    let '(r, runs, t, w') := run_task n delay fn w in
    (1 <= runs <= S n)%nat
    /\ r = attempt_outcome fn w (runs - 1)
    /\ w' = world_before fn w runs
    /\ t = runs_trace fn delay w runs
    /\ (forall i, (i < runs - 1)%nat -> exists e, attempt_outcome fn w i = Err e)
    /\ ((runs < S n)%nat -> exists a, r = Ok a).
Proof.
  induction n as [|n IH]; intros w.
  - simpl. unfold attempt_outcome. simpl.
    destruct (fn w) as [[[e|a] t] w1] eqn:Hfn; simpl; rewrite ?Hfn; simpl;
      repeat split; try lia; try (by rewrite ?app_nil_r); intros; lia.
  - specialize (IH (fn w).2). simpl.
    destruct (fn w) as [[[e|a] t] w1] eqn:Hfn; simpl in *.
    + destruct (run_task n delay fn w1) as [[[r' runs'] t'] w'] eqn:Hrun.
      destruct IH as (Hruns & Hr & Hw & Ht & Hfail & Hlast).
      assert (Hshift : forall i, attempt_outcome fn w (S i) = attempt_outcome fn w1 i).
      { intros i. rewrite attempt_outcome_shift. by rewrite ?Hfn. }
      assert (Hwshift : forall i, world_before fn w (S i) = world_before fn w1 i).
      { intros i. rewrite world_before_shift. by rewrite ?Hfn. }
      repeat split.
      * lia.
      * lia.
      * replace (S runs' - 1)%nat with (S (runs' - 1)) by lia.
        by rewrite Hshift.
      * by rewrite Hwshift.
      * destruct runs' as [|k]; [lia|]. cbn [runs_trace]. rewrite Hfn.
        cbn [fst snd]. by rewrite Ht.
      * intros i Hi. destruct i as [|i].
        -- exists e. unfold attempt_outcome. simpl. by rewrite ?Hfn.
        -- rewrite Hshift. apply Hfail. lia.
      * intros Hlt. apply Hlast. lia.
    + repeat split; try lia.
      * unfold attempt_outcome. simpl. by rewrite ?Hfn.
      * by rewrite ?Hfn.
      * rewrite ?Hfn. simpl. by rewrite app_nil_r.
      * intros _. by exists a.
Qed.


(** A call that raises has made every run it was allowed. *)
Lemma run_task_raises {A} (delay : Z) (fn : M A) (n : nat) (w : world) (e : exn) :
  (run_task n delay fn w).1.1.1 = Err e -> (run_task n delay fn w).1.1.2 = S n.
Proof.
  pose proof (run_task_shape delay fn n w) as Hshape.
  destruct (run_task n delay fn w) as [[[r runs] t] w']. simpl.
  destruct Hshape as (Hruns & _ & _ & _ & _ & Hlast).
  intros ->. destruct (decide (runs < S n)%nat) as [Hlt|Hge]; [|lia].
  destruct (Hlast Hlt) as [a [=]].
Qed.

Lemma call_task_world {A} (options : task_options) (fn : M A) (w : world) :
  exists runs,
    (1 <= runs <= S (retries options))%nat
    /\ (call_task options fn w).2 = world_before fn w runs.
Proof.
  unfold call_task.
  pose proof (run_task_shape (retry_delay_seconds options) fn (retries options) w)
    as Hshape.
  destruct (run_task _ _ fn w) as [[[r runs] t] w'].
  destruct Hshape as (Hruns & _ & Hw & _). by exists runs.
Qed.

Lemma world_before_http {A} (fn : M A) (w : world) (runs : nat) :
  (forall w0, (fn w0).2 = count_http w0) ->
  world_before fn w runs
  = mkWorld (files w) (http_calls w + runs) (open_calls w) (mongo_calls w)
      (clock_reads w).
Proof.
  intros Hfn. induction runs as [|k IH]; simpl.
  - destruct w. simpl. f_equal. lia.
  - change (snd (fn (world_before fn w k))) with (fn (world_before fn w k)).2.
    rewrite Hfn, IH. unfold count_http. simpl. f_equal. lia.
Qed.

Lemma world_before_open {A} (fn : M A) (w : world) (runs : nat) :
  (forall w0, (fn w0).2 = count_open w0) ->
  world_before fn w runs
  = mkWorld (files w) (http_calls w) (open_calls w + runs) (mongo_calls w)
      (clock_reads w).
Proof.
  intros Hfn. induction runs as [|k IH]; simpl.
  - destruct w. simpl. f_equal. lia.
  - change (snd (fn (world_before fn w k))) with (fn (world_before fn w k)).2.
    rewrite Hfn, IH. unfold count_open. simpl. f_equal. lia.
Qed.

Lemma world_before_mongo {A} (fn : M A) (w : world) (runs : nat) :
  (forall w0, (fn w0).2 = count_mongo w0) ->
  world_before fn w runs
  = mkWorld (files w) (http_calls w) (open_calls w) (mongo_calls w + runs)
      (clock_reads w).
Proof.
  intros Hfn. induction runs as [|k IH]; simpl.
  - destruct w. simpl. f_equal. lia.
  - change (snd (fn (world_before fn w k))) with (fn (world_before fn w k)).2.
    rewrite Hfn, IH. unfold count_mongo. simpl. f_equal. lia.
Qed.


(** C1. Under a policy with at most [N = max_attempts retries] runs: work
    that raises on its first [k < N] runs and returns on the next one is run
    exactly [k + 1] times and the call returns that value; work that raises
    on every run is run exactly [N] times and the call raises the exception
    of the last run itself.  The runs are runs of the work: the events of
    the call are the events of those [k + 1] (or [N]) runs in order, with one
    wait of the engine between two of them, and the world after the call is
    the world the last of them left.  The [try]/[except]/[finally] frame of a
    stage hands on the exception of its body as it is, after the events of
    the two blocks. *)
Theorem run_task_attempts {A} (retries : nat) (delay : Z) (fn : M A)
    (w : world) :
  (forall k a,
     (k < max_attempts retries)%nat ->
     (forall i, (i < k)%nat -> exists e, attempt_outcome fn w i = Err e) ->
     attempt_outcome fn w k = Ok a ->
     run_task retries delay fn w
     = (Ok a, S k, runs_trace fn delay w (S k), world_before fn w (S k)))
  /\ ((forall i, (i < max_attempts retries)%nat ->
         exists e, attempt_outcome fn w i = Err e) ->
      run_task retries delay fn w
      = (attempt_outcome fn w (max_attempts retries - 1), max_attempts retries,
         runs_trace fn delay w (max_attempts retries),
         world_before fn w (max_attempts retries)))
  /\ (forall (body : M A) on_error final w0 e t w1,
        body w0 = (Err e, t, w1) ->
        try_except_finally body on_error final w0
        = (Err e, t ++ on_error ++ final, w1)).
Proof.
  unfold max_attempts.
  pose proof (run_task_shape delay fn retries w) as Hshape.
  destruct (run_task retries delay fn w) as [[[r runs] t] w'].
  destruct Hshape as (Hruns & Hr & Hw & Ht & Hfail & Hlast).
  split; [|split].
  - intros k a Hk Hbefore Hok.
    assert (runs = S k) as ->.
    { destruct (Nat.lt_trichotomy (runs - 1) k) as [Hlt | [Heq | Hgt]].
      - destruct (Hbefore _ Hlt) as [e He]. rewrite He in Hr.
        destruct (Hlast ltac:(lia)) as [a' Ha']. rewrite Ha' in Hr.
        discriminate Hr.
      - lia.
      - destruct (Hfail k Hgt) as [e He]. rewrite Hok in He.
        discriminate He. }
    replace (S k - 1)%nat with k in Hr by lia.
    rewrite Hok in Hr. by subst.
  - intros Hall.
    assert (runs = S retries) as ->.
    { destruct (decide (runs < S retries)%nat) as [Hlt|Hge]; [|lia].
      destruct (Hlast Hlt) as [a Ha].
      destruct (Hall (runs - 1)%nat ltac:(lia)) as [e He].
      rewrite Ha, He in Hr. discriminate Hr. }
    by subst.
  - intros body on_error final w0 e t0 w1 Hbody.
    unfold try_except_finally. by rewrite Hbody.
Qed.

(** ** Texts *)

Lemma str_app_cons (a : ascii) (s t : string) :
  String a s +:+ t = String a (s +:+ t).
Proof. reflexivity. Qed.

Lemma str_app_nil_l (t : string) : EmptyString +:+ t = t.
Proof. reflexivity. Qed.

Lemma str_app_nil_r (s : string) : s +:+ EmptyString = s.
Proof. induction s as [|a s IH]; [reflexivity|]. by rewrite str_app_cons, IH. Qed.

Lemma str_app_assoc (s t u : string) : (s +:+ t) +:+ u = s +:+ (t +:+ u).
Proof.
  induction s as [|a s IH]; [reflexivity|].
  by rewrite !str_app_cons, IH.
Qed.

Lemma str_app_length (s t : string) :
  String.length (s +:+ t) = (String.length s + String.length t)%nat.
Proof.
  induction s as [|a s IH]; [reflexivity|].
  rewrite str_app_cons. simpl. by rewrite IH.
Qed.

(** ** The transformation stage *)

Lemma transformar_datos_run (data : dict) (w : world) :
  transformar_datos data w
  = match transformar (now_isoformat (clock_reads w)) data with
    | inl e =>
        (inl e, [Log "transform_start"; Log "transform_error"; Log "transform_time"],
         match validar data,
               construir_registro (now_isoformat (clock_reads w)) data with
         | inr _, inr _ => count_clock w
         | _, _ => w
         end)
    | inr registro =>
        (inr registro,
         [Log "transform_start"; Log "transform_success"; Log "transform_time"],
         count_clock w)
    end.
Proof.
  unfold transformar_datos, try_except_finally, bindM, emit, transformar_reloj, ret.
  cbv zeta. unfold transformar.
  destruct (validar data) as [e|[]]; [reflexivity|]. simpl.
  destruct (construir_registro _ data) as [e|registro]; [reflexivity|]. simpl.
  by destruct (let* ciudad := dict_getitem registro "ciudad" in _).
Qed.

(** The run of a payload the checks refuse. *)
Lemma transformar_datos_refused (data : dict) (w : world) (e : exn) :
  validar data = Err e ->
  transformar_datos data w
  = (Err e, [Log "transform_start"; Log "transform_error"; Log "transform_time"], w).
Proof.
  intros Hval. rewrite transformar_datos_run.
  unfold transformar. unfold Err in Hval. by rewrite Hval.
Qed.

(** The text of a joined list holds each of its items. *)
Lemma join_holds (sep : string) (f : string -> string) (l : list string) (k : string) :
  In k l -> exists before after, join sep (map f l) = before +:+ f k +:+ after.
Proof.
  induction l as [|x l IH]; [by intros []|].
  intros [-> | Hin].
  - exists EmptyString. destruct l as [|y l].
    + exists EmptyString. simpl. by rewrite str_app_nil_r.
    + exists (sep +:+ join sep (map f (y :: l))). reflexivity.
  - destruct (IH Hin) as (before & after & Heq).
    destruct l as [|y l]; [by destruct Hin|].
    exists (f x +:+ sep +:+ before), after.
    change (join sep (map f (x :: y :: l)))
      with (f x +:+ sep +:+ join sep (map f (y :: l))).
    rewrite Heq. by rewrite !str_app_assoc.
Qed.

Lemma missing_keys_message_mentions (missing : list string) (k : string) :
  In k missing -> mentions (missing_keys_message missing) k.
Proof.
  intros Hin. destruct (join_holds ", " repr_str missing k Hin) as (b & a & Heq).
  unfold mentions, missing_keys_message, repr_list. rewrite Heq.
  exists ("Faltan claves requeridas en la respuesta: " +:+ "[" +:+ b), (a +:+ "]").
  by rewrite !str_app_assoc.
Qed.

(** The validation fails with the first message when a key is missing. *)
Lemma validar_missing (data : dict) :
  missing_keys data <> [] ->
  validar data = Err (ValueError (missing_keys_message (missing_keys data))).
Proof.
  unfold validar. by destruct (missing_keys data).
Qed.

(** With every key present it fails with the second one when [weather] is
    falsy. *)
Lemma validar_weather (data : dict) :
  missing_keys data = [] ->
  truthy (dict_get_default data "weather" JNull) = false ->
  validar data = Err (ValueError weather_empty_message).
Proof.
  unfold validar. intros -> ->. reflexivity.
Qed.

Lemma validar_ok (data : dict) :
  missing_keys data = [] ->
  truthy (dict_get_default data "weather" JNull) = true ->
  validar data = Ok tt.
Proof.
  unfold validar. intros -> ->. reflexivity.
Qed.

Lemma transformar_invalid (now : string) (data : dict) (e : exn) :
  validar data = Err e -> transformar now data = Err e.
Proof. unfold transformar. by intros ->. Qed.

(** A key of the required list that is absent is in [missing_keys]. *)
Lemma missing_keys_spec (data : dict) (k : string) :
  In k (missing_keys data) <-> In k required_top_keys /\ dict_get data k = None.
Proof.
  unfold missing_keys. rewrite <- !list_elem_of_In, list_elem_of_filter.
  unfold dict_mem. destruct (dict_get data k) as [v|]; simpl.
  - split; [by intros [[] _] | by intros [_ [=]]].
  - split; [by intros [_ Hin] | by intros [Hin _]].
Qed.

(** C3. A payload without one of the required top-level sections makes the
    transformation stage fail with the validation error, and the stage, which
    has no retries, is run exactly once: the call makes one run, leaves the
    three events of one run and changes nothing. *)
Theorem transformar_datos_missing_section_runs_once (data : dict) (w : world)
    (k : string) :
  In k required_top_keys ->
  dict_get data k = None ->
  run_task (retries task_transformar_datos)
    (retry_delay_seconds task_transformar_datos) (transformar_datos data) w
  = (Err (ValueError (missing_keys_message (missing_keys data))), 1%nat,
     [Log "transform_start"; Log "transform_error"; Log "transform_time"], w)
  /\ max_attempts (retries task_transformar_datos) = 1%nat.
Proof.
  intros Hreq Hnone. split; [|reflexivity].
  assert (Hmiss : missing_keys data <> []).
  { intros Hnil. assert (Hin : In k (missing_keys data)).
    { by apply missing_keys_spec. }
    rewrite Hnil in Hin. by destruct Hin. }
  simpl.
  by rewrite (transformar_datos_refused _ _ _ (validar_missing _ Hmiss)).
Qed.

Lemma missing_keys_nil (data : dict) :
  (forall k, In k required_top_keys -> dict_get data k <> None) ->
  missing_keys data = [].
Proof.
  intros Hall. destruct (missing_keys data) as [|k ks] eqn:Hmiss; [done|].
  assert (Hin : In k (missing_keys data)) by (rewrite Hmiss; by left).
  apply missing_keys_spec in Hin as [Hreq Hnone]. by destruct (Hall k Hreq).
Qed.

Lemma missing_keys_nil_inv (data : dict) (k : string) :
  missing_keys data = [] -> In k required_top_keys ->
  exists v, dict_get data k = Some v.
Proof.
  intros Hnil Hreq. destruct (dict_get data k) as [v|] eqn:Hk; [eauto|].
  assert (Hin : In k (missing_keys data)) by by apply missing_keys_spec.
  rewrite Hnil in Hin. by destruct Hin.
Qed.

Lemma item2_ok (data d : dict) (a b : string) (v : json) :
  dict_get data a = Some (JDict d) -> dict_get d b = Some v ->
  item2 data a b = Ok v.
Proof.
  intros Ha Hb. unfold item2, dict_getitem. rewrite Ha. simpl.
  unfold dict_getitem. by rewrite Hb.
Qed.

Lemma item2_absent (data d : dict) (a b : string) :
  dict_get data a = Some (JDict d) -> dict_get d b = None ->
  item2 data a b = Err (KeyError (KStr b)).
Proof.
  intros Ha Hb. unfold item2, dict_getitem. rewrite Ha. simpl.
  unfold dict_getitem. by rewrite Hb.
Qed.

Lemma weather0_ok (data first : dict) (others : list json) (b : string) (v : json) :
  dict_get data "weather" = Some (JList (JDict first :: others)) ->
  dict_get first b = Some v ->
  weather0 data b = Ok v.
Proof.
  intros Hw Hb. unfold weather0, dict_getitem. rewrite Hw. simpl.
  unfold dict_getitem. by rewrite Hb.
Qed.

Lemma wind_ok (data wd : dict) (b : string) :
  seccion_wind data wd ->
  wind data b = Ok (default (JInt 0) (dict_get wd b)).
Proof.
  unfold wind, dict_get_default, get_method.
  intros [[-> ->] | ->]; [reflexivity|].
  unfold dict_get_default. by destruct (dict_get wd b).
Qed.

Lemma hora_local_ok (x : json) (t : Z) :
  time_t_of x = Ok t -> timestamp_error t = None ->
  hora_local x = Ok (JStr (strftime_HMS (t + utcoffset t))).
Proof.
  intros Hx Ht. unfold hora_local, fromtimestamp. rewrite Hx. simpl.
  by rewrite Ht.
Qed.

Lemma secciones_required (data : dict) (c : campos) :
  secciones data c -> seccion_coord data c ->
  missing_keys data = []
  /\ truthy (dict_get_default data "weather" JNull) = true.
Proof.
  intros (Hname & (sys & Hsys & _) & (main & Hmain & _)
          & (first & others & Hw & _) & (clouds & Hclouds & _))
         (coord & Hcoord & _).
  split.
  - apply missing_keys_nil. intros k Hin. simpl in Hin.
    destruct Hin as [<-|[<-|[<-|[<-|[<-|[<-|[]]]]]]]; congruence.
  - unfold dict_get_default. by rewrite Hw.
Qed.

(** With the sections before [coord] in place, the display comes down to
    its two last lookups. *)
Lemma construir_registro_coord (now : string) (data wd : dict) (c : campos)
    (sunrise sunset : Z) :
  secciones data c -> seccion_wind data wd -> horas c sunrise sunset ->
  construir_registro now data
  = (let* latitud := item2 data "coord" "lat" in
     let* longitud := item2 data "coord" "lon" in
     Ok (registro_esperado data
           (mkCampos (c_name c) (c_country c) (c_sunrise c) (c_sunset c)
              (c_temp c) (c_feels_like c) (c_temp_min c) (c_temp_max c)
              (c_humidity c) (c_pressure c) (c_description c) (c_icon c)
              (c_all c) latitud longitud)
           wd sunrise sunset now)).
Proof.
  intros (Hname & (sys & Hsys & Hcountry & Hrise & Hset)
          & (main & Hmain & Htemp & Hfeels & Hmin & Hmax & Hhum & Hpres)
          & (first & others & Hw & Hdesc & Hicon) & (clouds & Hclouds & Hall))
         Hwind (Ht1 & He1 & Ht2 & He2).
  unfold construir_registro.
  unfold dict_getitem at 1. rewrite Hname. simpl.
  rewrite (item2_ok _ _ _ _ _ Hsys Hcountry). simpl.
  rewrite (item2_ok _ _ _ _ _ Hmain Htemp). simpl.
  rewrite (item2_ok _ _ _ _ _ Hmain Hfeels). simpl.
  rewrite (item2_ok _ _ _ _ _ Hmain Hmin). simpl.
  rewrite (item2_ok _ _ _ _ _ Hmain Hmax). simpl.
  rewrite (item2_ok _ _ _ _ _ Hmain Hhum). simpl.
  rewrite (item2_ok _ _ _ _ _ Hmain Hpres). simpl.
  rewrite (weather0_ok _ _ _ _ _ Hw Hdesc). simpl.
  rewrite (weather0_ok _ _ _ _ _ Hw Hicon). simpl.
  rewrite (item2_ok _ _ _ _ _ Hclouds Hall). simpl.
  rewrite !(wind_ok _ _ _ Hwind). simpl.
  rewrite (item2_ok _ _ _ _ _ Hsys Hrise). simpl.
  rewrite (hora_local_ok _ _ Ht1 He1). simpl.
  rewrite (item2_ok _ _ _ _ _ Hsys Hset). simpl.
  rewrite (hora_local_ok _ _ Ht2 He2). simpl.
  unfold registro_esperado, dict_get_default. simpl.
  by destruct (dict_get data "visibility").
Qed.

(** The display evaluates to the expected record. *)
Lemma construir_registro_ok (now : string) (data wd : dict) (c : campos)
    (sunrise sunset : Z) :
  secciones data c -> seccion_coord data c -> seccion_wind data wd ->
  horas c sunrise sunset ->
  construir_registro now data
  = Ok (registro_esperado data c wd sunrise sunset now).
Proof.
  intros Hsec (coord & Hcoord & Hlat & Hlon) Hwind Hhoras.
  rewrite (construir_registro_coord _ _ _ _ _ _ Hsec Hwind Hhoras).
  rewrite (item2_ok _ _ _ _ _ Hcoord Hlat). simpl.
  rewrite (item2_ok _ _ _ _ _ Hcoord Hlon). simpl.
  by destruct c.
Qed.

Lemma transformar_ok (now : string) (data wd : dict) (c : campos)
    (sunrise sunset : Z) :
  secciones data c -> seccion_coord data c -> seccion_wind data wd ->
  horas c sunrise sunset ->
  transformar now data = Ok (registro_esperado data c wd sunrise sunset now).
Proof.
  intros Hsec Hcoord Hwind Hhoras.
  destruct (secciones_required _ _ Hsec Hcoord) as [Hmiss Hweather].
  unfold transformar. rewrite (validar_ok _ Hmiss Hweather). simpl.
  rewrite (construir_registro_ok _ _ _ _ _ _ Hsec Hcoord Hwind Hhoras).
  reflexivity.
Qed.

Lemma digit_is_digit (n : Z) : 0 <= n < 10 -> is_digit (digit n) = true.
Proof.
  intros Hn.
  assert (Hk : exists k, (k < 10)%nat /\ n = Z.of_nat k).
  { exists (Z.to_nat n). lia. }
  destruct Hk as (k & Hk & ->).
  do 10 (destruct k as [|k]; [reflexivity|]). lia.
Qed.

(** [strftime("%H:%M:%S")]: two digits of the hour of the day, of the minute
    and of the second, with colons between. *)
Lemma strftime_HMS_shape (l : Z) :
  exists h m s,
    0 <= h < 24 /\ 0 <= m < 60 /\ 0 <= s < 60
    /\ l mod 86400 = h * 3600 + m * 60 + s
    /\ strftime_HMS l
       = String (digit (h / 10)) (String (digit (h mod 10)) (String ":"
          (String (digit (m / 10)) (String (digit (m mod 10)) (String ":"
            (String (digit (s / 10)) (String (digit (s mod 10)) EmptyString)))))))
    /\ Forall (fun n => is_digit (digit n) = true)
         [h / 10; h mod 10; m / 10; m mod 10; s / 10; s mod 10].
Proof.
  set (x := l mod 86400).
  assert (Hx : 0 <= x < 86400) by (apply Z.mod_pos_bound; lia).
  exists (x / 3600), (x mod 3600 / 60), (x mod 60).
  assert (Hh : 0 <= x / 3600 < 24).
  { split; [apply Z.div_pos; lia | apply Z.div_lt_upper_bound; lia]. }
  assert (Hr : 0 <= x mod 3600 < 3600) by (apply Z.mod_pos_bound; lia).
  assert (Hm : 0 <= x mod 3600 / 60 < 60).
  { split; [apply Z.div_pos; lia | apply Z.div_lt_upper_bound; lia]. }
  assert (Hs : 0 <= x mod 60 < 60) by (apply Z.mod_pos_bound; lia).
  assert (Hsum : x = x / 3600 * 3600 + x mod 3600 / 60 * 60 + x mod 60).
  { pose proof (Z.div_mod x 3600 ltac:(lia)) as H1.
    pose proof (Z.div_mod (x mod 3600) 60 ltac:(lia)) as H2.
    assert (H3 : (x mod 3600) mod 60 = x mod 60).
    { clear. Z.div_mod_to_equations. lia. }
    lia. }
  repeat split; try lia; try exact Hsum.
  repeat constructor; apply digit_is_digit.
  - split; [apply Z.div_pos; lia | apply Z.div_lt_upper_bound; lia].
  - apply Z.mod_pos_bound; lia.
  - split; [apply Z.div_pos; lia | apply Z.div_lt_upper_bound; lia].
  - apply Z.mod_pos_bound; lia.
  - split; [apply Z.div_pos; lia | apply Z.div_lt_upper_bound; lia].
  - apply Z.mod_pos_bound; lia.
Qed.

(** C7 as the program has it. For a payload whose required sections hold
    every field the transformation reads ([name] a text; [sys], [main],
    [clouds] and [coord] objects with their fields; [weather] a list whose
    first item is an object with [description] and [icon]; [wind], when
    present, an object; [sunrise] and [sunset] timestamps the platform
    accepts), the stage returns the record whose fields are the values of the
    payload themselves, unconverted; wind speed, wind direction and
    visibility are 0 when the payload has none; and the two sun times are
    the local wall clock reading of the timestamp, written as two digits of
    hour, minute and second with colons between. *)
Theorem transformar_datos_complete_payload (data wd : dict) (c : campos)
    (sunrise sunset : Z) (w : world) :
  secciones data c -> seccion_coord data c -> seccion_wind data wd ->
  horas c sunrise sunset ->
  let registro :=
    registro_esperado data c wd sunrise sunset (now_isoformat (clock_reads w)) in
  transformar_datos data w
  = (Ok registro,
     [Log "transform_start"; Log "transform_success"; Log "transform_time"],
     count_clock w)
  /\ map fst registro = campos_registro
  /\ (dict_get data "wind" = None ->
      dict_get registro "viento_velocidad" = Some (JInt 0)
      /\ dict_get registro "viento_direccion" = Some (JInt 0))
  /\ (dict_get wd "speed" = None ->
      dict_get registro "viento_velocidad" = Some (JInt 0))
  /\ (dict_get wd "deg" = None ->
      dict_get registro "viento_direccion" = Some (JInt 0))
  /\ (dict_get data "visibility" = None ->
      dict_get registro "visibilidad" = Some (JInt 0))
  /\ (forall v, dict_get data "visibility" = Some v ->
      dict_get registro "visibilidad" = Some v)
  /\ (forall local,
        In local [sunrise + utcoffset sunrise; sunset + utcoffset sunset] ->
        exists h m s,
          0 <= h < 24 /\ 0 <= m < 60 /\ 0 <= s < 60
          /\ local mod 86400 = h * 3600 + m * 60 + s
          /\ strftime_HMS local
             = String (digit (h / 10)) (String (digit (h mod 10)) (String ":"
                (String (digit (m / 10)) (String (digit (m mod 10)) (String ":"
                  (String (digit (s / 10)) (String (digit (s mod 10)) EmptyString)))))))
          /\ Forall (fun n => is_digit (digit n) = true)
               [h / 10; h mod 10; m / 10; m mod 10; s / 10; s mod 10]).
Proof.
  intros Hsec Hcoord Hwind Hhoras registro.
  split; [|split; [reflexivity|]].
  - rewrite transformar_datos_run.
    by rewrite (transformar_ok _ _ _ _ _ _ Hsec Hcoord Hwind Hhoras).
  - repeat split.
    + destruct Hwind as [[_ ->] | Hw]; [reflexivity|congruence].
    + destruct Hwind as [[_ ->] | Hw]; [reflexivity|congruence].
    + intros Hspeed. subst registro. unfold registro_esperado. simpl.
      by rewrite Hspeed.
    + intros Hdeg. subst registro. unfold registro_esperado. simpl.
      by rewrite Hdeg.
    + intros Hvis. subst registro. unfold registro_esperado. simpl.
      by rewrite Hvis.
    + intros v Hvis. subst registro. unfold registro_esperado. simpl.
      by rewrite Hvis.
    + intros local _. apply strftime_HMS_shape.
Qed.

Lemma bind_ok_inv {A B} (m : result A) (f : A -> result B) (b : B) :
  bind m f = Ok b -> exists a, m = Ok a /\ f a = Ok b.
Proof. destruct m as [e|a]; [discriminate|]. eauto. Qed.

(** A record that is built has every field. *)
Lemma construir_registro_full (now : string) (data registro : dict) :
  construir_registro now data = Ok registro ->
  map fst registro = campos_registro
  /\ exists lat lon,
       dict_get registro "coordenadas"
       = Some (JDict [("latitud", lat); ("longitud", lon)]).
Proof.
  unfold construir_registro. intros H.
  repeat (apply bind_ok_inv in H as (? & _ & H); simpl in H).
  injection H as <-. split; [reflexivity|]. simpl. eauto.
Qed.

Lemma transformar_full (now : string) (data registro : dict) :
  transformar now data = Ok registro ->
  map fst registro = campos_registro
  /\ exists lat lon,
       dict_get registro "coordenadas"
       = Some (JDict [("latitud", lat); ("longitud", lon)]).
Proof.
  unfold transformar. intros H.
  apply bind_ok_inv in H as ([] & _ & H).
  apply bind_ok_inv in H as (r & Hr & H).
  apply bind_ok_inv in H as (? & _ & H).
  apply bind_ok_inv in H as (? & _ & H).
  apply bind_ok_inv in H as (? & _ & H).
  injection H as <-. by apply construir_registro_full in Hr.
Qed.

Lemma transformar_datos_outcome (data : dict) (w : world) :
  (transformar_datos data w).1.1 = transformar (now_isoformat (clock_reads w)) data.
Proof.
  rewrite transformar_datos_run. by destruct (transformar _ data).
Qed.

(** The display raises what its first failing entry raises, and is built
    when none fails. *)
Lemma construir_registro_entradas (now : string) (data : dict) :
  match primera_falla (entradas now data) with
  | Some e => construir_registro now data = Err e
  | None => exists registro, construir_registro now data = Ok registro
  end.
Proof.
  unfold construir_registro, entradas.
  repeat match goal with
         | |- context [bind ?r _] =>
             destruct r as [?|?]; cbn [bind primera_falla]; [reflexivity|]
         end.
  by eexists.
Qed.

Lemma primera_falla_app (l1 l2 : list (string * result json)) :
  primera_falla l1 = None -> primera_falla (l1 ++ l2) = primera_falla l2.
Proof.
  induction l1 as [|[k [e|v]] l1 IH]; simpl; [done|discriminate|exact IH].
Qed.

Lemma construir_registro_ciudad (now : string) (data registro : dict) :
  construir_registro now data = Ok registro ->
  exists ciudad temperatura,
    dict_get data "name" = Some ciudad
    /\ dict_getitem registro "ciudad" = Ok ciudad
    /\ dict_getitem registro "temperatura" = Ok temperatura.
Proof.
  unfold construir_registro. intros H.
  apply bind_ok_inv in H as (ciudad & Hc & H).
  repeat (apply bind_ok_inv in H as (? & _ & H); simpl in H).
  injection H as <-. unfold dict_getitem in Hc.
  destruct (dict_get data "name") as [name|]; [|discriminate Hc].
  injection Hc as ->. by eexists _, _.
Qed.

(** C5 as the program has it. The stage returns a record with all its
    eighteen fields, the coordinates among them, or it raises: no record
    with a field missing is returned.  It raises the validation error when a
    required top-level key is missing or [weather] is empty or otherwise
    falsy; that check looks at the six top-level keys only.  When the check
    passes, the fields are built in the order of the record and the first
    one that cannot be built decides the exception: [KeyError] of [country]
    when [sys] is an object without it; of [temp] when [sys] is an object
    with [country] and [main] an object without [temp]; of [lat] when
    [coord] is an object without it and each of the sixteen fields before
    the coordinates can be built.  When every field can be built the record is returned,
    unless [name] is not a text: then the log line raises [TypeError]. *)
Theorem transformar_datos_record_or_exception (data : dict) (w : world) :
  (forall registro,
     (transformar_datos data w).1.1 = Ok registro ->
     map fst registro = campos_registro
     /\ exists lat lon,
          dict_get registro "coordenadas"
          = Some (JDict [("latitud", lat); ("longitud", lon)]))
  /\ (missing_keys data <> []
      \/ truthy (dict_get_default data "weather" JNull) = false ->
      exists msg,
        (transformar_datos data w).1.1 = Err (ValueError msg)
        /\ validar data = Err (ValueError msg))
  /\ (missing_keys data = [] ->
      truthy (dict_get_default data "weather" JNull) = true ->
      validar data = Ok tt
      /\ match primera_falla (entradas (now_isoformat (clock_reads w)) data) with
         | Some e => (transformar_datos data w).1.1 = Err e
         | None =>
             (exists registro, (transformar_datos data w).1.1 = Ok registro)
             \/ ((transformar_datos data w).1.1 = Err TypeError
                 /\ forall s, dict_get data "name" <> Some (JStr s))
         end)
  /\ (forall sys,
        missing_keys data = [] ->
        truthy (dict_get_default data "weather" JNull) = true ->
        dict_get data "sys" = Some (JDict sys) ->
        dict_get sys "country" = None ->
        (transformar_datos data w).1.1 = Err (KeyError (KStr "country")))
  /\ (forall sys main pais,
        missing_keys data = [] ->
        truthy (dict_get_default data "weather" JNull) = true ->
        dict_get data "sys" = Some (JDict sys) ->
        dict_get sys "country" = Some pais ->
        dict_get data "main" = Some (JDict main) ->
        dict_get main "temp" = None ->
        (transformar_datos data w).1.1 = Err (KeyError (KStr "temp")))
  /\ (forall coord,
        missing_keys data = [] ->
        truthy (dict_get_default data "weather" JNull) = true ->
        primera_falla (take 16 (entradas (now_isoformat (clock_reads w)) data))
        = None ->
        dict_get data "coord" = Some (JDict coord) ->
        dict_get coord "lat" = None ->
        (transformar_datos data w).1.1 = Err (KeyError (KStr "lat"))).
Proof.
  rewrite transformar_datos_outcome.
  set (now := now_isoformat (clock_reads w)).
  split; [|split; [|split; [|split; [|split]]]].
  - intros registro. apply transformar_full.
  - intros [Hmiss | Hweather].
    + eexists. split; [apply transformar_invalid|]; by apply validar_missing.
    + destruct (missing_keys data) as [|k ks] eqn:Hmiss.
      * eexists. split; [apply transformar_invalid|]; by apply validar_weather.
      * eexists. split; [apply transformar_invalid|]; apply validar_missing;
          by rewrite Hmiss.
  - intros Hmiss Hweather. split; [by apply validar_ok|].
    pose proof (construir_registro_entradas now data) as Hcon.
    unfold transformar. rewrite (validar_ok _ Hmiss Hweather). cbn [bind].
    destruct (primera_falla (entradas now data)) as [e|].
    + by rewrite Hcon.
    + destruct Hcon as [registro Hcon]. rewrite Hcon. cbn [bind].
      destruct (construir_registro_ciudad _ _ _ Hcon)
        as (ciudad & temperatura & Hname & Hciudad & Htemp).
      unfold Ok, Err in *. cbn [bind]. rewrite Hciudad. cbn [bind].
      destruct ciudad as [| | | | s | |]; cbn [normalize_check bind];
        try (right; split; [reflexivity|]; intros s'; rewrite Hname;
             discriminate).
      rewrite Htemp. left. by eexists.
  - intros sys Hmiss Hweather Hsys Hcountry.
    destruct (missing_keys_nil_inv data "name" Hmiss) as [name Hname].
    { by left. }
    unfold transformar. rewrite (validar_ok _ Hmiss Hweather). simpl.
    unfold construir_registro.
    unfold dict_getitem at 1. rewrite Hname. simpl.
    by rewrite (item2_absent _ _ _ _ Hsys Hcountry).
  - intros sys main pais Hmiss Hweather Hsys Hcountry Hmain Htemp.
    destruct (missing_keys_nil_inv data "name" Hmiss) as [name Hname].
    { by left. }
    unfold transformar. rewrite (validar_ok _ Hmiss Hweather). simpl.
    unfold construir_registro.
    unfold dict_getitem at 1. rewrite Hname. simpl.
    rewrite (item2_ok _ _ _ _ _ Hsys Hcountry). simpl.
    by rewrite (item2_absent _ _ _ _ Hmain Htemp).
  - intros coord Hmiss Hweather Hantes Hcoord Hlat.
    pose proof (construir_registro_entradas now data) as Hcon.
    rewrite <- (take_drop 16 (entradas now data)) in Hcon.
    rewrite (primera_falla_app _ _ Hantes) in Hcon.
    unfold entradas in Hcon. cbn [drop] in Hcon.
    rewrite (item2_absent _ _ _ _ Hcoord Hlat) in Hcon.
    unfold Err in Hcon. cbn [bind primera_falla] in Hcon.
    unfold transformar. rewrite (validar_ok _ Hmiss Hweather). cbn [bind].
    unfold Ok, Err in *. cbn [bind]. by rewrite Hcon.
Qed.

(** ** The extraction stage and the flow *)

Lemma extraer_datos_clima_run (ciudad : string) (w : world) :
  extraer_datos_clima ciudad w
  = (reply_result (http_reply (http_calls w) (weather_url ciudad)),
     [Log "extract_start"; HttpGet (weather_url ciudad);
      Log (match reply_result (http_reply (http_calls w) (weather_url ciudad)) with
           | inl _ => "extract_error"
           | inr _ => "extract_success"
           end);
      Log "extract_time"],
     count_http w).
Proof.
  unfold extraer_datos_clima, try_except_finally, bindM, emit, requests_get,
    lift, ret, reply_result.
  destruct (http_reply _ _) as [e|status_code body]; [reflexivity|].
  simpl. destruct (raise_for_status status_code) as [e|[]]; [reflexivity|].
  simpl. destruct (response_json body) as [e|v]; [reflexivity|].
  simpl. by destruct (nonempty_dict _ v) as [e|d].
Qed.

(** The runs of the extractor leave no event of a later stage and touch
    neither the files nor the document store. *)
Lemma run_task_extraer_frame (ciudad : string) (delay : Z) (n : nat) :
  forall w r runs t w',
    run_task n delay (extraer_datos_clima ciudad) w = (r, runs, t, w') ->
    Forall (fun ev => later_stage_event ev = false) t
    /\ files w' = files w /\ mongo_calls w' = mongo_calls w
    /\ http_calls w' = (http_calls w + runs)%nat.
Proof.
  induction n as [|n IH]; intros w r runs t w'; simpl;
    rewrite extraer_datos_clima_run.
  - destruct (reply_result _) as [e|d]; intros [= <- <- <- <-]; simpl;
      (split; [repeat constructor | repeat split; lia]).
  - destruct (reply_result _) as [e|d].
    + destruct (run_task n delay _ (count_http w)) as [[[r1 runs1] t1] w1] eqn:Hrun.
      intros [= <- <- <- <-].
      destruct (IH _ _ _ _ _ Hrun) as (Hev & Hf & Hm & Hh).
      simpl in *. split; [|repeat split; [done|done|lia]].
      repeat (constructor; [reflexivity|]). exact Hev.
    + intros [= <- <- <- <-]; simpl.
      split; [repeat constructor | repeat split; lia].
Qed.

Lemma later_stage_not_loader (t : list event) :
  Forall (fun ev => later_stage_event ev = false) t ->
  Forall (fun ev => loader_event ev = false) t.
Proof.
  intros Hall. eapply Forall_impl; [exact Hall|].
  intros [name| | | | |]; simpl; try done.
  intros H. apply negb_false_iff in H.
  repeat (apply orb_prop in H as [H|H]);
    apply String.eqb_eq in H; subst name; reflexivity.
Qed.

(** The flow when the extraction returns [data] and the checks of the
    transformation refuse it with [e]. *)
Lemma clima_flow_transform_fails (ciudad json_path : string) (data : dict)
    (w w1 : world) (t1 : list event) (e : exn) :
  call_task task_extraer_datos_clima (extraer_datos_clima ciudad) w
  = (Ok data, t1, w1) ->
  validar data = Err e ->
  clima_flow ciudad json_path w
  = (Err e,
     Log "flow_start"
     :: t1 ++ [Log "transform_start"; Log "transform_error";
               Log "transform_time"; Log "flow_error"; Log "flow_time"],
     w1).
Proof.
  intros Hext Htr.
  unfold clima_flow, try_except_finally.
  unfold bindM at 1. simpl.
  unfold bindM at 1. rewrite Hext.
  unfold bindM at 1.
  unfold call_task at 1. simpl.
  rewrite (transformar_datos_refused _ _ _ Htr). simpl.
  by rewrite <- !app_assoc.
Qed.

(** C4. A payload that lacks one of the six required top-level keys, or
    whose [weather] list is empty, makes the transformation raise a validation
    error; the message is the list of the missing keys when there are any (so
    it names each of them) and the text about [weather] otherwise; and a flow
    whose extraction returned that payload ends with this error without an
    event of the loader and without a call to the document store. *)
Theorem transformar_datos_invalid_payload (data : dict) :
  missing_keys data <> [] \/ dict_get data "weather" = Some (JList []) ->
  exists msg,
    (forall w,
       transformar_datos data w
       = (Err (ValueError msg),
          [Log "transform_start"; Log "transform_error"; Log "transform_time"], w))
    /\ (missing_keys data <> [] -> msg = missing_keys_message (missing_keys data))
    /\ (missing_keys data = [] -> msg = weather_empty_message)
    /\ (forall k, In k required_top_keys -> dict_get data k = None -> mentions msg k)
    /\ (forall ciudad json_path w t1 w1,
          call_task task_extraer_datos_clima (extraer_datos_clima ciudad) w
          = (Ok data, t1, w1) ->
          exists t,
            clima_flow ciudad json_path w = (Err (ValueError msg), t, w1)
            /\ Forall (fun ev => loader_event ev = false) t
            /\ mongo_calls w1 = mongo_calls w).
Proof.
  intros Hbad.
  assert (Hval : exists msg,
             validar data = Err (ValueError msg)
             /\ (missing_keys data <> [] -> msg = missing_keys_message (missing_keys data))
             /\ (missing_keys data = [] -> msg = weather_empty_message)).
  { destruct (missing_keys data) as [|k0 ks] eqn:Hmiss.
    - destruct Hbad as [Hne | Hw]; [done|].
      exists weather_empty_message. split; [|done].
      apply validar_weather; [done|].
      unfold dict_get_default. by rewrite Hw.
    - exists (missing_keys_message (k0 :: ks)). split; [|done].
      rewrite <- Hmiss. apply validar_missing. by rewrite Hmiss. }
  destruct Hval as (msg & Hval & Hmsg1 & Hmsg2).
  exists msg. split; [|split; [done|split; [done|split]]].
  - intros w. by apply transformar_datos_refused.
  - intros k Hreq Hnone.
    assert (Hin : In k (missing_keys data)) by by apply missing_keys_spec.
    rewrite Hmsg1.
    + by apply missing_keys_message_mentions.
    + intros Hnil. rewrite Hnil in Hin. by destruct Hin.
  - intros ciudad json_path w t1 w1 Hext.
    eexists. split.
    + eapply clima_flow_transform_fails; [exact Hext|exact Hval].
    + unfold call_task in Hext.
      destruct (run_task _ _ _ w) as [[[r runs] t] w'] eqn:Hrun.
      injection Hext as -> -> ->.
      destruct (run_task_extraer_frame _ _ _ _ _ _ _ _ Hrun) as (Hev & _ & Hm & _).
      split; [|exact Hm].
      constructor; [reflexivity|].
      apply Forall_app. split; [by apply later_stage_not_loader|].
      repeat constructor.
Qed.

Lemma extraer_datos_clima_fails (ciudad : string) (w : world) (e : exn) :
  reply_result (http_reply (http_calls w) (weather_url ciudad)) = Err e ->
  extraer_datos_clima ciudad w = (Err e, failed_extract_events ciudad, count_http w).
Proof.
  intros H. rewrite extraer_datos_clima_run. unfold Err in H. by rewrite H.
Qed.

(** The four runs of an extraction that never succeeds. *)
Lemma run_task_extraer_exhausted (ciudad : string) (w : world) (e : nat -> exn) :
  (forall i, (i < 4)%nat ->
     reply_result (http_reply (http_calls w + i) (weather_url ciudad)) = Err (e i)) ->
  run_task 3 5 (extraer_datos_clima ciudad) w
  = (Err (e 3%nat), 4%nat,
     failed_extract_events ciudad ++ Sleep 5
     :: failed_extract_events ciudad ++ Sleep 5
     :: failed_extract_events ciudad ++ Sleep 5
     :: failed_extract_events ciudad,
     count_http (count_http (count_http (count_http w)))).
Proof.
  intros H.
  pose proof (H 0%nat ltac:(lia)) as H0. rewrite Nat.add_0_r in H0.
  pose proof (H 1%nat ltac:(lia)) as H1.
  replace (http_calls w + 1)%nat with (http_calls (count_http w)) in H1
    by (simpl; lia).
  pose proof (H 2%nat ltac:(lia)) as H2.
  replace (http_calls w + 2)%nat with (http_calls (count_http (count_http w))) in H2
    by (simpl; lia).
  pose proof (H 3%nat ltac:(lia)) as H3.
  replace (http_calls w + 3)%nat
    with (http_calls (count_http (count_http (count_http w)))) in H3
    by (simpl; lia).
  cbn [run_task].
  rewrite (extraer_datos_clima_fails _ _ _ H0).
  rewrite (extraer_datos_clima_fails _ _ _ H1).
  rewrite (extraer_datos_clima_fails _ _ _ H2).
  rewrite (extraer_datos_clima_fails _ _ _ H3).
  reflexivity.
Qed.

(** C2 as the program has it. When the provider fails on each of the four
    requests of a flow (an HTTP status 503, say), the extraction stage makes
    exactly 4 runs, the first one and its 3 retries, with a wait of 5 seconds
    between two of them; the error of the call is the error of the last run;
    and the flow ends with that error after the events of those four runs
    alone: no event of the transformation or of a later stage, no file
    written, no call to the document store. *)
Theorem clima_flow_extraction_exhausted (ciudad json_path : string) (w : world)
    (e : nat -> exn) :
  (forall i, (i < 4)%nat ->
     reply_result (http_reply (http_calls w + i) (weather_url ciudad)) = Err (e i)) ->
  max_attempts (retries task_extraer_datos_clima) = 4%nat
  /\ (run_task (retries task_extraer_datos_clima)
        (retry_delay_seconds task_extraer_datos_clima)
        (extraer_datos_clima ciudad) w).1.1
     = (Err (e 3%nat), 4%nat)
  /\ exists t w',
       clima_flow ciudad json_path w = (Err (e 3%nat), t, w')
       /\ t = Log "flow_start"
              :: (failed_extract_events ciudad ++ Sleep 5
                  :: failed_extract_events ciudad ++ Sleep 5
                  :: failed_extract_events ciudad ++ Sleep 5
                  :: failed_extract_events ciudad)
              ++ [Log "flow_error"; Log "flow_time"]
       /\ Forall (fun ev => later_stage_event ev = false) t
       /\ files w' = files w
       /\ mongo_calls w' = mongo_calls w
       /\ http_calls w' = (http_calls w + 4)%nat.
Proof.
  intros H. pose proof (run_task_extraer_exhausted ciudad w e H) as Hrun.
  split; [reflexivity|]. split.
  - change (retries task_extraer_datos_clima) with 3%nat.
    change (retry_delay_seconds task_extraer_datos_clima) with 5.
    by rewrite Hrun.
  - eexists _, _. split; [|split; [reflexivity|]].
    + unfold clima_flow, try_except_finally.
      unfold bindM at 1. simpl.
      unfold bindM at 1. unfold call_task at 1.
      change (retries task_extraer_datos_clima) with 3%nat.
      change (retry_delay_seconds task_extraer_datos_clima) with 5.
      rewrite Hrun. reflexivity.
    + split; [|simpl; repeat split; lia].
      unfold failed_extract_events. simpl. repeat constructor.
Qed.

(** ** The loader *)

Lemma cargar_a_mongo_run (doc : dict) (w : world) :
  cargar_a_mongo doc w
  = let c := mongo_calls w in
    match mongo_reply c with
    | ClientError e =>
        (Err e, [Log "load_start"; Log "load_error"; Log "load_time"], count_mongo w)
    | HandleError e =>
        (Err e,
         [Log "load_start"; MongoClient c MONGO_URI; Log "load_error"; Close c;
          Log "load_time"],
         count_mongo w)
    | InsertError e =>
        (Err e,
         [Log "load_start"; MongoClient c MONGO_URI; InsertOne c DB_NAME COLLECTION_NAME; Log "load_error";
          Close c; Log "load_time"],
         count_mongo w)
    | Inserted inserted_id =>
        (Ok (inserted_message inserted_id),
         [Log "load_start"; MongoClient c MONGO_URI; InsertOne c DB_NAME COLLECTION_NAME; Log "load_success";
          Close c; Log "load_time"],
         count_mongo w)
    end.
Proof.
  unfold cargar_a_mongo, cargar_try, try_except_finally, cargar_finally.
  by destruct (mongo_reply (mongo_calls w)).
Qed.

Lemma count_events_app (p : event -> bool) (t1 t2 : list event) :
  count_events p (t1 ++ t2) = (count_events p t1 + count_events p t2)%nat.
Proof. induction t1 as [|ev t1 IH]; simpl; [done|]. rewrite IH. lia. Qed.

(** One run of the loader closes what it opened, whatever was open before. *)
Lemma cargar_a_mongo_balanced (doc : dict) (w : world) (rest : list event)
    (opened : nat) :
  open_clients ((cargar_a_mongo doc w).1.2 ++ rest) opened = open_clients rest opened.
Proof.
  rewrite cargar_a_mongo_run. simpl.
  by destruct (mongo_reply (mongo_calls w)).
Qed.

Lemma cargar_a_mongo_counts (doc : dict) (w : world) :
  count_events is_close (cargar_a_mongo doc w).1.2
  = count_events is_client (cargar_a_mongo doc w).1.2
  /\ count_events is_client (cargar_a_mongo doc w).1.2
     = match mongo_reply (mongo_calls w) with
       | ClientError _ => 0%nat
       | _ => 1%nat
       end
  /\ mongo_calls (cargar_a_mongo doc w).2 = S (mongo_calls w).
Proof.
  rewrite cargar_a_mongo_run. simpl.
  by destruct (mongo_reply (mongo_calls w)).
Qed.

Lemma cargar_attempt_outcome (doc : dict) (w : world) (i : nat) :
  attempt_outcome (cargar_a_mongo doc) w i
  = match mongo_reply (mongo_calls w + i) with
    | ClientError e | HandleError e | InsertError e => Err e
    | Inserted inserted_id => Ok (inserted_message inserted_id)
    end.
Proof.
  unfold attempt_outcome.
  rewrite (world_before_mongo (cargar_a_mongo doc) w i).
  - rewrite cargar_a_mongo_run. cbv zeta. cbn [mongo_calls].
    by destruct (mongo_reply _).
  - intros w0. rewrite cargar_a_mongo_run. cbv zeta.
    by destruct (mongo_reply (mongo_calls w0)).
Qed.

(** The clients of the runs of a call. *)
Lemma run_task_cargar (doc : dict) (delay : Z) (n : nat) :
  forall w r runs t w',
    run_task n delay (cargar_a_mongo doc) w = (r, runs, t, w') ->
    (forall rest opened, open_clients (t ++ rest) opened = open_clients rest opened)
    /\ count_events is_close t = count_events is_client t
    /\ ((forall i e, (i < runs)%nat ->
           mongo_reply (mongo_calls w + i) <> ClientError e) ->
        count_events is_close t = runs).
Proof.
  induction n as [|n IH]; intros w r runs t w' Hrun.
  - simpl in Hrun.
    pose proof (cargar_a_mongo_balanced doc w) as Hbal.
    pose proof (cargar_a_mongo_counts doc w) as (Hc1 & Hc2 & _).
    destruct (cargar_a_mongo doc w) as [[r0 t0] w0]. simpl in *.
    assert (r = r0 /\ runs = 1%nat /\ t = t0) as (-> & -> & ->).
    { by destruct r0; injection Hrun as <- <- <- <-. }
    split; [exact Hbal|]. split; [exact Hc1|].
    intros Hno. rewrite Hc1, Hc2.
    specialize (Hno 0%nat). rewrite Nat.add_0_r in Hno.
    destruct (mongo_reply (mongo_calls w)) as [e| | |]; [|done..].
    by destruct (Hno e ltac:(lia)).
  - simpl in Hrun.
    pose proof (cargar_a_mongo_balanced doc w) as Hbal.
    pose proof (cargar_a_mongo_counts doc w) as (Hc1 & Hc2 & Hcalls).
    destruct (cargar_a_mongo doc w) as [[[e0|s0] t0] w0]; simpl in *.
    + destruct (run_task n delay (cargar_a_mongo doc) w0)
        as [[[r1 runs1] t1] w1] eqn:Hrest.
      injection Hrun as <- <- <- <-.
      destruct (IH _ _ _ _ _ Hrest) as (Hb & Hc & Hall).
      split; [|split].
      * intros rest opened. rewrite <- app_assoc. rewrite Hbal. simpl. apply Hb.
      * rewrite !count_events_app. simpl. lia.
      * intros Hno. rewrite count_events_app. simpl.
        rewrite Hall.
        -- rewrite Hc1, Hc2.
           specialize (Hno 0%nat). rewrite Nat.add_0_r in Hno.
           destruct (mongo_reply (mongo_calls w)) as [e| | |]; [|done..].
           by destruct (Hno e ltac:(lia)).
        -- intros i e Hi. rewrite Hcalls.
           replace (S (mongo_calls w) + i)%nat with (mongo_calls w + S i)%nat by lia.
           apply Hno. lia.
    + injection Hrun as <- <- <- <-.
      split; [exact Hbal|]. split; [exact Hc1|].
      intros Hno. rewrite Hc1, Hc2.
      specialize (Hno 0%nat). rewrite Nat.add_0_r in Hno.
      destruct (mongo_reply (mongo_calls w)) as [e| | |]; [|done..].
      by destruct (Hno e ltac:(lia)).
Qed.

(** C8. In every call of the loader, with any number of retries, each client
    the loader constructs is closed by the run that constructed it: no client
    is open when the call ends, the clients closed are as many as the clients
    constructed, and as many as the runs when the constructor itself never
    raises.  The call makes one run per connection attempt; no run before the
    last has its insert confirmed; the call returns exactly when the insert of
    its last run is confirmed, and then returns the confirmation text that
    ends with the id the store generated; and a confirmed insert in run
    [k + 1], after [k] runs without one, makes the call return after exactly
    [k + 1] runs.  In a run, a client that was constructed is closed as the
    last action before the final time line on every way out: when getting
    the collection raises (no insert is attempted), when the insert raises,
    and when it is confirmed; a run whose constructor raises has no client to
    close; and only the run with the confirmed insert returns. *)
Theorem cargar_a_mongo_releases (doc : dict) (n : nat) (delay : Z)
    (w w' : world) (r : result string) (runs : nat) (t : list event) :
  run_task n delay (cargar_a_mongo doc) w = (r, runs, t, w') ->
  open_clients t 0 = Some 0%nat
  /\ count_events is_close t = count_events is_client t
  /\ ((forall i e, (i < runs)%nat ->
         mongo_reply (mongo_calls w + i) <> ClientError e) ->
      count_events is_close t = runs)
  /\ (1 <= runs <= max_attempts n)%nat
  /\ mongo_calls w' = (mongo_calls w + runs)%nat
  /\ t = runs_trace (cargar_a_mongo doc) delay w runs
  /\ (forall i inserted_id,
        (i < runs - 1)%nat ->
        mongo_reply (mongo_calls w + i) <> Inserted inserted_id)
  /\ (forall s,
        r = Ok s
        <-> exists inserted_id,
              mongo_reply (mongo_calls w + (runs - 1)) = Inserted inserted_id
              /\ s = "Documento insertado en MongoDB con _id=" +:+ inserted_id)
  /\ (forall k inserted_id,
        (k < max_attempts n)%nat ->
        (forall i other_id,
           (i < k)%nat -> mongo_reply (mongo_calls w + i) <> Inserted other_id) ->
        mongo_reply (mongo_calls w + k) = Inserted inserted_id ->
        r = Ok ("Documento insertado en MongoDB con _id=" +:+ inserted_id)
        /\ runs = S k)
  /\ (forall w0,
        let c := mongo_calls w0 in
        let '(r0, t0, _) := cargar_a_mongo doc w0 in
        match mongo_reply c with
        | ClientError e =>
            r0 = Err e /\ t0 = [Log "load_start"; Log "load_error"; Log "load_time"]
        | HandleError e =>
            r0 = Err e
            /\ t0 = [Log "load_start"; MongoClient c MONGO_URI; Log "load_error";
                     Close c; Log "load_time"]
        | InsertError e =>
            r0 = Err e
            /\ t0 = [Log "load_start"; MongoClient c MONGO_URI;
                     InsertOne c DB_NAME COLLECTION_NAME; Log "load_error";
                     Close c; Log "load_time"]
        | Inserted inserted_id =>
            r0 = Ok ("Documento insertado en MongoDB con _id=" +:+ inserted_id)
            /\ t0 = [Log "load_start"; MongoClient c MONGO_URI;
                     InsertOne c DB_NAME COLLECTION_NAME; Log "load_success";
                     Close c; Log "load_time"]
        end).
Proof.
  intros Hrun.
  destruct (run_task_cargar _ _ _ _ _ _ _ _ Hrun) as (Hb & Hc & Hall).
  pose proof (run_task_shape delay (cargar_a_mongo doc) n w) as Hshape.
  rewrite Hrun in Hshape.
  destruct Hshape as (Hruns & Hr & Hw & Ht & Hfail & Hlast).
  rewrite cargar_attempt_outcome in Hr.
  assert (Hearlier : forall i inserted_id,
            (i < runs - 1)%nat ->
            mongo_reply (mongo_calls w + i) <> Inserted inserted_id).
  { intros i inserted_id Hi Hreply. destruct (Hfail i Hi) as [e He].
    rewrite cargar_attempt_outcome, Hreply in He. discriminate He. }
  unfold max_attempts.
  split; [|split; [exact Hc|split; [exact Hall|split; [exact Hruns|]]]].
  { specialize (Hb [] 0%nat). by rewrite app_nil_r in Hb. }
  split; [|split; [exact Ht|split; [exact Hearlier|split; [|split]]]].
  - rewrite Hw.
    rewrite (world_before_mongo (cargar_a_mongo doc) w runs); [reflexivity|].
    intros w0. rewrite cargar_a_mongo_run. cbv zeta.
    by destruct (mongo_reply (mongo_calls w0)).
  - intros s. subst r.
    destruct (mongo_reply (mongo_calls w + (runs - 1))) as [e|e|e|inserted_id];
      split; try discriminate; try (by intros (? & [=] & _)).
    + intros [= <-]. by exists inserted_id.
    + by intros (? & [= <-] & ->).
  - intros k inserted_id Hk Hbefore Hreply.
    assert (runs = S k) as ->.
    { destruct (Nat.lt_trichotomy (runs - 1) k) as [Hlt | [Heq | Hgt]].
      - destruct (Hlast ltac:(lia)) as [a Ha]. rewrite Ha in Hr.
        destruct (mongo_reply (mongo_calls w + (runs - 1)))
          as [e|e|e|other_id] eqn:Hrep; try discriminate Hr.
        by destruct (Hbefore _ other_id Hlt).
      - lia.
      - by destruct (Hearlier k inserted_id Hgt). }
    replace (S k - 1)%nat with k in Hr by lia.
    rewrite Hreply in Hr. by subst r.
  - intros w0. cbv zeta. rewrite cargar_a_mongo_run. cbv zeta.
    by destruct (mongo_reply (mongo_calls w0)).
Qed.

(** ** The JSON checkpoint *)

(** Induction on documents, with the hypothesis for every item. *)
Lemma json_induction (P : json -> Prop) :
  P JNull -> (forall b, P (JBool b)) -> (forall z, P (JInt z)) ->
  (forall f, P (JFloat f)) -> (forall s, P (JStr s)) ->
  (forall l, Forall P l -> P (JList l)) ->
  (forall d, Forall (fun kv => P kv.2) d -> P (JDict d)) ->
  forall v, P v.
Proof.
  intros HNull HBool HInt HFloat HStr HList HDict.
  fix IH 1. intros [| b | z | f | s | l | d].
  - exact HNull.
  - apply HBool.
  - apply HInt.
  - apply HFloat.
  - apply HStr.
  - apply HList. induction l as [|x l IHl]; constructor; [apply IH | exact IHl].
  - apply HDict. induction d as [|[k x] d IHd]; constructor; [apply IH | exact IHd].
Qed.

Lemma iterencode_list (level : nat) (x : json) (l : list json) :
  iterencode level (JList (x :: l))
  = "[" +:+ newline_indent (S level) +:+ iterencode (S level) x
    +:+ list_items level l +:+ newline_indent level +:+ "]".
Proof. reflexivity. Qed.

Lemma iterencode_dict (level : nat) (k : string) (x : json) (d : dict) :
  iterencode level (JDict ((k, x) :: d))
  = "{" +:+ newline_indent (S level) +:+ encode_basestring k +:+ ": "
    +:+ iterencode (S level) x
    +:+ dict_items level d +:+ newline_indent level +:+ "}".
Proof. reflexivity. Qed.

(** *** Texts between quotes *)

(** The scanner reads the escape of a character as that character. *)
Lemma scanstring_escape_char (c : ascii) (s : string) :
  scanstring (escape_char c +:+ s) = prepend (String c EmptyString) (scanstring s).
Proof.
  destruct c as [[] [] [] [] [] [] [] []];
    first [ reflexivity
          | destruct s as [|b [|u [|g1 [|g2 [|g3 [|g4 s]]]]]]; reflexivity ].
Qed.

Lemma scanstring_escape (s rest : string) :
  scanstring (escape s +:+ String PyStr.dquote rest) = Some (s, rest).
Proof.
  induction s as [|c s IH].
  - reflexivity.
  - change (escape (String c s)) with (escape_char c +:+ escape s).
    rewrite str_app_assoc, scanstring_escape_char, IH. reflexivity.
Qed.

Lemma encode_basestring_cons (s rest : string) :
  encode_basestring s +:+ rest
  = String PyStr.dquote (escape s +:+ String PyStr.dquote rest).
Proof.
  unfold encode_basestring. rewrite str_app_cons, str_app_assoc. reflexivity.
Qed.

(** *** White space *)

Lemma skip_ws_spaces (n : nat) (s : string) : skip_ws (spaces n +:+ s) = skip_ws s.
Proof. induction n as [|n IH]; [reflexivity|]. simpl spaces. by rewrite str_app_cons. Qed.

Lemma skip_ws_newline_indent (level : nat) (s : string) :
  skip_ws (newline_indent level +:+ s) = skip_ws s.
Proof.
  unfold newline_indent. rewrite str_app_cons.
  change (skip_ws (String (PyStr.byte 10) ?x)) with (skip_ws x).
  apply skip_ws_spaces.
Qed.

Lemma skip_ws_cons (c : ascii) (s : string) :
  is_ws c = false -> skip_ws (String c s) = String c s.
Proof. intros H. simpl. by rewrite H. Qed.

(** Decide the comparisons of known characters in the goal. *)
Ltac eval_chars :=
  repeat match goal with
         | |- context [Ascii.eqb ?a ?b] =>
             let r := eval vm_compute in (Ascii.eqb a b) in
             lazymatch r with
             | true => change (Ascii.eqb a b) with true
             | false => change (Ascii.eqb a b) with false
             end
         end;
  cbn [negb]; cbv beta iota.

Lemma skip_ws_value (s : string) : starts_value s -> skip_ws s = s.
Proof. intros (c & s' & -> & Hc). simpl. by rewrite Hc. Qed.

(** *** Numbers *)

Lemma number_end_head (rest : string) :
  number_end rest = true ->
  match rest with
  | EmptyString => True
  | String c _ =>
      is_digit c = false /\ Ascii.eqb c "." = false /\ Ascii.eqb c "e" = false
      /\ Ascii.eqb c "E" = false /\ Ascii.eqb c "+" = false
      /\ Ascii.eqb c "-" = false
  end.
Proof.
  destruct rest as [|c rest]; [done|]. simpl. intros H.
  apply negb_true_iff in H.
  repeat (apply orb_false_iff in H as [H ?]). done.
Qed.

Lemma number_end_no_digit (rest : string) :
  number_end rest = true -> no_digit_head rest.
Proof.
  intros H. apply number_end_head in H. destruct rest; [done|]. apply H.
Qed.

Lemma span_digits_split (s ds r : string) :
  span_digits s = (ds, r) -> s = ds +:+ r.
Proof.
  revert ds r. induction s as [|c s IH]; intros ds r; simpl.
  - by intros [= <- <-].
  - destruct (is_digit c).
    + destruct (span_digits s) as [ds' r'] eqn:Hs. intros [= <- <-].
      rewrite str_app_cons. f_equal. by apply IH.
    + by intros [= <- <-].
Qed.

Lemma span_digits_app (s rest ds r : string) :
  no_digit_head rest ->
  span_digits s = (ds, r) -> span_digits (s +:+ rest) = (ds, r +:+ rest).
Proof.
  intros Hrest. revert ds r. induction s as [|c s IH]; intros ds r.
  - simpl. intros [= <- <-]. rewrite str_app_nil_l.
    destruct rest as [|c rest]; [reflexivity|]. simpl in *. by rewrite Hrest.
  - rewrite str_app_cons. simpl. destruct (is_digit c).
    + destruct (span_digits s) as [ds' r'] eqn:Hs. intros [= <- <-].
      by rewrite (IH _ _ eq_refl).
    + by intros [= <- <-].
Qed.

Lemma match_integer_split (s i r : string) :
  match_integer s = Some (i, r) -> s = i +:+ r.
Proof.
  unfold match_integer. destruct s as [|c s]; [discriminate|].
  destruct (Ascii.eqb_spec c "-") as [-> | Hc].
  - destruct s as [|c2 s]; [discriminate|].
    destruct (Ascii.eqb_spec c2 "0") as [-> | H0].
    + by intros [= <- <-].
    + destruct (is_digit c2); [|discriminate].
      destruct (span_digits s) as [ds r'] eqn:Hs. intros [= <- <-].
      apply span_digits_split in Hs as ->. reflexivity.
  - destruct (Ascii.eqb_spec c "0") as [-> | H0].
    + by intros [= <- <-].
    + destruct (is_digit c); [|discriminate].
      destruct (span_digits s) as [ds r'] eqn:Hs. intros [= <- <-].
      apply span_digits_split in Hs as ->. reflexivity.
Qed.

Lemma match_integer_app (s rest i r : string) :
  no_digit_head rest ->
  match_integer s = Some (i, r) ->
  match_integer (s +:+ rest) = Some (i, r +:+ rest).
Proof.
  intros Hrest. unfold match_integer. destruct s as [|c s]; [discriminate|].
  rewrite (str_app_cons c s rest).
  destruct (Ascii.eqb c "-").
  - destruct s as [|c2 s]; [discriminate|]. rewrite (str_app_cons c2 s rest).
    destruct (Ascii.eqb c2 "0"); [by intros [= <- <-]|].
    destruct (is_digit c2); [|discriminate].
    destruct (span_digits s) as [ds r'] eqn:Hs. intros [= <- <-].
    by rewrite (span_digits_app _ _ _ _ Hrest Hs).
  - destruct (Ascii.eqb c "0"); [by intros [= <- <-]|].
    destruct (is_digit c); [|discriminate].
    destruct (span_digits s) as [ds r'] eqn:Hs. intros [= <- <-].
    by rewrite (span_digits_app _ _ _ _ Hrest Hs).
Qed.

(** A matched integer starts with a digit or the minus sign. *)
Lemma match_integer_head (s i r : string) :
  match_integer s = Some (i, r) ->
  exists c s', s = String c s' /\ (is_digit c || Ascii.eqb c "-") = true.
Proof.
  unfold match_integer. destruct s as [|c s]; [discriminate|].
  intros H. exists c, s. split; [done|].
  destruct (Ascii.eqb c "-"); [by rewrite orb_true_r|].
  destruct (Ascii.eqb_spec c "0") as [-> | H0]; [reflexivity|].
  destruct (is_digit c); [reflexivity|discriminate].
Qed.

Lemma match_frac_split (s s2 : string) (frac : option string) :
  match_frac s = (frac, s2) -> s = default EmptyString frac +:+ s2.
Proof.
  unfold match_frac. destruct s as [|c s]; [by intros [= <- <-]|].
  destruct (Ascii.eqb c "."); [|by intros [= <- <-]].
  destruct (span_digits s) as [ds r] eqn:Hs.
  apply span_digits_split in Hs as ->.
  destruct ds; intros [= <- <-]; reflexivity.
Qed.

Lemma match_frac_app (s rest s2 : string) (frac : option string) :
  number_end rest = true ->
  match_frac s = (frac, s2) -> match_frac (s +:+ rest) = (frac, s2 +:+ rest).
Proof.
  intros Hend. pose proof (number_end_head _ Hend) as Hhead.
  pose proof (number_end_no_digit _ Hend) as Hnd.
  unfold match_frac. destruct s as [|c s].
  - intros [= <- <-]. rewrite str_app_nil_l.
    destruct rest as [|c rest]; [reflexivity|].
    destruct Hhead as (_ & -> & _). reflexivity.
  - rewrite (str_app_cons c s rest).
    destruct (Ascii.eqb c "."); [|by intros [= <- <-]].
    destruct (span_digits s) as [ds r] eqn:Hs.
    rewrite (span_digits_app _ _ _ _ Hnd Hs).
    destruct ds; intros [= <- <-]; reflexivity.
Qed.

Lemma match_exp_split (s s3 : string) (exp : option string) :
  match_exp s = (exp, s3) -> s = default EmptyString exp +:+ s3.
Proof.
  unfold match_exp. destruct s as [|e s]; [by intros [= <- <-]|].
  destruct (Ascii.eqb e "e" || Ascii.eqb e "E"); [|by intros [= <- <-]].
  destruct s as [|c s].
  - simpl. by intros [= <- <-].
  - destruct (Ascii.eqb c "-" || Ascii.eqb c "+").
    + destruct (span_digits s) as [ds r] eqn:Hs.
      apply span_digits_split in Hs as ->.
      destruct ds; intros [= <- <-]; reflexivity.
    + destruct (span_digits (String c s)) as [ds r] eqn:Hs.
      apply span_digits_split in Hs. rewrite Hs.
      destruct ds; intros [= <- <-]; reflexivity.
Qed.

Lemma match_exp_app (s rest s3 : string) (exp : option string) :
  number_end rest = true ->
  match_exp s = (exp, s3) -> match_exp (s +:+ rest) = (exp, s3 +:+ rest).
Proof.
  intros Hend. pose proof (number_end_head _ Hend) as Hhead.
  pose proof (number_end_no_digit _ Hend) as Hnd.
  unfold match_exp. destruct s as [|e s].
  - intros [= <- <-]. rewrite str_app_nil_l.
    destruct rest as [|c rest]; [reflexivity|].
    destruct Hhead as (_ & _ & -> & -> & _). reflexivity.
  - rewrite (str_app_cons e s rest).
    destruct (Ascii.eqb e "e" || Ascii.eqb e "E"); [|by intros [= <- <-]].
    destruct s as [|c s].
    + rewrite (str_app_nil_l rest). simpl. intros [= <- <-].
      destruct rest as [|c rest]; [reflexivity|].
      destruct Hhead as (Hd & _ & _ & _ & Hplus & Hminus).
      rewrite Hplus, Hminus. simpl. by rewrite Hd.
    + rewrite (str_app_cons c s rest).
      destruct (Ascii.eqb c "-" || Ascii.eqb c "+").
      * destruct (span_digits s) as [ds r] eqn:Hs.
        rewrite (span_digits_app _ _ _ _ Hnd Hs).
        destruct ds; intros [= <- <-]; reflexivity.
      * destruct (span_digits (String c s)) as [ds r] eqn:Hs.
        rewrite <- (str_app_cons c s rest).
        rewrite (span_digits_app _ _ _ _ Hnd Hs).
        destruct ds; intros [= <- <-]; reflexivity.
Qed.

(** The decimal digits of a positive number start with a digit that is not
    zero. *)
Lemma to_uint_head (p : positive) :
  match Pos.to_uint p with
  | Nil | D0 _ => False
  | _ => True
  end.
Proof.
  assert (Hnorm : Pos.to_uint p = unorm (Pos.to_uint p)).
  { rewrite <- DecimalPos.Unsigned.to_of, DecimalPos.Unsigned.of_to. reflexivity. }
  pose proof (DecimalPos.Unsigned.to_uint_nonzero p) as Hnz.
  pose proof (nzhead_nonzero (Pos.to_uint p)) as Hhead.
  unfold unorm in Hnorm.
  destruct (nzhead (Pos.to_uint p)) as [|d|d|d|d|d|d|d|d|d|d] eqn:Hnzh;
    rewrite Hnorm; try exact I.
  - by apply Hnz.
  - by apply (Hhead d).
Qed.

Lemma span_digits_uint (d : uint) :
  span_digits (NilEmpty.string_of_uint d) = (NilEmpty.string_of_uint d, EmptyString).
Proof. induction d; simpl; [reflexivity | by rewrite IHd..]. Qed.

Lemma match_integer_uint (p : positive) :
  match_integer (NilEmpty.string_of_uint (Pos.to_uint p))
  = Some (NilEmpty.string_of_uint (Pos.to_uint p), EmptyString)
  /\ NilZero.string_of_uint (Pos.to_uint p) = NilEmpty.string_of_uint (Pos.to_uint p).
Proof.
  pose proof (to_uint_head p) as H.
  destruct (Pos.to_uint p) as [|d|d|d|d|d|d|d|d|d|d]; try done;
    (split; [|reflexivity]); unfold match_integer; simpl;
    by rewrite span_digits_uint.
Qed.

Lemma match_integer_repr_int (z : Z) :
  match_integer (repr_int z) = Some (repr_int z, EmptyString).
Proof.
  unfold repr_int. destruct z as [|p|p]; simpl.
  - reflexivity.
  - destruct (match_integer_uint p) as [H ->]. exact H.
  - destruct (match_integer_uint p) as [H ->].
    pose proof (to_uint_head p) as Hh.
    destruct (Pos.to_uint p) as [|d|d|d|d|d|d|d|d|d|d]; try done;
      unfold match_integer; simpl; by rewrite span_digits_uint.
Qed.

Lemma parse_int_repr_int (z : Z) : parse_int (repr_int z) = z.
Proof.
  unfold parse_int, repr_int. rewrite NilZero.isi.
  - apply DecimalZ.of_to.
  - destruct z as [|p|p]; simpl; try discriminate.
    intros [= H]. by apply (DecimalPos.Unsigned.to_uint_nonnil p).
  - destruct z as [|p|p]; simpl; try discriminate.
    intros [= H]. by apply (DecimalPos.Unsigned.to_uint_nonnil p).
Qed.

(** An integer followed by the end of a number is read as that integer. *)
Lemma match_number_int (z : Z) (rest : string) :
  number_end rest = true ->
  match_number (repr_int z +:+ rest) = Some (JInt z, rest).
Proof.
  intros Hend. unfold match_number.
  rewrite (match_integer_app _ rest _ _ (number_end_no_digit _ Hend)
             (match_integer_repr_int z)).
  rewrite str_app_nil_l.
  pose proof (match_frac_app EmptyString rest EmptyString None Hend eq_refl) as Hf.
  rewrite str_app_nil_l in Hf. rewrite Hf.
  pose proof (match_exp_app EmptyString rest EmptyString None Hend eq_refl) as He.
  rewrite str_app_nil_l in He. rewrite He.
  by rewrite parse_int_repr_int.
Qed.

(** A float literal followed by the end of a number is read as the float of
    that literal. *)
Lemma match_number_float (text rest : string) :
  float_literal text = true -> number_end rest = true ->
  match_number (text +:+ rest) = Some (JFloat (float_of_str text), rest).
Proof.
  unfold float_literal, match_number. intros Hlit Hend.
  destruct (match_integer text) as [[i s1]|] eqn:Hi; [|discriminate].
  destruct (match_frac s1) as [frac s2] eqn:Hf.
  destruct (match_exp s2) as [exp s3] eqn:He.
  apply andb_true_iff in Hlit as [Hs3 Hsome].
  apply String.eqb_eq in Hs3. subst s3.
  rewrite (match_integer_app _ rest _ _ (number_end_no_digit _ Hend) Hi).
  rewrite (match_frac_app _ rest _ _ Hend Hf).
  rewrite (match_exp_app _ rest _ _ Hend He).
  rewrite str_app_nil_l.
  assert (Htext : text = i +:+ default EmptyString frac +:+ default EmptyString exp).
  { apply match_integer_split in Hi. apply match_frac_split in Hf.
    apply match_exp_split in He. rewrite Hi, Hf, He.
    by rewrite str_app_nil_r. }
  rewrite <- Htext.
  destruct frac, exp; try reflexivity. discriminate.
Qed.

Lemma float_literal_head (text : string) :
  float_literal text = true ->
  exists c s', text = String c s' /\ (is_digit c || Ascii.eqb c "-") = true.
Proof.
  unfold float_literal. destruct (match_integer text) as [[i s1]|] eqn:Hi;
    [|discriminate].
  intros _. by apply match_integer_head in Hi.
Qed.

Lemma repr_int_head (z : Z) :
  exists c s', repr_int z = String c s' /\ (is_digit c || Ascii.eqb c "-") = true.
Proof. apply (match_integer_head _ _ _ (match_integer_repr_int z)). Qed.

(** A text that starts as a number and holds one is scanned as that number. *)
Lemma scan_once_number (fuel : nat) (c : ascii) (s : string) (r : json * string) :
  (is_digit c || Ascii.eqb c "-") = true ->
  match_number (String c s) = Some r ->
  scan_once (S fuel) (String c s) = Some r.
Proof.
  intros Hc Hnum.
  assert (Hhead : Ascii.eqb c PyStr.dquote = false /\ Ascii.eqb c "{" = false
                  /\ Ascii.eqb c "[" = false /\ Ascii.eqb "n" c = false
                  /\ Ascii.eqb "t" c = false /\ Ascii.eqb "f" c = false).
  { clear Hnum. destruct c as [[] [] [] [] [] [] [] []]; try discriminate;
      repeat split. }
  destruct Hhead as (H1 & H2 & H3 & H4 & H5 & H6).
  cbn [scan_once strip_prefix]. rewrite H1, H2, H3, H4, H5, H6.
  by rewrite Hnum.
Qed.

(** *** Documents *)

(** Texts as a first character and a rest, with the joins nested to the
    right. *)
Ltac text_norm :=
  repeat (rewrite str_app_assoc || rewrite str_app_cons || rewrite str_app_nil_l).
Ltac text_norm_in H :=
  repeat (rewrite str_app_assoc in H || rewrite str_app_cons in H
          || rewrite str_app_nil_l in H).

Lemma number_end_newline (level : nat) (s : string) :
  number_end (newline_indent level +:+ s) = true.
Proof. reflexivity. Qed.

(** The text of a document starts with an ASCII character that is neither
    white space nor a closing bracket. *)
Lemma iterencode_head (level : nat) (v : json) (rest : string) :
  well_formed v ->
  exists c s', iterencode level v +:+ rest = String c s'
               /\ is_ws c = false /\ Ascii.eqb c "]" = false
               /\ (N_of_ascii c <? 128)%N = true.
Proof.
  intros Hwf. destruct v as [| [] | z | f | s | [|x l] | [|[k x] d]];
    try (eexists _, _; split; [reflexivity|by repeat split]).
  - destruct (repr_int_head z) as (c & s' & Hz & Hc). simpl. rewrite Hz.
    exists c, (s' +:+ rest). split; [reflexivity|].
    clear -Hc. destruct c as [[] [] [] [] [] [] [] []]; try discriminate;
      by repeat split.
  - inversion Hwf as [| | | f' [Hlit _] | | |]; subst.
    destruct (float_literal_head _ Hlit) as (c & s' & Hf & Hc). simpl. rewrite Hf.
    exists c, (s' +:+ rest). split; [reflexivity|].
    clear -Hc. destruct c as [[] [] [] [] [] [] [] []]; try discriminate;
      by repeat split.
Qed.

Lemma skip_ws_iterencode (level : nat) (v : json) (rest : string) :
  well_formed v ->
  skip_ws (iterencode level v +:+ rest) = iterencode level v +:+ rest.
Proof.
  intros Hwf. apply skip_ws_value.
  destruct (iterencode_head level v rest Hwf) as (c & s' & H & Hc & _ & _).
  by exists c, s'.
Qed.

(** The keys of a dict that are distinct stay as they are in [dict(pairs)]. *)
Lemma dict_set_fresh (d : dict) (k : string) (v : json) :
  ~ In k (map fst d) -> dict_set d k v = d ++ [(k, v)].
Proof.
  induction d as [|[k' v'] d IH]; simpl; [done|].
  intros Hnot. destruct (String.eqb_spec k' k) as [-> | Hne].
  - destruct Hnot. by left.
  - rewrite IH; [done|]. intros Hin. apply Hnot. by right.
Qed.

Lemma dict_of_pairs_acc (d acc : dict) :
  NoDup (map fst (acc ++ d)) ->
  fold_left (fun d0 '(k, v) => dict_set d0 k v) d acc = acc ++ d.
Proof.
  revert acc. induction d as [|[k v] d IH]; intros acc Hnd; simpl.
  - by rewrite app_nil_r.
  - rewrite dict_set_fresh.
    + rewrite IH; rewrite <- app_assoc; [done|exact Hnd].
    + rewrite map_app in Hnd. simpl in Hnd.
      apply NoDup_app in Hnd as (_ & Hdisj & _).
      intros Hin. apply (Hdisj k); [by apply list_elem_of_In|]. by left.
Qed.

Lemma dict_of_pairs_unique (d : dict) :
  NoDup (map fst d) -> dict_of_pairs d = d.
Proof. intros Hnd. unfold dict_of_pairs. by rewrite dict_of_pairs_acc. Qed.

(** The items of a list, from the first one to the closing bracket. *)
Lemma array_items_list (level : nat) (rest : string) (l : list json) :
  Forall scans_back l -> Forall well_formed l ->
  forall x fuel,
    scans_back x -> well_formed x ->
    (S (scan_size x + list_size l) <= fuel)%nat ->
    array_items fuel
      (iterencode (S level) x +:+ list_items level l
       +:+ newline_indent level +:+ "]" +:+ rest)
    = Some (x :: l, rest).
Proof.
  induction l as [|y l IH]; intros Hall Hwfl x fuel Hx Hwx Hfuel.
  - destruct fuel as [|fuel]; [lia|]. cbn [array_items list_items].
    rewrite str_app_nil_l.
    rewrite (Hx (S level) _ fuel (number_end_newline _ _)); [|simpl in Hfuel; lia].
    rewrite skip_ws_newline_indent. text_norm.
    rewrite (skip_ws_cons "]" rest eq_refl). by eval_chars.
  - change (list_size (y :: l)) with (S (scan_size y + list_size l)) in Hfuel.
    destruct fuel as [|fuel]; [lia|]. cbn [array_items].
    change (list_items level (y :: l))
      with ("," +:+ newline_indent (S level) +:+ iterencode (S level) y
            +:+ list_items level l).
    text_norm.
    rewrite (Hx (S level) (String "," _) fuel eq_refl); [|lia].
    rewrite (skip_ws_cons "," _ eq_refl). eval_chars.
    rewrite skip_ws_newline_indent.
    inversion Hall as [|? ? Hy Hall']; subst.
    inversion Hwfl as [|? ? Hwy Hwfl']; subst.
    rewrite (skip_ws_iterencode _ _ _ Hwy).
    pose proof (IH Hall' Hwfl' y fuel Hy Hwy) as Hrec.
    text_norm_in Hrec. rewrite Hrec; [reflexivity|lia].
Qed.

Lemma skip_ws_space (s : string) : skip_ws (String " " s) = skip_ws s.
Proof. reflexivity. Qed.

(** The pairs of a dict, from the first key (after its opening quote) to the
    closing brace. *)
Lemma object_items_dict (level : nat) (rest : string) (d : dict) :
  Forall (fun kv => scans_back kv.2) d ->
  Forall (fun kv => well_formed kv.2) d ->
  forall k x fuel,
    scans_back x -> well_formed x ->
    (S (scan_size x + dict_size d) <= fuel)%nat ->
    object_items fuel
      (escape k
       +:+ String PyStr.dquote
             (": " +:+ iterencode (S level) x +:+ dict_items level d
              +:+ newline_indent level +:+ "}" +:+ rest))
    = Some ((k, x) :: d, rest).
Proof.
  induction d as [|[k' y] d IH]; intros Hall Hwfd k x fuel Hx Hwx Hfuel.
  - destruct fuel as [|fuel]; [lia|]. cbn [object_items dict_items].
    rewrite scanstring_escape. text_norm.
    rewrite (skip_ws_cons ":" _ eq_refl). eval_chars.
    rewrite skip_ws_space, (skip_ws_iterencode _ _ _ Hwx).
    rewrite (Hx (S level) _ fuel (number_end_newline _ _)); [|simpl in Hfuel; lia].
    rewrite skip_ws_newline_indent.
    rewrite (skip_ws_cons "}" rest eq_refl). by eval_chars.
  - change (dict_size ((k', y) :: d)) with (S (scan_size y + dict_size d)) in Hfuel.
    destruct fuel as [|fuel]; [lia|]. cbn [object_items].
    change (dict_items level ((k', y) :: d))
      with ("," +:+ newline_indent (S level) +:+ encode_basestring k'
            +:+ ": " +:+ iterencode (S level) y +:+ dict_items level d).
    rewrite scanstring_escape. text_norm.
    rewrite (skip_ws_cons ":" _ eq_refl). eval_chars.
    rewrite skip_ws_space, (skip_ws_iterencode _ _ _ Hwx).
    rewrite (Hx (S level) (String "," _) fuel eq_refl); [|lia].
    rewrite (skip_ws_cons "," _ eq_refl). eval_chars.
    rewrite skip_ws_newline_indent, encode_basestring_cons.
    rewrite (skip_ws_cons PyStr.dquote _ eq_refl). eval_chars.
    inversion Hall as [|? ? Hy Hall']; subst.
    inversion Hwfd as [|? ? Hwy Hwfd']; subst.
    pose proof (IH Hall' Hwfd' k' y fuel Hy Hwy) as Hrec.
    text_norm_in Hrec. rewrite Hrec; [reflexivity|lia].
Qed.

Lemma Forall_modus {A} (P Q : A -> Prop) (l : list A) :
  Forall (fun x => P x -> Q x) l -> Forall P l -> Forall Q l.
Proof.
  induction 1 as [|x l Hx _ IH]; intros HP; [constructor|].
  inversion HP; subst. constructor; auto.
Qed.

(** The scanner reads the text of a document back as the document. *)
Lemma scan_once_iterencode (v : json) : well_formed v -> scans_back v.
Proof.
  induction v as [| b | z | f | s | l IH | d IH] using json_induction;
    intros Hwf level rest fuel Hend Hfuel;
    (destruct fuel as [|fuel]; [simpl in Hfuel; lia|]).
  - reflexivity.
  - by destruct b.
  - destruct (repr_int_head z) as (c & s' & Hz & Hc).
    change (iterencode level (JInt z)) with (repr_int z).
    pose proof (match_number_int z rest Hend) as Hnum.
    rewrite Hz, str_app_cons in *. by apply scan_once_number.
  - inversion Hwf as [| | | f' [Hlit Hback] | | |]; subst.
    destruct (float_literal_head _ Hlit) as (c & s' & Hf & Hc).
    change (iterencode level (JFloat f)) with (float_repr f).
    pose proof (match_number_float _ rest Hlit Hend) as Hnum.
    rewrite Hback in Hnum.
    rewrite Hf, str_app_cons in *. by apply scan_once_number.
  - change (iterencode level (JStr s)) with (encode_basestring s).
    rewrite encode_basestring_cons. cbn [scan_once]. eval_chars.
    by rewrite scanstring_escape.
  - inversion Hwf as [| | | | | l' Hwfl |]; subst.
    destruct l as [|x l]; [reflexivity|].
    rewrite iterencode_list. text_norm. cbn [scan_once]. eval_chars.
    rewrite skip_ws_newline_indent.
    inversion Hwfl as [|? ? Hwx Hwfl']; subst.
    inversion IH as [|? ? Hx IH']; subst.
    destruct (iterencode_head (S level) x
                (list_items level l +:+ newline_indent level +:+ String "]" rest)
                Hwx) as (c & s' & Hhead & Hws & Hclose & _).
    rewrite (skip_ws_iterencode _ _ _ Hwx).
    rewrite Hhead, Hclose, <- Hhead.
    pose proof (array_items_list level rest l
                  (Forall_modus _ _ _ IH' Hwfl') Hwfl' x fuel (Hx Hwx) Hwx) as Hrec.
    text_norm_in Hrec. rewrite Hrec; [reflexivity|].
    change (scan_size (JList (x :: l))) with (S (S (scan_size x + list_size l)))
      in Hfuel. lia.
  - inversion Hwf as [| | | | | | d' Hnd Hwfd]; subst.
    destruct d as [|[k x] d]; [reflexivity|].
    rewrite iterencode_dict. text_norm. cbn [scan_once]. eval_chars.
    rewrite skip_ws_newline_indent, encode_basestring_cons.
    rewrite (skip_ws_cons PyStr.dquote _ eq_refl). eval_chars.
    inversion Hwfd as [|? ? Hwx Hwfd']; subst.
    inversion IH as [|? ? Hx IH']; subst.
    pose proof (object_items_dict level rest d
                  (Forall_modus (fun kv => well_formed kv.2) _ _ IH' Hwfd')
                  Hwfd' k x fuel (Hx Hwx) Hwx) as Hrec.
    text_norm_in Hrec. rewrite Hrec.
    + by rewrite dict_of_pairs_unique.
    + change (scan_size (JDict ((k, x) :: d)))
        with (S (S (scan_size x + dict_size d))) in Hfuel. lia.
Qed.

(** *** The whole text *)

Lemma list_items_length (level : nat) (l : list json) :
  Forall (fun y => forall lv, (scan_size y <= String.length (iterencode lv y))%nat) l ->
  (list_size l <= String.length (list_items level l))%nat.
Proof.
  induction 1 as [|y l Hy _ IH]; [done|].
  change (list_items level (y :: l))
    with ("," +:+ newline_indent (S level) +:+ iterencode (S level) y
          +:+ list_items level l).
  change (list_size (y :: l)) with (S (scan_size y + list_size l)).
  rewrite !str_app_length. specialize (Hy (S level)). simpl. lia.
Qed.

Lemma dict_items_length (level : nat) (d : dict) :
  Forall (fun kv => forall lv,
            (scan_size kv.2 <= String.length (iterencode lv kv.2))%nat) d ->
  (dict_size d <= String.length (dict_items level d))%nat.
Proof.
  induction 1 as [|[k y] d Hy _ IH]; [done|].
  change (dict_items level ((k, y) :: d))
    with ("," +:+ newline_indent (S level) +:+ encode_basestring k
          +:+ ": " +:+ iterencode (S level) y +:+ dict_items level d).
  change (dict_size ((k, y) :: d)) with (S (scan_size y + dict_size d)).
  rewrite !str_app_length. specialize (Hy (S level)). simpl in *. lia.
Qed.

(** A text has at least as many characters as the scanner makes calls. *)
Lemma iterencode_length (v : json) :
  well_formed v ->
  forall level, (scan_size v <= String.length (iterencode level v))%nat.
Proof.
  induction v as [| b | z | f | s | l IH | d IH] using json_induction;
    intros Hwf level.
  - simpl. lia.
  - destruct b; simpl; lia.
  - destruct (repr_int_head z) as (c & s' & Hz & _).
    change (iterencode level (JInt z)) with (repr_int z). rewrite Hz. simpl. lia.
  - inversion Hwf as [| | | f' [Hlit _] | | |]; subst.
    destruct (float_literal_head _ Hlit) as (c & s' & Hf & _).
    change (iterencode level (JFloat f)) with (float_repr f). rewrite Hf.
    simpl. lia.
  - simpl. lia.
  - inversion Hwf as [| | | | | l' Hwfl |]; subst.
    destruct l as [|x l]; [simpl; lia|].
    inversion Hwfl as [|? ? Hwx Hwfl']; subst.
    inversion IH as [|? ? Hx IH']; subst.
    rewrite iterencode_list, !str_app_length.
    change (scan_size (JList (x :: l))) with (S (S (scan_size x + list_size l))).
    pose proof (Hx Hwx (S level)).
    pose proof (list_items_length level l (Forall_modus _ _ _ IH' Hwfl')).
    simpl. lia.
  - inversion Hwf as [| | | | | | d' Hnd Hwfd]; subst.
    destruct d as [|[k x] d]; [simpl; lia|].
    inversion Hwfd as [|? ? Hwx Hwfd']; subst.
    inversion IH as [|? ? Hx IH']; subst.
    rewrite iterencode_dict, !str_app_length.
    change (scan_size (JDict ((k, x) :: d)))
      with (S (S (scan_size x + dict_size d))).
    pose proof (Hx Hwx (S level)).
    pose proof (dict_items_length level d
                  (Forall_modus (fun kv => well_formed kv.2) _ _ IH' Hwfd')).
    simpl in *. lia.
Qed.

(** [json.loads(json.dumps(v, ensure_ascii=False, indent=2))] is [v]. *)
Lemma loads_dumps (v : json) : well_formed v -> loads (dumps v) = Some v.
Proof.
  intros Hwf. unfold loads, dumps.
  destruct (iterencode_head 0 v EmptyString Hwf) as (c & s' & Hhead & Hws & _ & Hascii).
  rewrite str_app_nil_r in Hhead.
  assert (Hbom : strip_prefix bom (iterencode 0 v) = None).
  { rewrite Hhead. unfold bom. cbn [strip_prefix].
    destruct (Ascii.eqb_spec (PyStr.byte 239) c) as [<- | _]; [discriminate|done]. }
  rewrite Hbom.
  pose proof (skip_ws_iterencode 0 v EmptyString Hwf) as Hskip.
  rewrite str_app_nil_r in Hskip. rewrite Hskip.
  pose proof (scan_once_iterencode v Hwf 0%nat EmptyString
                (S (String.length (iterencode 0 v))) eq_refl) as Hscan.
  rewrite str_app_nil_r in Hscan. rewrite Hscan; [reflexivity|].
  pose proof (iterencode_length v Hwf 0%nat). lia.
Qed.


(** *** Writing the pieces *)

Lemma has_surrogate_cons (a : ascii) (s : string) :
  has_surrogate (String a s)
  = ((N_of_ascii a =? 237)%N && head_160_191 s) || has_surrogate s.
Proof.
  destruct s as [|b s]; simpl.
  - by rewrite andb_false_r.
  - by rewrite andb_assoc.
Qed.

Lemma has_surrogate_app_low (a b : string) :
  no_byte_237 a = true -> has_surrogate (a +:+ b) = has_surrogate b.
Proof.
  induction a as [|c a IH]; intros Hlow.
  - by rewrite str_app_nil_l.
  - rewrite str_app_cons. simpl in Hlow.
    apply andb_prop in Hlow as [Hc Ha].
    rewrite has_surrogate_cons. apply negb_true_iff in Hc. rewrite Hc.
    simpl. by apply IH.
Qed.

Lemma has_surrogate_low (a : string) :
  no_byte_237 a = true -> has_surrogate a = false.
Proof.
  intros Hlow. rewrite <- (str_app_nil_r a).
  by rewrite (has_surrogate_app_low a EmptyString Hlow).
Qed.

Lemma no_byte_237_app (a b : string) :
  no_byte_237 (a +:+ b) = no_byte_237 a && no_byte_237 b.
Proof.
  induction a as [|c a IH].
  - by rewrite str_app_nil_l.
  - rewrite str_app_cons. simpl. rewrite IH. by rewrite andb_assoc.
Qed.

Lemma no_byte_237_spaces (n : nat) : no_byte_237 (spaces n) = true.
Proof. induction n as [|n IH]; [reflexivity|]. simpl. exact IH. Qed.

Lemma no_byte_237_newline_indent (level : nat) :
  no_byte_237 (newline_indent level) = true.
Proof. unfold newline_indent. simpl. apply no_byte_237_spaces. Qed.

Lemma no_byte_237_uint (d : uint) : no_byte_237 (NilEmpty.string_of_uint d) = true.
Proof. induction d; simpl; try reflexivity; exact IHd. Qed.

Lemma no_byte_237_repr_int (z : Z) : no_byte_237 (repr_int z) = true.
Proof.
  unfold repr_int, NilZero.string_of_int, NilZero.string_of_uint.
  destruct (Z.to_int z) as [d|d].
  - destruct d; try reflexivity; simpl; apply no_byte_237_uint.
  - simpl. destruct d; try reflexivity; simpl; apply no_byte_237_uint.
Qed.

Lemma escape_char_kinds (c : ascii) : escape_char_kind c = true.
Proof.
  destruct c as [[] [] [] [] [] [] [] []]; vm_compute; reflexivity.
Qed.

Lemma head_160_191_app (a b : string) :
  a <> EmptyString -> head_160_191 (a +:+ b) = head_160_191 a.
Proof. destruct a as [|c a]; [done|]. intros _. by rewrite str_app_cons. Qed.

Lemma has_surrogate_escape (s : string) :
  forall rest,
    head_160_191 rest = false -> has_surrogate rest = false ->
    has_surrogate (escape s +:+ rest) = has_surrogate s
    /\ head_160_191 (escape s +:+ rest) = head_160_191 s.
Proof.
  induction s as [|c s IH]; intros rest Hhead Hrest.
  - simpl. rewrite str_app_nil_l. by split.
  - destruct (IH rest Hhead Hrest) as [IH1 IH2].
    cbn [escape]. rewrite str_app_assoc.
    pose proof (escape_char_kinds c) as Hkind. unfold escape_char_kind in Hkind.
    apply orb_prop in Hkind as [Hsame | Hesc].
    + apply String.eqb_eq in Hsame. rewrite Hsame.
      rewrite str_app_cons, str_app_nil_l.
      rewrite !has_surrogate_cons, IH1, IH2. by split.
    + apply andb_prop in Hesc as [Hesc Hc2].
      apply andb_prop in Hesc as [Hesc Hc1].
      apply andb_prop in Hesc as [Hesc Hh].
      apply andb_prop in Hesc as [Hlow Hne].
      apply negb_true_iff in Hc1, Hc2, Hh, Hne.
      rewrite (has_surrogate_app_low _ _ Hlow), IH1.
      rewrite has_surrogate_cons, Hc1. simpl.
      split; [reflexivity|].
      rewrite head_160_191_app; [by rewrite Hh|].
      intros Hnil. rewrite Hnil in Hne. discriminate.
Qed.

Lemma has_surrogate_encode_basestring (s : string) :
  has_surrogate (encode_basestring s) = has_surrogate s.
Proof.
  unfold encode_basestring. rewrite has_surrogate_cons.
  replace (N_of_ascii PyStr.dquote =? 237)%N with false by reflexivity.
  simpl. by apply has_surrogate_escape.
Qed.

Lemma write_chunks_app_ok (cs rest : list (result string)) :
  forall written text,
    write_chunks cs written = (Ok tt, text) ->
    write_chunks (cs ++ rest) written = write_chunks rest text.
Proof.
  induction cs as [|[e|s] cs IH]; intros written text; simpl.
  - by intros [= ->].
  - discriminate.
  - destruct (encode_error s); [discriminate|]. apply IH.
Qed.

Lemma write_chunks_app_err (cs rest : list (result string)) :
  forall written e text,
    write_chunks cs written = (Err e, text) ->
    write_chunks (cs ++ rest) written = (Err e, text).
Proof.
  induction cs as [|[e0|s] cs IH]; intros written e text; simpl.
  - discriminate.
  - done.
  - destruct (encode_error s); [done|]. apply IH.
Qed.

Lemma writes_ext (cs : list (result string)) (ok ok' : bool) (text text' : string) :
  writes cs ok text -> ok = ok' -> text = text' -> writes cs ok' text'.
Proof. by intros H <- <-. Qed.

Lemma writes_app (cs1 cs2 : list (result string)) (ok1 ok2 : bool)
    (text1 text2 : string) :
  writes cs1 ok1 text1 -> writes cs2 ok2 text2 ->
  writes (cs1 ++ cs2) (ok1 && ok2) (text1 +:+ text2).
Proof.
  intros H1 H2 written. specialize (H1 written).
  destruct ok1; simpl.
  - rewrite (write_chunks_app_ok _ _ _ _ H1).
    specialize (H2 (written +:+ text1)).
    destruct ok2; [by rewrite H2, str_app_assoc | exact H2].
  - destruct H1 as (e & t & H1). exists e, t. by apply write_chunks_app_err.
Qed.

Lemma writes_text (s : string) : writes [Ok s] (negb (has_surrogate s)) s.
Proof.
  intros written. simpl. unfold encode_error.
  destruct (has_surrogate s); simpl; [by eexists _, _ | reflexivity].
Qed.

Lemma writes_low (s : string) : no_byte_237 s = true -> writes [Ok s] true s.
Proof.
  intros Hlow. eapply writes_ext; [apply writes_text| |reflexivity].
  by rewrite (has_surrogate_low _ Hlow).
Qed.

Lemma writes_err (e : exn) (text : string) : writes [Err e] false text.
Proof. intros written. simpl. by eexists _, _. Qed.

Lemma int_str_ok (z : Z) (text : string) : int_str z = Ok text -> text = repr_int z.
Proof. unfold int_str. destruct (_ && _); [discriminate|]. by intros [= <-]. Qed.

(** An item of a list, after a [buf] without the byte 237. *)
Lemma writes_item (buf : string) (level : nat) (y : json) :
  no_byte_237 buf = true ->
  writes (chunks level y) (escribible y) (iterencode level y) ->
  writes (item_chunks buf y (chunks level y)) (escribible y)
    (buf +:+ iterencode level y).
Proof.
  intros Hbuf Hy. unfold item_chunks.
  destruct y as [| [] | z | f | s | l | d]; cbn [scalar_chunk].
  - apply writes_low. by rewrite no_byte_237_app, Hbuf.
  - apply writes_low. by rewrite no_byte_237_app, Hbuf.
  - apply writes_low. by rewrite no_byte_237_app, Hbuf.
  - cbn [escribible iterencode].
    destruct (int_str z) as [e|text] eqn:Hz; [apply writes_err|].
    apply int_str_ok in Hz as ->.
    apply writes_low. by rewrite no_byte_237_app, Hbuf, no_byte_237_repr_int.
  - cbn [escribible iterencode].
    eapply writes_ext; [apply writes_text| |reflexivity].
    by rewrite (has_surrogate_app_low _ _ Hbuf).
  - cbn [escribible iterencode].
    eapply writes_ext; [apply writes_text| |reflexivity].
    by rewrite (has_surrogate_app_low _ _ Hbuf), has_surrogate_encode_basestring.
  - change (Ok buf :: chunks level (JList l)) with ([Ok buf] ++ chunks level (JList l)).
    eapply writes_ext; [apply (writes_app _ _ _ _ _ _ (writes_low _ Hbuf) Hy)|done..].
  - change (Ok buf :: chunks level (JDict d)) with ([Ok buf] ++ chunks level (JDict d)).
    eapply writes_ext; [apply (writes_app _ _ _ _ _ _ (writes_low _ Hbuf) Hy)|done..].
Qed.

Lemma no_byte_237_separator (c : ascii) (level : nat) :
  (N_of_ascii c =? 237)%N = false ->
  no_byte_237 (String c EmptyString +:+ newline_indent level) = true.
Proof.
  intros Hc. rewrite str_app_cons, str_app_nil_l. simpl. rewrite Hc. simpl.
  apply no_byte_237_spaces.
Qed.

Lemma writes_list_chunks (level : nat) (l : list json) :
  Forall (fun y => forall lv, writes (chunks lv y) (escribible y) (iterencode lv y)) l ->
  writes (list_chunks level l) (escribible_items l) (list_items level l).
Proof.
  induction 1 as [|y l Hy _ IH]; [intros written; simpl; by rewrite str_app_nil_r|].
  cbn [list_chunks escribible_items list_items].
  eapply writes_ext;
    [apply (writes_app _ _ _ _ _ _
              (writes_item ("," +:+ newline_indent (S level)) (S level) y
                 (no_byte_237_separator "," (S level) eq_refl) (Hy (S level)))
              IH)
    |reflexivity|].
  by rewrite !str_app_assoc.
Qed.

Lemma writes_dict_chunks (level : nat) (d : dict) :
  Forall (fun kv => forall lv,
            writes (chunks lv kv.2) (escribible kv.2) (iterencode lv kv.2)) d ->
  writes (dict_chunks level d) (escribible_pairs d) (dict_items level d).
Proof.
  induction 1 as [|[k y] d Hy _ IH]; [intros written; simpl; by rewrite str_app_nil_r|].
  cbn [dict_chunks escribible_pairs dict_items]. simpl in Hy.
  change [Ok ("," +:+ newline_indent (S level)); Ok (encode_basestring k); Ok ": "]
    with ([Ok ("," +:+ newline_indent (S level))]
          ++ [Ok (encode_basestring k)] ++ [Ok ": "]).
  rewrite <- !app_assoc.
  eapply writes_ext;
    [apply (writes_app _ _ _ _ _ _
              (writes_low _ (no_byte_237_separator "," (S level) eq_refl))
              (writes_app _ _ _ _ _ _ (writes_text (encode_basestring k))
                 (writes_app _ _ _ _ _ _ (writes_low ": " eq_refl)
                    (writes_app _ _ _ _ _ _ (Hy (S level)) IH))))
    | |].
  - rewrite has_surrogate_encode_basestring. simpl. by rewrite andb_assoc.
  - by rewrite !str_app_assoc.
Qed.

(** [json.dump] writes the text of a document it can write, whole, and
    raises on any other. *)
Lemma writes_value (v : json) :
  forall level, writes (chunks level v) (escribible v) (iterencode level v).
Proof.
  induction v as [| b | z | f | s | l IH | d IH] using json_induction;
    intros level.
  - by apply writes_low.
  - destruct b; by apply writes_low.
  - cbn [chunks scalar_chunk escribible iterencode].
    destruct (int_str z) as [e|text] eqn:Hz; [apply writes_err|].
    apply int_str_ok in Hz as ->. apply writes_low, no_byte_237_repr_int.
  - apply writes_text.
  - cbn [chunks scalar_chunk escribible iterencode].
    eapply writes_ext; [apply writes_text| |reflexivity].
    by rewrite has_surrogate_encode_basestring.
  - destruct l as [|x l]; [by apply writes_low|].
    inversion IH as [|? ? Hx Hl]; subst.
    rewrite iterencode_list.
    change (chunks level (JList (x :: l)))
      with (item_chunks ("[" +:+ newline_indent (S level)) x (chunks (S level) x)
            ++ list_chunks level l ++ [Ok (newline_indent level)] ++ [Ok "]"]).
    change (escribible (JList (x :: l))) with (escribible x && escribible_items l).
    eapply writes_ext;
      [apply (writes_app _ _ _ _ _ _
                (writes_item ("[" +:+ newline_indent (S level)) (S level) x
                   (no_byte_237_separator "[" (S level) eq_refl) (Hx (S level)))
                (writes_app _ _ _ _ _ _ (writes_list_chunks level l Hl)
                   (writes_app _ _ _ _ _ _
                      (writes_low _ (no_byte_237_newline_indent level))
                      (writes_low "]" eq_refl))))
      | |].
    + by rewrite !andb_true_r.
    + by rewrite !str_app_assoc.
  - destruct d as [|[k x] d]; [by apply writes_low|].
    inversion IH as [|? ? Hx Hd]; subst. simpl in Hx.
    rewrite iterencode_dict.
    change (chunks level (JDict ((k, x) :: d)))
      with ([Ok "{"] ++ [Ok (newline_indent (S level))]
            ++ [Ok (encode_basestring k)] ++ [Ok ": "]
            ++ chunks (S level) x
            ++ dict_chunks level d ++ [Ok (newline_indent level)] ++ [Ok "}"]).
    change (escribible (JDict ((k, x) :: d)))
      with (negb (has_surrogate k) && escribible x && escribible_pairs d).
    eapply writes_ext;
      [apply (writes_app _ _ _ _ _ _ (writes_low "{" eq_refl)
                (writes_app _ _ _ _ _ _
                   (writes_low _ (no_byte_237_newline_indent (S level)))
                   (writes_app _ _ _ _ _ _ (writes_text (encode_basestring k))
                      (writes_app _ _ _ _ _ _ (writes_low ": " eq_refl)
                         (writes_app _ _ _ _ _ _ (Hx (S level))
                            (writes_app _ _ _ _ _ _ (writes_dict_chunks level d Hd)
                               (writes_app _ _ _ _ _ _
                                  (writes_low _ (no_byte_237_newline_indent level))
                                  (writes_low "}" eq_refl))))))))
      | |].
    + rewrite has_surrogate_encode_basestring. simpl.
      by rewrite !andb_true_r, andb_assoc.
    + reflexivity.
Qed.

(** *** The two stages of the checkpoint *)

Lemma json_dump_escribible (v : json) :
  escribible v = true -> json_dump_result v = (Ok tt, dumps v).
Proof.
  intros Hv. pose proof (writes_value v 0 EmptyString) as Hw.
  rewrite Hv in Hw. by rewrite str_app_nil_l in Hw.
Qed.

Lemma json_dump_refused (v : json) :
  escribible v = false -> exists e text, json_dump_result v = (Err e, text).
Proof.
  intros Hv. pose proof (writes_value v 0 EmptyString) as Hw.
  by rewrite Hv in Hw.
Qed.

Lemma json_dump_returns (v : json) (text : string) :
  json_dump_result v = (Ok tt, text) -> escribible v = true /\ text = dumps v.
Proof.
  intros Hw. destruct (escribible v) eqn:Hv.
  - rewrite (json_dump_escribible v Hv) in Hw. by injection Hw as <-.
  - destruct (json_dump_refused v Hv) as (e & t & He). rewrite He in Hw.
    discriminate Hw.
Qed.

Lemma set_file_twice (path text text' : string) (w : world) :
  set_file path text (set_file path text' w) = set_file path text w.
Proof. unfold set_file. simpl. by rewrite insert_insert_eq. Qed.

(** A run of [guardar_json], whatever the system answers to [open] and
    whatever the record holds. *)
Lemma guardar_json_every_run (registro : dict) (json_path : string) (w : world) :
  guardar_json registro json_path w
  = match open_error (open_calls w) json_path with
    | Some e =>
        (Err e,
         [Log "save_json_start"; Log "save_json_error"; Log "save_json_time"],
         count_open w)
    | None =>
        match json_dump_result (JDict registro) with
        | (inl e, text) =>
            (Err e,
             [Log "save_json_start"; Log "save_json_error"; Log "save_json_time"],
             set_file json_path text (count_open w))
        | (inr _, text) =>
            (Ok json_path,
             [Log "save_json_start"; Log "save_json_success"; Log "save_json_time"],
             set_file json_path text (count_open w))
        end
    end.
Proof.
  unfold guardar_json, try_except_finally, bindM, emit, open_write, json_dump, ret.
  destruct (open_error _ _); [reflexivity|].
  destruct (json_dump_result (JDict registro)) as [[e|[]] text]; simpl;
    by rewrite set_file_twice.
Qed.

Lemma guardar_json_run (registro : dict) (json_path : string) (w : world) :
  open_error (open_calls w) json_path = None ->
  escribible (JDict registro) = true ->
  guardar_json registro json_path w
  = (Ok json_path,
     [Log "save_json_start"; Log "save_json_success"; Log "save_json_time"],
     set_file json_path (dumps (JDict registro)) (count_open w)).
Proof.
  intros Hopen Hw. rewrite guardar_json_every_run, Hopen.
  by rewrite (json_dump_escribible _ Hw).
Qed.

Lemma guardar_world_before (registro : dict) (json_path : string) (w : world)
    (i : nat) :
  open_calls (world_before (guardar_json registro json_path) w i)
  = (open_calls w + i)%nat.
Proof.
  induction i as [|i IH]; simpl; [lia|].
  rewrite guardar_json_every_run.
  destruct (open_error _ _); [simpl; lia|].
  destruct (json_dump_result _) as [[e|[]] text]; simpl; lia.
Qed.

Lemma guardar_attempt_outcome (registro : dict) (json_path : string) (w : world)
    (i : nat) :
  attempt_outcome (guardar_json registro json_path) w i
  = match open_error (open_calls w + i) json_path with
    | Some e => Err e
    | None =>
        match (json_dump_result (JDict registro)).1 with
        | inl e => Err e
        | inr _ => Ok json_path
        end
    end.
Proof.
  unfold attempt_outcome. rewrite guardar_json_every_run, guardar_world_before.
  destruct (open_error _ _); [reflexivity|].
  by destruct (json_dump_result _) as [[e|[]] text].
Qed.

(** The files after the runs of the writer: the checkpoint holds what
    [json.dump] wrote as soon as one [open] went through. *)
Lemma run_task_guardar (registro : dict) (json_path : string) (delay : Z) (n : nat) :
  forall w r runs t w',
    run_task n delay (guardar_json registro json_path) w = (r, runs, t, w') ->
    exists opened : bool,
      w' = mkWorld
             (if opened
              then <[json_path := (json_dump_result (JDict registro)).2]> (files w)
              else files w)
             (http_calls w) (open_calls w + runs) (mongo_calls w) (clock_reads w)
      /\ (opened = true
          <-> exists i, (i < runs)%nat
                /\ open_error (open_calls w + i) json_path = None)
      /\ (1 <= runs <= S n)%nat.
Proof.
  induction n as [|n IH]; intros w r runs t w'; cbn [run_task];
    rewrite guardar_json_every_run.
  - destruct (open_error (open_calls w) json_path) as [e|] eqn:Hopen.
    + intros [= <- <- <- <-]. exists false.
      split; [unfold count_open; simpl; f_equal; lia|]. split; [|lia].
      split; [discriminate|]. intros (i & Hi & Hnone).
      assert (i = 0%nat) as -> by lia. rewrite Nat.add_0_r in Hnone. congruence.
    + assert (Hsome : exists i, (i < 1)%nat
                        /\ open_error (open_calls w + i) json_path = None).
      { exists 0%nat. split; [lia|]. by rewrite Nat.add_0_r. }
      destruct (json_dump_result (JDict registro)) as [[e|[]] text];
        intros [= <- <- <- <-]; exists true;
        (split; [unfold set_file, count_open; simpl; f_equal; lia|]);
        (split; [done|lia]).
  - destruct (open_error (open_calls w) json_path) as [e|] eqn:Hopen.
    + destruct (run_task n delay _ (count_open w)) as [[[r1 runs1] t1] w1] eqn:Hrun.
      intros [= <- <- <- <-].
      destruct (IH _ _ _ _ _ Hrun) as (opened & -> & Hiff & Hruns).
      exists opened. split; [simpl; f_equal; lia|]. split; [|lia].
      rewrite Hiff. simpl. split.
      * intros (i & Hi & Hnone). exists (S i). split; [lia|].
        by replace (open_calls w + S i)%nat with (S (open_calls w) + i)%nat by lia.
      * intros (i & Hi & Hnone). destruct i as [|i].
        -- rewrite Nat.add_0_r in Hnone. congruence.
        -- exists i. split; [lia|].
           by replace (S (open_calls w + i))%nat with (open_calls w + S i)%nat by lia.
    + assert (Hsome : forall k, exists i, (i < S k)%nat
                        /\ open_error (open_calls w + i) json_path = None).
      { intros k. exists 0%nat. split; [lia|]. by rewrite Nat.add_0_r. }
      destruct (json_dump_result (JDict registro)) as [[e|[]] text] eqn:Hdump.
      * destruct (run_task n delay _ _) as [[[r1 runs1] t1] w1] eqn:Hrun.
        intros [= <- <- <- <-].
        destruct (IH _ _ _ _ _ Hrun) as (opened & -> & _ & Hruns).
        exists true. split; [|split; [done|lia]].
        simpl.
        destruct opened; [rewrite insert_insert_eq|]; f_equal; lia.
      * intros [= <- <- <- <-]. exists true.
        split; [unfold set_file, count_open; simpl; f_equal; lia|].
        split; [done|lia].
Qed.

Lemma leer_json_run (json_path text : string) (registro : dict) (w : world) :
  open_error (open_calls w) json_path = None ->
  files w !! json_path = Some text ->
  loads text = Some (JDict registro) ->
  registro <> [] ->
  leer_json json_path w
  = (Ok registro,
     [Log "read_json_start"; Log "read_json_success"; Log "read_json_time"],
     count_open w).
Proof.
  intros Hopen Hfile Hloads Hne.
  unfold leer_json, try_except_finally, bindM, emit, open_file, read_text, lift,
    json_load, ret.
  rewrite Hopen. cbn -[loads]. rewrite Hfile. cbn -[loads].
  rewrite Hloads. by destruct registro.
Qed.


(** * Further properties *)

(** ** Every call of a task *)

(** X1. Whatever the work does, a call under a policy of [retries] retries
    makes at least one run and at most [retries + 1]; its outcome is the
    outcome of its last run and its final world the world that run left;
    every run before the last one raised, so that the call stops at the first
    run that returns; a call that stops before its last allowed run has
    returned a value; and the events of the call are the events of its runs
    in order, with one wait of the engine between two consecutive runs and
    none before the first or after the last. *)
Theorem run_task_every_call {A} (retries_allowed : nat) (delay : Z) (fn : M A)
    (w : world) :
  let '(r, runs, t, w') := run_task retries_allowed delay fn w in
  (1 <= runs <= max_attempts retries_allowed)%nat
  /\ r = attempt_outcome fn w (runs - 1)
  /\ w' = world_before fn w runs
  /\ t = runs_trace fn delay w runs
  /\ (forall i, (i < runs - 1)%nat -> exists e, attempt_outcome fn w i = Err e)
  /\ (forall i a, attempt_outcome fn w i = Ok a -> (runs <= S i)%nat)
  /\ ((runs < max_attempts retries_allowed)%nat -> exists a, r = Ok a).
Proof.
  pose proof (run_task_shape delay fn retries_allowed w) as Hshape.
  destruct (run_task retries_allowed delay fn w) as [[[r runs] t] w'].
  destruct Hshape as (Hruns & Hr & Hw & Ht & Hfail & Hlast).
  unfold max_attempts.
  split; [exact Hruns|]. split; [exact Hr|]. split; [exact Hw|].
  split; [exact Ht|]. split; [exact Hfail|]. split; [|exact Hlast].
  intros i a Hi.
  destruct (decide (i < runs - 1)%nat) as [Hlt|Hge]; [|lia].
  destruct (Hfail i Hlt) as [e He]. rewrite Hi in He. discriminate.
Qed.

(** ** The configuration loader, line by line *)

Lemma load_env_lines_cons (raw_line : string) (rest : list string) (env : environ) :
  load_env_lines (raw_line :: rest) env
  = match env_assignment raw_line with
    | None => load_env_lines rest env
    | Some (key, value) =>
        match environ_setdefault key value env with
        | inl e => (Err e, env)
        | inr env' => load_env_lines rest env'
        end
    end.
Proof.
  unfold env_assignment. simpl.
  destruct (_ || _ || _); [reflexivity|].
  by destruct (PyStr.split1 _ _) as [key value].
Qed.

Lemma environ_setdefault_defines (key value : string) (env env' : environ) :
  environ_setdefault key value env = inr env' -> is_Some (env' !! key).
Proof.
  unfold environ_setdefault. destruct (env !! key) as [old|] eqn:Hkey.
  - intros [= <-]. by rewrite Hkey.
  - destruct (putenv_error key value); [discriminate|].
    intros [= <-]. rewrite lookup_insert_eq. by eexists.
Qed.

Lemma environ_setdefault_defined (key value : string) (env : environ) :
  is_Some (env !! key) -> environ_setdefault key value env = inr env.
Proof. intros [old Hold]. unfold environ_setdefault. by rewrite Hold. Qed.

Lemma load_env_lines_idempotent (raw_lines : list string) :
  forall env env',
    load_env_lines raw_lines env = (Ok tt, env') ->
    load_env_lines raw_lines env' = (Ok tt, env').
Proof.
  induction raw_lines as [|raw_line rest IH]; intros env env'.
  - simpl. by intros [= <-].
  - rewrite !load_env_lines_cons.
    destruct (env_assignment raw_line) as [[key value]|]; [|apply IH].
    destruct (environ_setdefault key value env) as [e|env1] eqn:Hset;
      [discriminate|].
    intros Hrest.
    assert (Hdef : is_Some (env' !! key)).
    { destruct (environ_setdefault_defines _ _ _ _ Hset) as [v Hv].
      pose proof (load_env_lines_keeps rest env1 key v Hv) as Hkeep.
      rewrite Hrest in Hkeep. by eexists. }
    rewrite (environ_setdefault_defined _ _ _ Hdef). by apply (IH env1).
Qed.

(** X2. Loading the file a second time changes nothing: when a call of
    [load_env_file] returns, a further call on the environment it left
    returns as well and leaves that environment as it is. *)
Theorem load_env_file_idempotent (default_path : string) (path : option string)
    (fs : filesystem) (env env' : environ) :
  load_env_file default_path path fs env = (Ok tt, env') ->
  load_env_file default_path path fs env' = (Ok tt, env').
Proof.
  unfold load_env_file. destruct (fs !! _) as [text|].
  - apply load_env_lines_idempotent.
  - by intros [= <-].
Qed.

Lemma putenv_error_none (key value : string) :
  putenv_error key value = None ->
  key <> EmptyString /\ PyStr.contains_char "=" key = false
  /\ PyStr.has_nul key = false /\ PyStr.has_nul value = false.
Proof.
  unfold putenv_error.
  destruct (PyStr.has_nul key) eqn:Hk; [discriminate|].
  destruct (PyStr.has_nul value) eqn:Hv; [discriminate|]. simpl.
  destruct (PyStr.contains_char "=" key); [discriminate|].
  destruct (String.eqb_spec key EmptyString) as [-> | Hne]; [discriminate|].
  done.
Qed.

Lemma load_env_lines_new (raw_lines : list string) :
  forall env k v,
    env !! k = None ->
    (load_env_lines raw_lines env).2 !! k = Some v ->
    exists raw_line,
      In raw_line raw_lines /\ env_assignment raw_line = Some (k, v)
      /\ putenv_error k v = None.
Proof.
  induction raw_lines as [|raw_line rest IH]; intros env k v Hnone.
  - simpl. intros Hk. rewrite Hnone in Hk. discriminate.
  - rewrite load_env_lines_cons.
    destruct (env_assignment raw_line) as [[key value]|] eqn:Hline.
    + unfold environ_setdefault.
      destruct (env !! key) as [old|] eqn:Hkey.
      * intros Hk. destruct (IH env k v Hnone Hk) as (l & Hin & Hl & Hp).
        exists l. split; [by right|done].
      * destruct (putenv_error key value) eqn:Hput.
        -- simpl. intros Hk. rewrite Hnone in Hk. discriminate.
        -- unfold Ok. cbn beta iota.
           destruct (decide (key = k)) as [-> | Hne].
           ++ intros Hk.
              pose proof (load_env_lines_keeps rest (<[k := value]> env) k value
                            (lookup_insert_eq _ _ _)) as Hkeep.
              rewrite Hk in Hkeep. injection Hkeep as ->.
              exists raw_line. split; [by left|done].
           ++ intros Hk.
              destruct (IH (<[key := value]> env) k v) as (l & Hin & Hl & Hp).
              { by rewrite lookup_insert_ne. }
              { exact Hk. }
              exists l. split; [by right|done].
    + intros Hk. destruct (IH env k v Hnone Hk) as (l & Hin & Hl & Hp).
      exists l. split; [by right|done].
Qed.

(** X3. A variable that [load_env_file] defines comes from a line of the
    file: its name is the stripped text before the first [=] of the line and
    its value the stripped text after it, without the quotes around it; the
    name is not empty, holds no [=], and neither name nor value holds a NUL
    character. *)
Theorem load_env_file_new_variable (default_path : string)
    (path : option string) (fs : filesystem) (env : environ) (k v : string) :
  env !! k = None ->
  (load_env_file default_path path fs env).2 !! k = Some v ->
  exists text raw_line,
    fs !! (match path with Some p => p | None => default_path end) = Some text
    /\ In raw_line (PyStr.lines text)
    /\ env_assignment raw_line = Some (k, v)
    /\ k <> EmptyString /\ PyStr.contains_char "=" k = false
    /\ PyStr.has_nul k = false /\ PyStr.has_nul v = false.
Proof.
  intros Hnone. unfold load_env_file.
  destruct (fs !! _) as [text|].
  - intros Hk.
    destruct (load_env_lines_new _ _ _ _ Hnone Hk) as (l & Hin & Hl & Hp).
    destruct (putenv_error_none _ _ Hp) as (Hne & Heq & Hnk & Hnv).
    exists text, l. repeat split; done.
  - simpl. intros Hk. rewrite Hnone in Hk. discriminate.
Qed.

(** X4. When the module-level statements go through, the two required
    settings are not empty and are the values of the environment after the
    file was loaded; a variable of the process environment takes precedence
    over the file for every setting; and a setting with a default takes the
    default when its variable is still undefined after the file was
    loaded. *)
Theorem load_settings_spec (default_path : string) (fs : filesystem)
    (env env1 : environ) (s : settings) :
  load_settings default_path fs env = (Ok s, env1) ->
  env1 = (load_env_file default_path None fs env).2
  /\ s_MONGO_URI s <> EmptyString /\ s_API_KEY s <> EmptyString
  /\ env1 !! "MONGO_URI" = Some (s_MONGO_URI s)
  /\ env1 !! "OPENWEATHER_API_KEY" = Some (s_API_KEY s)
  /\ (forall v, env !! "MONGO_URI" = Some v -> s_MONGO_URI s = v)
  /\ (forall v, env !! "OPENWEATHER_API_KEY" = Some v -> s_API_KEY s = v)
  /\ (forall v, env !! "MONGO_DB_NAME" = Some v -> s_DB_NAME s = v)
  /\ (forall v, env !! "MONGO_COLLECTION_NAME" = Some v -> s_COLLECTION_NAME s = v)
  /\ (forall v, env !! "CITY" = Some v -> s_DEFAULT_CITY s = v)
  /\ (env1 !! "MONGO_DB_NAME" = None -> s_DB_NAME s = "clima_data")
  /\ (env1 !! "MONGO_COLLECTION_NAME" = None -> s_COLLECTION_NAME s = "clima_data")
  /\ (env1 !! "CITY" = None -> s_DEFAULT_CITY s = "San Jose,CR").
Proof.
  unfold load_settings.
  pose proof (fun k v => load_env_lines_keeps
                (match fs !! default_path with
                 | Some text => PyStr.lines text | None => [] end) env k v)
    as Hkeep.
  assert (Hfile : load_env_file default_path None fs env
                  = load_env_lines (match fs !! default_path with
                                    | Some text => PyStr.lines text
                                    | None => [] end) env).
  { unfold load_env_file. by destruct (fs !! default_path). }
  rewrite Hfile. clear Hfile.
  destruct (load_env_lines _ env) as [r env2]. simpl in Hkeep.
  destruct r as [e|[]]; [discriminate|].
  unfold get_required_env, getenv, getenv_default.
  destruct (env2 !! "MONGO_URI") as [uri|] eqn:Huri; [|discriminate]. simpl.
  destruct (String.eqb_spec uri EmptyString) as [->|Hne1]; [discriminate|].
  simpl.
  destruct (env2 !! "OPENWEATHER_API_KEY") as [key|] eqn:Hkey; [|discriminate].
  simpl.
  destruct (String.eqb_spec key EmptyString) as [->|Hne2]; [discriminate|].
  simpl. intros [= <- <-]. simpl.
  repeat split; try done.
  - intros v Hv. apply Hkeep in Hv. congruence.
  - intros v Hv. apply Hkeep in Hv. congruence.
  - intros v Hv. apply Hkeep in Hv. by rewrite Hv.
  - intros v Hv. apply Hkeep in Hv. by rewrite Hv.
  - intros v Hv. apply Hkeep in Hv. by rewrite Hv.
  - by intros ->.
  - by intros ->.
  - by intros ->.
Qed.

(** ** The stages, run by run *)

Lemma leer_json_every_run (json_path : string) (w : world) :
  leer_json json_path w
  = (leer_json_result json_path w,
     [Log "read_json_start";
      Log (match leer_json_result json_path w with
           | inl _ => "read_json_error"
           | inr _ => "read_json_success"
           end);
      Log "read_json_time"],
     count_open w).
Proof.
  unfold leer_json, leer_json_result, try_except_finally, bindM, emit,
    open_file, read_text, lift, ret.
  destruct (open_error _ _) as [e|]; [reflexivity|].
  cbn -[loads json_load nonempty_dict].
  destruct (files w !! json_path) as [text|]; [|reflexivity].
  cbn -[loads json_load nonempty_dict].
  destruct (json_load text) as [e|v]; [reflexivity|].
  cbn -[loads nonempty_dict].
  by destruct (nonempty_dict _ v) as [e|d].
Qed.

Lemma extraer_datos_clima_stage (ciudad : string) :
  stage_run Extract (extraer_datos_clima ciudad).
Proof.
  intros w. rewrite extraer_datos_clima_run. simpl.
  destruct (reply_result _) as [e|d]; (split; [repeat constructor|]);
    (split; [done|]); split.
  - by intros [a [=]].
  - intros [[=]|[[=]|[[=]|[[=]|[]]]]].
  - intros _. by left + (right; left) + (right; right; left).
  - by eexists.
Qed.

Lemma transformar_datos_stage (data : dict) :
  stage_run Transform (transformar_datos data).
Proof.
  intros w. rewrite transformar_datos_run.
  destruct (transformar _ data) as [e|d]; simpl;
    (split; [repeat constructor|]); (split; [done|]); split.
  - by intros [a [=]].
  - intros [[=]|[[=]|[[=]|[]]]].
  - intros _. by right; left.
  - by eexists.
Qed.

Lemma guardar_json_stage (registro : dict) (json_path : string) :
  stage_run SaveJson (guardar_json registro json_path).
Proof.
  intros w. rewrite guardar_json_every_run.
  destruct (open_error _ _) as [e|];
    [|destruct (json_dump_result (JDict registro)) as [[e|[]] text]]; simpl;
    (split; [repeat constructor|]); (split; [done|]); split.
  - by intros [a [=]].
  - intros [[=]|[[=]|[[=]|[]]]].
  - by intros [a [=]].
  - intros [[=]|[[=]|[[=]|[]]]].
  - intros _. by right; left.
  - by eexists.
Qed.

Lemma leer_json_stage (json_path : string) :
  stage_run ReadJson (leer_json json_path).
Proof.
  intros w. rewrite leer_json_every_run.
  destruct (leer_json_result _ _) as [e|d]; cbn [fst snd];
    (split; [repeat constructor|]); (split; [done|]); split.
  - by intros [a [=]].
  - intros [[=]|[[=]|[[=]|[]]]].
  - intros _. by right; left.
  - by eexists.
Qed.

Lemma cargar_a_mongo_stage (doc : dict) :
  stage_run Load (cargar_a_mongo doc).
Proof.
  intros w. rewrite cargar_a_mongo_run. cbv zeta.
  destruct (mongo_reply (mongo_calls w)) as [e|e|e|inserted_id]; cbn [fst snd];
    (split; [repeat constructor|]); (split; [done|]); split.
  - by intros [a [=]].
  - intros [[=]|[[=]|[[=]|[]]]].
  - by intros [a [=]].
  - intros [[=]|[[=]|[[=]|[[=]|[[=]|[]]]]]].
  - by intros [a [=]].
  - intros [[=]|[[=]|[[=]|[[=]|[[=]|[[=]|[]]]]]]].
  - intros _. by right; right; right; left.
  - by eexists.
Qed.

(** A call of a stage under any options is like one of its runs. *)
Lemma call_task_stage {A} (s : stage_name) (fn : M A) (options : task_options) :
  stage_run s fn -> stage_run s (call_task options fn).
Proof.
  intros Hfn. unfold call_task.
  generalize (retry_delay_seconds options) as delay.
  induction (retries options) as [|n IH]; intros delay w; cbn [run_task].
  - specialize (Hfn w).
    destruct (fn w) as [[[e|a] t] w1]; exact Hfn.
  - specialize (Hfn w). specialize (IH delay (fn w).2).
    destruct (fn w) as [[[e|a] t] w1]; [|exact Hfn].
    cbn [fst snd] in *.
    destruct (run_task n delay fn w1) as [[[r' runs'] t'] w'].
    cbn [fst snd] in *.
    destruct Hfn as (Hall & _ & Hok). destruct IH as (Hall' & _ & Hok').
    split; [|split].
    + apply Forall_app. split; [exact Hall|]. by constructor.
    + by destruct t.
    + rewrite Hok'. rewrite in_app_iff. simpl. split.
      * intros Hin. right. by right.
      * intros [Hin | [[=] | Hin]]; [|exact Hin].
        apply Hok in Hin as [a [=]].
Qed.

(** ** What a call of a stage changes in the world *)

(** The extraction sends one request per run and touches nothing else. *)
Lemma call_extraer_world (ciudad : string) (w : world) :
  exists runs,
    (1 <= runs <= 4)%nat
    /\ (call_task task_extraer_datos_clima (extraer_datos_clima ciudad) w).2
       = mkWorld (files w) (http_calls w + runs) (open_calls w) (mongo_calls w)
           (clock_reads w).
Proof.
  destruct (call_task_world task_extraer_datos_clima (extraer_datos_clima ciudad) w)
    as (runs & Hruns & ->).
  exists runs. split; [exact Hruns|]. apply world_before_http.
  intros w0. by rewrite extraer_datos_clima_run.
Qed.

(** The transformation is run once; it reads the clock once when the
    display is built, and changes nothing else. *)
Lemma call_transformar_world (data : dict) (w : world) :
  call_task task_transformar_datos (transformar_datos data) w
  = match transformar (now_isoformat (clock_reads w)) data with
    | inl e =>
        (inl e, [Log "transform_start"; Log "transform_error"; Log "transform_time"],
         match validar data,
               construir_registro (now_isoformat (clock_reads w)) data with
         | inr _, inr _ => count_clock w
         | _, _ => w
         end)
    | inr registro =>
        (inr registro,
         [Log "transform_start"; Log "transform_success"; Log "transform_time"],
         count_clock w)
    end.
Proof.
  unfold call_task. cbn [run_task retries retry_delay_seconds task_transformar_datos].
  rewrite transformar_datos_run. by destruct (transformar _ data).
Qed.

Lemma call_leer_world (json_path : string) (w : world) :
  exists runs,
    (1 <= runs <= 3)%nat
    /\ (call_task task_leer_json (leer_json json_path) w).2
       = mkWorld (files w) (http_calls w) (open_calls w + runs) (mongo_calls w)
           (clock_reads w).
Proof.
  destruct (call_task_world task_leer_json (leer_json json_path) w)
    as (runs & Hruns & ->).
  exists runs. split; [exact Hruns|]. apply world_before_open.
  intros w0. by rewrite leer_json_every_run.
Qed.

Lemma call_cargar_world (doc : dict) (w : world) :
  exists runs,
    (1 <= runs <= 4)%nat
    /\ (call_task task_cargar_a_mongo (cargar_a_mongo doc) w).2
       = mkWorld (files w) (http_calls w) (open_calls w) (mongo_calls w + runs)
           (clock_reads w).
Proof.
  destruct (call_task_world task_cargar_a_mongo (cargar_a_mongo doc) w)
    as (runs & Hruns & ->).
  exists runs. split; [exact Hruns|]. apply world_before_mongo.
  intros w0. rewrite cargar_a_mongo_run. cbv zeta.
  by destruct (mongo_reply (mongo_calls w0)).
Qed.

Lemma call_guardar_world (registro : dict) (json_path : string) (w : world) :
  let '(r, _, w') := call_task task_guardar_json (guardar_json registro json_path) w in
  exists (opened : bool) (runs : nat),
    (1 <= runs <= 3)%nat
    /\ w' = mkWorld
              (if opened
               then <[json_path := (json_dump_result (JDict registro)).2]> (files w)
               else files w)
              (http_calls w) (open_calls w + runs) (mongo_calls w) (clock_reads w)
    /\ (forall ruta_json,
          r = Ok ruta_json ->
          ruta_json = json_path /\ opened = true
          /\ json_dump_result (JDict registro) = (Ok tt, dumps (JDict registro))).
Proof.
  unfold call_task.
  pose proof (run_task_shape (retry_delay_seconds task_guardar_json)
                (guardar_json registro json_path) (retries task_guardar_json) w)
    as Hshape.
  destruct (run_task _ _ _ w) as [[[r runs] t] w'] eqn:Hrun.
  destruct (run_task_guardar _ _ _ _ _ _ _ _ _ Hrun) as (opened & Hw & Hiff & Hruns).
  destruct Hshape as (_ & Hr & _).
  rewrite guardar_attempt_outcome in Hr.
  exists opened, runs. split; [exact Hruns|]. split; [exact Hw|].
  intros ruta_json ->.
  destruct (open_error (open_calls w + (runs - 1)) json_path) as [e|] eqn:Hopen;
    [discriminate Hr|].
  pose proof (json_dump_returns (JDict registro)) as Hreturns.
  destruct (json_dump_result (JDict registro)) as [[e|[]] texto];
    [discriminate Hr|].
  injection Hr as ->. destruct (Hreturns texto eq_refl) as [_ ->].
  split; [done|]. split; [|done].
  apply Hiff. exists (runs - 1)%nat. split; [lia|done].
Qed.

(** ** The calls of the stages that talk to the outside *)

Lemma reply_result_ok (o : http_outcome) (data : dict) :
  reply_result o = Ok data ->
  data <> []
  /\ exists status_code,
       o = Response status_code (Some (JDict data))
       /\ ~ (400 <= status_code < 600).
Proof.
  destruct o as [e|status_code body]; [discriminate|].
  unfold reply_result, raise_for_status.
  destruct (400 <=? status_code) eqn:Hlo; destruct (status_code <? 600) eqn:Hhi;
    simpl; try discriminate;
    (destruct body as [v|]; [|discriminate]); simpl;
    (destruct v as [| | | | | |[|p d]]; try discriminate);
    intros [= <-]; (split; [done|]); exists status_code; (split; [done|]); lia.
Qed.

Lemma extraer_attempt_outcome (ciudad : string) (w : world) (i : nat) :
  attempt_outcome (extraer_datos_clima ciudad) w i
  = reply_result (http_reply (http_calls w + i) (weather_url ciudad)).
Proof.
  unfold attempt_outcome.
  rewrite (world_before_http (extraer_datos_clima ciudad) w i)
    by (intros w0; by rewrite extraer_datos_clima_run).
  by rewrite extraer_datos_clima_run.
Qed.

(** X10. A call of the extraction stage.  It sends one request per run, at
    least one and at most four, and touches nothing else.  Its outcome is
    what the reply to the last request gives; every request before the last
    one failed; the call stops at the first reply it can use; and the data
    it returns is the body of that reply, a non-empty object that came with a
    status outside 400 to 599.  A call that raises has sent all four
    requests. *)
Theorem extraer_datos_clima_call (ciudad : string) (w : world) :
  let '(r, runs, _, w') :=
    run_task (retries task_extraer_datos_clima)
      (retry_delay_seconds task_extraer_datos_clima)
      (extraer_datos_clima ciudad) w in
  (1 <= runs <= 4)%nat
  /\ w' = mkWorld (files w) (http_calls w + runs) (open_calls w) (mongo_calls w)
            (clock_reads w)
  /\ r = reply_result
           (http_reply (http_calls w + (runs - 1)) (weather_url ciudad))
  /\ (forall i, (i < runs - 1)%nat ->
        exists e,
          reply_result (http_reply (http_calls w + i) (weather_url ciudad))
          = Err e)
  /\ (forall data,
        r = Ok data ->
        data <> []
        /\ exists status_code,
             http_reply (http_calls w + (runs - 1)) (weather_url ciudad)
             = Response status_code (Some (JDict data))
             /\ ~ (400 <= status_code < 600))
  /\ ((exists e, r = Err e) -> runs = 4%nat).
Proof.
  pose proof (run_task_shape (retry_delay_seconds task_extraer_datos_clima)
                (extraer_datos_clima ciudad) (retries task_extraer_datos_clima) w)
    as Hshape.
  destruct (run_task _ _ _ w) as [[[r runs] t] w'].
  destruct Hshape as (Hruns & Hr & Hw & _ & Hfail & Hlast).
  rewrite extraer_attempt_outcome in Hr.
  split; [exact Hruns|]. split; [|split; [exact Hr|split; [|split]]].
  - rewrite Hw. apply world_before_http.
    intros w0. by rewrite extraer_datos_clima_run.
  - intros i Hi. rewrite <- extraer_attempt_outcome. by apply Hfail.
  - intros data Hdata. rewrite Hdata in Hr. symmetry in Hr.
    by apply reply_result_ok in Hr.
  - intros [e ->]. cbn [retries task_extraer_datos_clima] in *.
    destruct (decide (runs < 4)%nat) as [Hlt|Hge]; [|lia].
    destruct (Hlast Hlt) as [a [=]].
Qed.


Lemma leer_attempt_outcome (json_path : string) (w : world) (i : nat) :
  attempt_outcome (leer_json json_path) w i
  = match open_error (open_calls w + i) json_path with
    | Some e => Err e
    | None =>
        match files w !! json_path with
        | None => Err (ExternalError "FileNotFoundError")
        | Some text =>
            let* data := json_load text in
            nonempty_dict
              "El JSON leído está vacío o no tiene formato de objeto." data
        end
    end.
Proof.
  unfold attempt_outcome.
  rewrite (world_before_open (leer_json json_path) w i)
    by (intros w0; by rewrite leer_json_every_run).
  by rewrite leer_json_every_run.
Qed.

(** X12. A call of the stage that reads the checkpoint.  It opens the file
    once per run, at most three times, and changes no file.  What it returns
    is what the text of the file stands for: a non-empty object.  A file that
    is missing, that is not JSON, or that holds anything but a non-empty
    object makes every run raise, so that the call raises after its third
    run. *)
Theorem leer_json_call (json_path : string) (w : world) :
  let '(r, runs, _, w') :=
    run_task (retries task_leer_json) (retry_delay_seconds task_leer_json)
      (leer_json json_path) w in
  (1 <= runs <= 3)%nat
  /\ w' = mkWorld (files w) (http_calls w) (open_calls w + runs) (mongo_calls w)
            (clock_reads w)
  /\ (forall data,
        r = Ok data ->
        data <> []
        /\ open_error (open_calls w + (runs - 1)) json_path = None
        /\ exists text,
             files w !! json_path = Some text
             /\ loads text = Some (JDict data))
  /\ ((exists e, r = Err e) -> runs = 3%nat)
  /\ (files w !! json_path = None -> runs = 3%nat /\ exists e, r = Err e)
  /\ (forall text,
        files w !! json_path = Some text ->
        (forall p d, loads text <> Some (JDict (p :: d))) ->
        runs = 3%nat /\ exists e, r = Err e).
Proof.
  pose proof (run_task_shape (retry_delay_seconds task_leer_json)
                (leer_json json_path) (retries task_leer_json) w) as Hshape.
  destruct (run_task _ _ _ w) as [[[r runs] t] w'].
  destruct Hshape as (Hruns & Hr & Hw & _ & _ & Hlast).
  rewrite leer_attempt_outcome in Hr.
  cbn [retries task_leer_json] in *.
  assert (Hraises : (exists e, r = Err e) -> runs = 3%nat).
  { intros [e ->]. destruct (decide (runs < 3)%nat) as [Hlt|Hge]; [|lia].
    destruct (Hlast Hlt) as [a [=]]. }
  assert (Hok : forall data,
            r = Ok data ->
            data <> []
            /\ open_error (open_calls w + (runs - 1)) json_path = None
            /\ exists text,
                 files w !! json_path = Some text
                 /\ loads text = Some (JDict data)).
  { intros data ->.
    destruct (open_error (open_calls w + (runs - 1)) json_path) as [e|] eqn:Hopen;
      [discriminate Hr|].
    destruct (files w !! json_path) as [text|] eqn:Hfile; [|discriminate Hr].
    unfold json_load in Hr.
    destruct (loads text) as [v|] eqn:Hloads; [|discriminate Hr].
    simpl in Hr.
    destruct v as [| | | | | |[|p d]]; try discriminate Hr.
    injection Hr as ->. split; [done|]. split; [done|]. by exists text. }
  split; [exact Hruns|]. split; [|split; [exact Hok|split; [exact Hraises|split]]].
  - rewrite Hw. apply world_before_open.
    intros w0. by rewrite leer_json_every_run.
  - intros Hnone. destruct r as [e|data].
    + split; [apply Hraises|]; by exists e.
    + destruct (Hok data eq_refl) as (_ & _ & text & Htext & _). congruence.
  - intros text Htext Hbad. destruct r as [e|data].
    + split; [apply Hraises|]; by exists e.
    + destruct (Hok data eq_refl) as (Hne & _ & text' & Htext' & Hloads).
      rewrite Htext in Htext'. injection Htext' as <-.
      destruct data as [|p d]; [done|]. by destruct (Hbad p d).
Qed.

(** X13. A call of the loader.  It connects to the store once per run, at
    least once and at most four times; the store confirms at most one insert
    during the call, and that in the last run: no run before the last got an
    id back.  The call returns exactly when the insert of its last run is
    confirmed, and what it returns is the confirmation text with the id the
    store gave; a call that raises has made all four runs. *)
Theorem cargar_a_mongo_call (doc : dict) (w : world) :
  let '(r, runs, _, w') :=
    run_task (retries task_cargar_a_mongo)
      (retry_delay_seconds task_cargar_a_mongo) (cargar_a_mongo doc) w in
  (1 <= runs <= 4)%nat
  /\ w' = mkWorld (files w) (http_calls w) (open_calls w) (mongo_calls w + runs)
            (clock_reads w)
  /\ (forall i inserted_id,
        (i < runs - 1)%nat ->
        mongo_reply (mongo_calls w + i) <> Inserted inserted_id)
  /\ (forall msg,
        r = Ok msg
        <-> exists inserted_id,
              mongo_reply (mongo_calls w + (runs - 1)) = Inserted inserted_id
              /\ msg = inserted_message inserted_id)
  /\ ((exists e, r = Err e) -> runs = 4%nat).
Proof.
  pose proof (run_task_shape (retry_delay_seconds task_cargar_a_mongo)
                (cargar_a_mongo doc) (retries task_cargar_a_mongo) w) as Hshape.
  destruct (run_task _ _ _ w) as [[[r runs] t] w'].
  destruct Hshape as (Hruns & Hr & Hw & _ & Hfail & Hlast).
  rewrite cargar_attempt_outcome in Hr.
  cbn [retries task_cargar_a_mongo] in *.
  split; [exact Hruns|]. split; [|split; [|split]].
  - rewrite Hw. apply world_before_mongo.
    intros w0. rewrite cargar_a_mongo_run. cbv zeta.
    by destruct (mongo_reply (mongo_calls w0)).
  - intros i inserted_id Hi Hreply. destruct (Hfail i Hi) as [e He].
    rewrite cargar_attempt_outcome, Hreply in He. discriminate.
  - intros msg. subst r.
    destruct (mongo_reply _) as [e|e|e|inserted_id]; split;
      try discriminate; try (by intros (? & [=] & _)).
    + intros [= <-]. by exists inserted_id.
    + by intros (? & [= <-] & ->).
  - intros [e ->]. destruct (decide (runs < 4)%nat) as [Hlt|Hge]; [|lia].
    destruct (Hlast Hlt) as [a [=]].
Qed.

(** ** When the transformation returns *)

Lemma item2_inv (data : dict) (a b : string) (v : json) :
  item2 data a b = Ok v ->
  exists d, dict_get data a = Some (JDict d) /\ dict_get d b = Some v.
Proof.
  unfold item2, dict_getitem.
  destruct (dict_get data a) as [x|] eqn:Ha; [|discriminate]. simpl.
  destruct x as [| | | | | |d]; simpl; try discriminate.
  unfold dict_getitem. destruct (dict_get d b) as [y|] eqn:Hb; [|discriminate].
  intros [= ->]. eauto.
Qed.

Lemma weather0_inv (data : dict) (b : string) (v : json) :
  weather0 data b = Ok v ->
  exists first others,
    dict_get data "weather" = Some (JList (JDict first :: others))
    /\ dict_get first b = Some v.
Proof.
  unfold weather0, dict_getitem.
  destruct (dict_get data "weather") as [x|] eqn:Hw; [|discriminate]. simpl.
  destruct x as [| | | |s|l|d]; try discriminate; simpl.
  - destruct s; discriminate.
  - destruct l as [|y l]; [discriminate|]. simpl.
    destruct y as [| | | | | |first]; simpl; try discriminate.
    unfold dict_getitem.
    destruct (dict_get first b) as [z|] eqn:Hb; [|discriminate].
    intros [= ->]. eauto.
Qed.

Lemma wind_inv (data : dict) (b : string) (v : json) :
  wind data b = Ok v ->
  exists wd, seccion_wind data wd /\ v = default (JInt 0) (dict_get wd b).
Proof.
  unfold wind, dict_get_default, seccion_wind.
  destruct (dict_get data "wind") as [x|].
  - destruct x as [| | | | | |wd]; simpl; try discriminate.
    unfold dict_get_default. intros [= <-]. exists wd.
    split; [by right|]. by destruct (dict_get wd b).
  - simpl. intros [= <-]. exists []. split; [by left|done].
Qed.

Lemma seccion_wind_unique (data wd wd' : dict) :
  seccion_wind data wd -> seccion_wind data wd' -> wd = wd'.
Proof. intros [[H1 ->] | H1] [[H2 ->] | H2]; congruence. Qed.

Lemma hora_local_inv (x v : json) :
  hora_local x = Ok v ->
  exists t,
    time_t_of x = Ok t /\ timestamp_error t = None
    /\ v = JStr (strftime_HMS (t + utcoffset t)).
Proof.
  unfold hora_local, fromtimestamp.
  destruct (time_t_of x) as [e|t]; [discriminate|]. simpl.
  destruct (timestamp_error t) as [e|] eqn:Ht; [discriminate|]. simpl.
  intros [= <-]. eauto.
Qed.

Lemma construir_registro_inv (now : string) (data registro : dict) :
  construir_registro now data = Ok registro ->
  exists ciudad c wd sunrise sunset,
    dict_get data "name" = Some ciudad
    /\ (forall s, ciudad = JStr s -> c_name c = s /\ secciones data c)
    /\ seccion_coord data c /\ seccion_wind data wd
    /\ horas c sunrise sunset
    /\ registro
       = ("ciudad", ciudad)
         :: tail (registro_esperado data c wd sunrise sunset now).
Proof.
  unfold construir_registro. intros H.
  apply bind_ok_inv in H as (ciudad & Hciudad & H).
  apply bind_ok_inv in H as (pais & Hpais & H).
  apply bind_ok_inv in H as (temp & Htemp & H).
  apply bind_ok_inv in H as (feels & Hfeels & H).
  apply bind_ok_inv in H as (tmin & Hmin & H).
  apply bind_ok_inv in H as (tmax & Hmax & H).
  apply bind_ok_inv in H as (hum & Hhum & H).
  apply bind_ok_inv in H as (pres & Hpres & H).
  apply bind_ok_inv in H as (desc & Hdesc & H).
  apply bind_ok_inv in H as (icon & Hicon & H).
  apply bind_ok_inv in H as (nub & Hnub & H).
  apply bind_ok_inv in H as (speed & Hspeed & H).
  apply bind_ok_inv in H as (deg & Hdeg & H).
  cbv zeta in H.
  apply bind_ok_inv in H as (rise & Hrise & H).
  apply bind_ok_inv in H as (amanecer & Hamanecer & H).
  apply bind_ok_inv in H as (set & Hset & H).
  apply bind_ok_inv in H as (atardecer & Hatardecer & H).
  apply bind_ok_inv in H as (lat & Hlat & H).
  apply bind_ok_inv in H as (lon & Hlon & H).
  injection H as <-.
  unfold dict_getitem in Hciudad.
  destruct (dict_get data "name") as [name|] eqn:Hname; [|discriminate].
  injection Hciudad as ->.
  apply item2_inv in Hpais as (sys & Hsys & Hcountry).
  apply item2_inv in Hrise as (sys1 & Hsys1 & Hrise).
  apply item2_inv in Hset as (sys2 & Hsys2 & Hset).
  rewrite Hsys in Hsys1, Hsys2.
  injection Hsys1 as <-. injection Hsys2 as <-.
  apply item2_inv in Htemp as (main & Hmain & Htemp).
  apply item2_inv in Hfeels as (main1 & Hmain1 & Hfeels).
  apply item2_inv in Hmin as (main2 & Hmain2 & Hmin).
  apply item2_inv in Hmax as (main3 & Hmain3 & Hmax).
  apply item2_inv in Hhum as (main4 & Hmain4 & Hhum).
  apply item2_inv in Hpres as (main5 & Hmain5 & Hpres).
  rewrite Hmain in Hmain1, Hmain2, Hmain3, Hmain4, Hmain5.
  injection Hmain1 as <-. injection Hmain2 as <-. injection Hmain3 as <-.
  injection Hmain4 as <-. injection Hmain5 as <-.
  apply weather0_inv in Hdesc as (first & others & Hw & Hdesc).
  apply weather0_inv in Hicon as (first1 & others1 & Hw1 & Hicon).
  rewrite Hw in Hw1. injection Hw1 as <- <-.
  apply item2_inv in Hnub as (clouds & Hclouds & Hnub).
  apply wind_inv in Hspeed as (wd & Hwd & ->).
  apply wind_inv in Hdeg as (wd1 & Hwd1 & ->).
  rewrite <- (seccion_wind_unique _ _ _ Hwd Hwd1).
  apply hora_local_inv in Hamanecer as (sunrise & Ht1 & He1 & ->).
  apply hora_local_inv in Hatardecer as (sunset & Ht2 & He2 & ->).
  apply item2_inv in Hlat as (coord & Hcoord & Hlat).
  apply item2_inv in Hlon as (coord1 & Hcoord1 & Hlon).
  rewrite Hcoord in Hcoord1. injection Hcoord1 as <-.
  exists ciudad,
    (mkCampos (match ciudad with JStr s => s | _ => EmptyString end)
       pais rise set temp feels tmin tmax hum pres desc icon nub lat lon),
    wd, sunrise, sunset.
  split; [reflexivity|]. split; [|split; [|split; [|split]]].
  - intros s ->. split; [reflexivity|].
    unfold secciones. cbn [c_name c_country c_sunrise c_sunset
      c_temp c_feels_like c_temp_min c_temp_max c_humidity c_pressure
      c_description c_icon c_all].
    split; [exact Hname|].
    split; [by exists sys|]. split; [by exists main|].
    split; [by exists first, others|]. by exists clouds.
  - by exists coord.
  - exact Hwd.
  - by repeat split.
  - unfold registro_esperado, dict_get_default. cbn [tail].
    by destruct (dict_get data "visibility").
Qed.

(** X8. When the transformation returns a record.  It returns one exactly
    when the payload holds every field it reads: [name] a text; [sys],
    [main], [clouds] and [coord] objects with their fields; [weather] a list
    whose first item is an object with [description] and [icon]; [wind]
    absent or an object; and both sun times timestamps the platform accepts.
    The record is then the one built from those values; for every other
    payload the stage raises. *)
Theorem transformar_returns_iff (now : string) (data registro : dict) :
  transformar now data = Ok registro
  <-> exists c wd sunrise sunset,
        secciones data c /\ seccion_coord data c /\ seccion_wind data wd
        /\ horas c sunrise sunset
        /\ registro = registro_esperado data c wd sunrise sunset now.
Proof.
  split.
  - unfold transformar. intros H.
    apply bind_ok_inv in H as ([] & _ & H).
    apply bind_ok_inv in H as (r & Hr & H).
    apply bind_ok_inv in H as (x & Hx & H).
    apply bind_ok_inv in H as ([] & Hn & H).
    apply bind_ok_inv in H as (t & _ & H).
    injection H as <-.
    apply construir_registro_inv in Hr
      as (ciudad & c & wd & sunrise & sunset & Hname & Hsec & Hcoord & Hwind
          & Hhoras & ->).
    injection Hx as <-.
    destruct ciudad as [| | | |s| |]; try discriminate.
    destruct (Hsec s eq_refl) as [Hs Hsec'].
    exists c, wd, sunrise, sunset.
    repeat (split; [assumption|]).
    unfold registro_esperado. cbn [tail]. by rewrite Hs.
  - intros (c & wd & sunrise & sunset & Hsec & Hcoord & Hwind & Hhoras & ->).
    by apply transformar_ok.
Qed.

(** X9. The transformation looks at eight keys of the payload and at nothing
    else: two payloads that agree on [name], [sys], [main], [weather],
    [clouds], [coord], [wind] and [visibility] give the same run of the
    stage, with the same record or the same exception, whatever else they
    hold and in whatever order. *)
Theorem transformar_datos_reads_only (data data' : dict) (w : world) :
  (forall k, In k claves_leidas -> dict_get data k = dict_get data' k) ->
  transformar_datos data w = transformar_datos data' w.
Proof.
  intros Hsame. rewrite !transformar_datos_run.
  assert (Hname := Hsame "name"). assert (Hsys := Hsame "sys").
  assert (Hmain := Hsame "main"). assert (Hweather := Hsame "weather").
  assert (Hclouds := Hsame "clouds"). assert (Hcoord := Hsame "coord").
  assert (Hwind := Hsame "wind"). assert (Hvis := Hsame "visibility").
  unfold claves_leidas in *. cbn [In] in *.
  assert (Hval : validar data = validar data').
  { unfold validar, missing_keys, required_top_keys, dict_get_default, dict_mem.
    cbn [filter list_filter].
    rewrite Hname, Hsys, Hmain, Hweather, Hclouds, Hcoord
      by (repeat ((by left) || right)).
    reflexivity. }
  assert (Hcon : forall now,
            construir_registro now data = construir_registro now data').
  { intros now.
    unfold construir_registro, item2, weather0, wind, dict_getitem,
      dict_get_default.
    rewrite Hname, Hsys, Hmain, Hweather, Hclouds, Hcoord, Hwind, Hvis
      by (repeat ((by left) || right)).
    reflexivity. }
  assert (Heq : forall now, transformar now data = transformar now data').
  { intros now. unfold transformar. by rewrite Hval, Hcon. }
  by rewrite Heq, Hval, Hcon.
Qed.

(** ** Texts in the checkpoint *)

Lemma escape_char_plain (c : ascii) :
  (32 <=? N_of_ascii c)%N = true -> (N_of_ascii c =? 34)%N = false ->
  (N_of_ascii c =? 92)%N = false ->
  escape_char c = String c EmptyString.
Proof.
  intros Hlo Hq Hb. unfold escape_char. cbv zeta. rewrite Hq, Hb.
  apply N.leb_le in Hlo.
  repeat match goal with
         | |- context [(?n =? ?k)%N] =>
             destruct (N.eqb_spec n k) as [Heq|_]; [lia|]
         end.
  destruct (N.ltb_spec (N_of_ascii c) 32); [lia|reflexivity].
Qed.

Lemma encode_basestring_plain_text (s : string) :
  plain_text s = true ->
  encode_basestring s = String PyStr.dquote (s +:+ String PyStr.dquote EmptyString).
Proof.
  intros Hplain. unfold encode_basestring. f_equal. f_equal.
  induction s as [|c s IH]; [reflexivity|].
  cbn [plain_text] in Hplain. cbv zeta in Hplain.
  apply andb_prop in Hplain as [Hplain Hs].
  apply andb_prop in Hplain as [Hplain Hb].
  apply andb_prop in Hplain as [Hlo Hq].
  apply negb_true_iff in Hq, Hb.
  cbn [escape]. rewrite (escape_char_plain c Hlo Hq Hb), (IH Hs).
  by rewrite str_app_cons, str_app_nil_l.
Qed.

(** The text of a dict holds the line of each of its pairs. *)
Lemma dict_items_holds (level : nat) (d : dict) (k : string) (v : json) :
  In (k, v) d ->
  exists before after,
    dict_items level d
    = before +:+ encode_basestring k +:+ ": " +:+ iterencode (S level) v +:+ after.
Proof.
  induction d as [|[k' y] d IH]; [by intros []|].
  cbn [dict_items]. intros [[= -> ->] | Hin].
  - exists ("," +:+ newline_indent (S level)), (dict_items level d).
    by rewrite !str_app_assoc.
  - destruct (IH Hin) as (before & after & ->).
    exists ("," +:+ newline_indent (S level) +:+ encode_basestring k' +:+ ": "
            +:+ iterencode (S level) y +:+ before), after.
    by rewrite !str_app_assoc.
Qed.

Lemma iterencode_dict_holds (level : nat) (d : dict) (k : string) (v : json) :
  In (k, v) d ->
  exists before after,
    iterencode level (JDict d)
    = before +:+ encode_basestring k +:+ ": " +:+ iterencode (S level) v +:+ after.
Proof.
  destruct d as [|[k' y] d]; [by intros []|].
  rewrite iterencode_dict. intros [[= -> ->] | Hin].
  - exists ("{" +:+ newline_indent (S level)),
      (dict_items level d +:+ newline_indent level +:+ "}").
    by rewrite !str_app_assoc.
  - destruct (dict_items_holds level d k v Hin) as (before & after & ->).
    exists ("{" +:+ newline_indent (S level) +:+ encode_basestring k' +:+ ": "
            +:+ iterencode (S level) y +:+ before),
      (after +:+ newline_indent level +:+ "}").
    by rewrite !str_app_assoc.
Qed.


(** ** The flow as a whole *)

(** A record the transformation returned has what its log line and the log
    line of the flow read in it. *)
Lemma transformar_log_line (now : string) (data registro : dict) :
  transformar now data = Ok registro ->
  exists ciudad temperatura,
    dict_getitem registro "ciudad" = Ok (JStr ciudad)
    /\ dict_getitem registro "temperatura" = Ok temperatura.
Proof.
  unfold transformar. intros H.
  apply bind_ok_inv in H as ([] & _ & H).
  apply bind_ok_inv in H as (r & _ & H).
  apply bind_ok_inv in H as (c & Hc & H).
  apply bind_ok_inv in H as ([] & Hn & H).
  apply bind_ok_inv in H as (t & Ht & H).
  injection H as <-. destruct c; try discriminate. eauto.
Qed.

Lemma transformar_datos_call_record (data registro : dict) (w : world) :
  (call_task task_transformar_datos (transformar_datos data) w).1.1 = Ok registro ->
  exists ciudad temperatura,
    dict_getitem registro "ciudad" = Ok (JStr ciudad)
    /\ dict_getitem registro "temperatura" = Ok temperatura.
Proof.
  unfold call_task. cbn [run_task retries retry_delay_seconds task_transformar_datos].
  rewrite transformar_datos_run.
  destruct (transformar _ data) as [e|r] eqn:Htr; simpl; [discriminate|].
  intros [= ->]. by apply transformar_log_line in Htr.
Qed.

(** The facts about the success events in the proofs below. *)
Ltac stage_facts :=
  match goal with
  | K : _ <-> In ?x ?t |- _ -> In ?x ?t => intros _; apply K; by eexists
  | K : _ <-> In ?x ?t |- In ?x ?t -> _ =>
      let H := fresh in solve [intros H; apply K in H as [? [=]]]
  | |- (exists _, inl _ = inr _) -> _ => by intros [? [=]]
  | |- _ -> exists _, _ => intros _; by eexists
  end.

(** X5. The events of every run of the flow are, in this order: the start of
    the flow, the events of the extraction, of the transformation, of the
    writing and of the reading of the checkpoint and of the loader, and the
    end of the flow, which is the error event when the run raises and the
    success event when it returns, followed by the time event.  The
    extraction always runs; each later stage leaves events exactly when the
    stage before it has logged its success; and the flow returns exactly when
    the loader has logged its success: after the five stages nothing can
    fail. *)
Theorem clima_flow_stage_order (ciudad json_path : string) (w : world) :
  let '(r, t, _) := clima_flow ciudad json_path w in
  exists t1 t2 t3 t4 t5,
    t = Log "flow_start" :: t1 ++ t2 ++ t3 ++ t4 ++ t5 ++ flow_end r
    /\ Forall (fun ev => stage_event Extract ev = true) t1
    /\ Forall (fun ev => stage_event Transform ev = true) t2
    /\ Forall (fun ev => stage_event SaveJson ev = true) t3
    /\ Forall (fun ev => stage_event ReadJson ev = true) t4
    /\ Forall (fun ev => stage_event Load ev = true) t5
    /\ t1 <> []
    /\ (t2 <> [] <-> In (Log "extract_success") t1)
    /\ (t3 <> [] <-> In (Log "transform_success") t2)
    /\ (t4 <> [] <-> In (Log "save_json_success") t3)
    /\ (t5 <> [] <-> In (Log "read_json_success") t4)
    /\ ((exists u, r = Ok u) <-> In (Log "load_success") t5).
Proof.
  unfold clima_flow, try_except_finally, bindM, emit, lift, ret, Ok.
  cbn beta iota zeta.
  pose proof (call_task_stage Extract _ task_extraer_datos_clima
                (extraer_datos_clima_stage ciudad) w) as S1.
  destruct (call_task task_extraer_datos_clima _ w) as [[[e1|data] t1] w1];
    cbn [fst snd success_log] in S1; destruct S1 as (A1 & N1 & K1).
  { exists t1, [], [], [], []. cbn [app flow_end]. rewrite ?app_nil_r.
    repeat split; try done; try (by intros []); stage_facts. }
  pose proof (call_task_stage Transform _ task_transformar_datos
                (transformar_datos_stage data) w1) as S2.
  pose proof (transformar_datos_call_record data) as R2.
  specialize (fun registro => R2 registro w1).
  destruct (call_task task_transformar_datos _ w1) as [[[e2|registro] t2] w2];
    cbn [fst snd success_log] in S2, R2; destruct S2 as (A2 & N2 & K2).
  { exists t1, t2, [], [], []. cbn [app flow_end]. rewrite ?app_nil_r.
    rewrite <- ?app_assoc.
    repeat split; try done; try (by intros []); stage_facts. }
  pose proof (call_task_stage SaveJson _ task_guardar_json
                (guardar_json_stage registro json_path) w2) as S3.
  destruct (call_task task_guardar_json _ w2) as [[[e3|ruta_json] t3] w3];
    cbn [fst snd success_log] in S3; destruct S3 as (A3 & N3 & K3).
  { exists t1, t2, t3, [], []. cbn [app flow_end]. rewrite ?app_nil_r.
    rewrite <- ?app_assoc.
    repeat split; try done; try (by intros []); stage_facts. }
  pose proof (call_task_stage ReadJson _ task_leer_json
                (leer_json_stage ruta_json) w3) as S4.
  destruct (call_task task_leer_json _ w3) as [[[e4|data_from_json] t4] w4];
    cbn [fst snd success_log] in S4; destruct S4 as (A4 & N4 & K4).
  { exists t1, t2, t3, t4, []. cbn [app flow_end]. rewrite ?app_nil_r.
    rewrite <- ?app_assoc.
    repeat split; try done; try (by intros []); stage_facts. }
  pose proof (call_task_stage Load _ task_cargar_a_mongo
                (cargar_a_mongo_stage data_from_json) w4) as S5.
  destruct (call_task task_cargar_a_mongo _ w4) as [[[e5|resultado] t5] w5];
    cbn [fst snd success_log] in S5; destruct S5 as (A5 & N5 & K5).
  { exists t1, t2, t3, t4, t5. cbn [app flow_end].
    rewrite <- ?app_assoc.
    repeat split; try done; try (by intros []); stage_facts. }
  destruct (R2 registro eq_refl) as (c & temperatura & Hc & Ht).
  rewrite Hc. cbn [normalize_check]. rewrite Ht. cbn [app flow_end].
  exists t1, t2, t3, t4, t5. split.
  { cbn [app flow_end]. by rewrite <- ?app_assoc. }
  repeat split; try done; stage_facts.
Qed.


(** ** A run in which nothing fails *)

Lemma well_formed_dict_get (d : dict) (k : string) (v : json) :
  well_formed (JDict d) -> dict_get d k = Some v -> well_formed v.
Proof.
  intros Hwf. inversion Hwf as [| | | | | |d' _ Hall]; subst. clear Hwf.
  induction Hall as [|[k' x] d Hx _ IH]; simpl; [discriminate|].
  destruct (String.eqb k' k); [|exact IH]. by intros [= <-].
Qed.

Lemma registro_esperado_well_formed (data wd : dict) (c : campos)
    (sunrise sunset : Z) (now : string) :
  well_formed (JDict data) ->
  secciones data c -> seccion_coord data c -> seccion_wind data wd ->
  well_formed (JDict (registro_esperado data c wd sunrise sunset now)).
Proof.
  intros Hwf (Hname & (sys & Hsys & Hcountry & Hrise & Hset)
          & (main & Hmain & Htemp & Hfeels & Hmin & Hmax & Hhum & Hpres)
          & (first & others & Hw & Hdesc & Hicon) & (clouds & Hclouds & Hall))
         (coord & Hcoord & Hlat & Hlon) Hwind.
  pose proof (well_formed_dict_get _ _ _ Hwf Hsys) as Wsys.
  pose proof (well_formed_dict_get _ _ _ Hwf Hmain) as Wmain.
  pose proof (well_formed_dict_get _ _ _ Hwf Hclouds) as Wclouds.
  pose proof (well_formed_dict_get _ _ _ Hwf Hcoord) as Wcoord.
  assert (Wfirst : well_formed (JDict first)).
  { pose proof (well_formed_dict_get _ _ _ Hwf Hw) as Wl.
    inversion Wl as [| | | | |l Hl|]; subst. by inversion Hl. }
  assert (Wwind : well_formed (JDict wd)).
  { destruct Hwind as [[_ ->] | Hwd].
    - constructor; constructor.
    - exact (well_formed_dict_get _ _ _ Hwf Hwd). }
  assert (Wdef : forall d k, well_formed (JDict d) ->
                   well_formed (default (JInt 0) (dict_get d k))).
  { intros d k Wd. destruct (dict_get d k) as [v|] eqn:Hk; simpl.
    - exact (well_formed_dict_get _ _ _ Wd Hk).
    - constructor. }
  constructor.
  - apply (bool_decide_unpack _). by vm_compute.
  - unfold registro_esperado.
    repeat (apply Forall_cons; split; [cbn [snd]|]); try apply Forall_nil;
      eauto using well_formed_dict_get, wf_str.
    constructor.
    + apply (bool_decide_unpack _). by vm_compute.
    + repeat (apply Forall_cons; split; [cbn [snd]|]); try apply Forall_nil;
        eauto using well_formed_dict_get.
Qed.

Lemma escribible_dict (d : dict) :
  escribible (JDict d) = true
  <-> Forall (fun kv => has_surrogate kv.1 = false /\ escribible kv.2 = true) d.
Proof.
  change (escribible (JDict d)) with (escribible_pairs d).
  induction d as [|[k x] d IH]; [by split|].
  cbn [escribible_pairs]. rewrite !andb_true_iff, negb_true_iff, IH.
  split.
  - intros [[Hk Hx] Hd]. by constructor.
  - intros H. inversion H as [|? ? [Hk Hx] Hd]; subst. by repeat split.
Qed.

Lemma escribible_dict_get (d : dict) (k : string) (v : json) :
  escribible (JDict d) = true -> dict_get d k = Some v -> escribible v = true.
Proof.
  rewrite escribible_dict.
  induction 1 as [|[k' x] d [_ Hx] _ IH]; simpl; [discriminate|].
  destruct (String.eqb k' k); [|exact IH]. by intros [= <-].
Qed.

Lemma escribible_int_0 : escribible (JInt 0) = true.
Proof.
  cbn [escribible]. unfold int_str.
  replace (int_digits 0) with 1%nat by (by vm_compute).
  by destruct int_max_str_digits as [|[|n]].
Qed.

Lemma is_digit_not_237 (c : ascii) :
  is_digit c = true -> (N_of_ascii c =? 237)%N = false.
Proof.
  unfold is_digit. cbv zeta. intros H. apply andb_prop in H as [_ H].
  apply N.leb_le in H. apply N.eqb_neq. lia.
Qed.

Lemma has_surrogate_strftime_HMS (l : Z) : has_surrogate (strftime_HMS l) = false.
Proof.
  destruct (strftime_HMS_shape l) as (h & m & s & _ & _ & _ & _ & -> & Hdigits).
  apply has_surrogate_low.
  repeat match goal with
         | H : Forall _ (_ :: _) |- _ =>
             let Hd := fresh "Hd" in
             inversion H as [|? ? Hd ?]; subst; clear H;
             apply is_digit_not_237 in Hd
         end.
  cbn [no_byte_237]. by rewrite Hd, Hd0, Hd1, Hd2, Hd3, Hd4.
Qed.

(** The record of a payload that can be written can be written. *)
Lemma registro_esperado_escribible (data wd : dict) (c : campos)
    (sunrise sunset : Z) (now : string) :
  escribible (JDict data) = true -> has_surrogate now = false ->
  secciones data c -> seccion_coord data c -> seccion_wind data wd ->
  escribible (JDict (registro_esperado data c wd sunrise sunset now)) = true.
Proof.
  intros Hesc Hnow (Hname & (sys & Hsys & Hcountry & Hrise & Hset)
          & (main & Hmain & Htemp & Hfeels & Hmin & Hmax & Hhum & Hpres)
          & (first & others & Hw & Hdesc & Hicon) & (clouds & Hclouds & Hall))
         (coord & Hcoord & Hlat & Hlon) Hwind.
  pose proof (escribible_dict_get _ _ _ Hesc Hname) as Ename.
  pose proof (escribible_dict_get _ _ _ Hesc Hsys) as Esys.
  pose proof (escribible_dict_get _ _ _ Hesc Hmain) as Emain.
  pose proof (escribible_dict_get _ _ _ Hesc Hclouds) as Eclouds.
  pose proof (escribible_dict_get _ _ _ Hesc Hcoord) as Ecoord.
  assert (Efirst : escribible (JDict first) = true).
  { pose proof (escribible_dict_get _ _ _ Hesc Hw) as El.
    cbn [escribible] in El. by apply andb_prop in El as [El _]. }
  assert (Ewind : escribible (JDict wd) = true).
  { destruct Hwind as [[_ ->] | Hwd]; [reflexivity|].
    exact (escribible_dict_get _ _ _ Hesc Hwd). }
  assert (Edef : forall d k, escribible (JDict d) = true ->
                   escribible (default (JInt 0) (dict_get d k)) = true).
  { intros d k Ed. destruct (dict_get d k) as [v|] eqn:Hk; simpl.
    - exact (escribible_dict_get _ _ _ Ed Hk).
    - exact escribible_int_0. }
  apply escribible_dict. unfold registro_esperado.
  repeat (apply Forall_cons; split; [cbn [fst snd]; split; [reflexivity|]|]);
    try apply Forall_nil; eauto using escribible_dict_get.
  - cbn [escribible]. by rewrite has_surrogate_strftime_HMS.
  - cbn [escribible]. by rewrite has_surrogate_strftime_HMS.
  - apply escribible_dict.
    repeat (apply Forall_cons; split; [cbn [fst snd]; split; [reflexivity|]|]);
      try apply Forall_nil; eauto using escribible_dict_get.
  - cbn [escribible]. by rewrite Hnow.
Qed.

Lemma registro_esperado_log_line (data wd : dict) (c : campos)
    (sunrise sunset : Z) (now : string) :
  dict_getitem (registro_esperado data c wd sunrise sunset now) "ciudad"
  = Ok (JStr (c_name c))
  /\ dict_getitem (registro_esperado data c wd sunrise sunset now) "temperatura"
     = Ok (c_temp c).
Proof. split; reflexivity. Qed.


End Practica.

Arguments JNull {float}.
Arguments JBool {float} b.
Arguments JInt {float} z.
Arguments JFloat {float} f.
Arguments JStr {float} s.
Arguments JList {float} l.
Arguments JDict {float} d.
Arguments Response {float} status_code body.
Arguments RequestError {float} e.

(** * The scenarios of the specification *)

Definition esc_nl : string := String (PyStr.byte 10) EmptyString.

(** A platform for the scenarios.  A float stands as its [repr], the
    shortest decimal text that reads back as the float, so that [repr] and
    [float] are the identity on it; the scenarios carry their timestamps as
    integers, and a float timestamp is outside this platform.  Local time is
    six hours behind UTC all year (Costa Rica), and the years 1 to 9999 of
    the local calendar are accepted. *)
Definition esc_float : Type := string.

Definition esc_float_nonzero (f : esc_float) : bool :=
  negb (String.eqb f "0.0" || String.eqb f "-0.0").

Definition esc_float_time_t (f : esc_float) : result Z :=
  Err (ExternalError "NotImplementedError").

Definition esc_utcoffset (t : Z) : Z := -21600.

Definition esc_timestamp_error (t : Z) : option exn :=
  if (-62135575200 <=? t) && (t <=? 253402322399)
  then None
  else Some (ValueError "year is out of range").

Definition esc_float_repr (f : esc_float) : string := f.

Definition esc_float_of_str (text : string) : esc_float := text.

(** The limit on the digits of an [int] written as text, as the interpreter
    sets it when nothing configures it. *)
Definition esc_int_max_str_digits : nat := 4300.

Definition esc_now (n : nat) : string := "2023-11-14T16:30:00.000000".

Definition esc_api_key : string := "k".

Definition esc_w0 : world := mkWorld ∅ 0 0 0 0.

(** Scenario A: a complete payload. *)
Definition esc_payload : list (string * json esc_float) :=
  [ ("name", JStr "San Jose");
    ("sys", JDict [("country", JStr "CR"); ("sunrise", JInt 1700000000);
                   ("sunset", JInt 1700040000)]);
    ("main", JDict [("temp", JFloat "22.1"); ("feels_like", JFloat "21.5");
                    ("temp_min", JInt 20); ("temp_max", JInt 24);
                    ("humidity", JInt 80); ("pressure", JInt 1012)]);
    ("weather", JList [JDict [("description", JStr "clear sky");
                              ("icon", JStr "01d")]]);
    ("clouds", JDict [("all", JInt 5)]);
    ("coord", JDict [("lat", JFloat "9.93"); ("lon", JFloat "-84.08")]) ].

Definition esc_campos : campos esc_float :=
  mkCampos esc_float "San Jose" (JStr "CR") (JInt 1700000000) (JInt 1700040000)
    (JFloat "22.1") (JFloat "21.5") (JInt 20) (JInt 24) (JInt 80) (JInt 1012)
    (JStr "clear sky") (JStr "01d") (JInt 5) (JFloat "9.93") (JFloat "-84.08").

(** The record of scenario A. *)
Definition esc_registro : list (string * json esc_float) :=
  [ ("ciudad", JStr "San Jose");
    ("pais", JStr "CR");
    ("temperatura", JFloat "22.1");
    ("sensacion_termica", JFloat "21.5");
    ("temp_min", JInt 20);
    ("temp_max", JInt 24);
    ("humedad", JInt 80);
    ("presion", JInt 1012);
    ("descripcion", JStr "clear sky");
    ("icono", JStr "01d");
    ("nubosidad", JInt 5);
    ("viento_velocidad", JInt 0);
    ("viento_direccion", JInt 0);
    ("visibilidad", JInt 0);
    ("amanecer", JStr "16:13:20");
    ("atardecer", JStr "03:20:00");
    ("coordenadas", JDict [("latitud", JFloat "9.93"); ("longitud", JFloat "-84.08")]);
    ("timestamp", JStr "2023-11-14T16:30:00.000000") ].

(** Scenario B: the payload of scenario A without [coord]. *)
Definition esc_payload_sin_coord : list (string * json esc_float) :=
  [ ("name", JStr "San Jose");
    ("sys", JDict [("country", JStr "CR"); ("sunrise", JInt 1700000000);
                   ("sunset", JInt 1700040000)]);
    ("main", JDict [("temp", JFloat "22.1"); ("feels_like", JFloat "21.5");
                    ("temp_min", JInt 20); ("temp_max", JInt 24);
                    ("humidity", JInt 80); ("pressure", JInt 1012)]);
    ("weather", JList [JDict [("description", JStr "clear sky");
                              ("icon", JStr "01d")]]);
    ("clouds", JDict [("all", JInt 5)]) ].

(** The six sections, with a [sys] that has no [country]. *)
Definition esc_payload_sin_country : list (string * json esc_float) :=
  [ ("name", JStr "San Jose");
    ("sys", JDict [("sunrise", JInt 1700000000); ("sunset", JInt 1700040000)]);
    ("main", JDict [("temp", JFloat "22.1"); ("feels_like", JFloat "21.5");
                    ("temp_min", JInt 20); ("temp_max", JInt 24);
                    ("humidity", JInt 80); ("pressure", JInt 1012)]);
    ("weather", JList [JDict [("description", JStr "clear sky");
                              ("icon", JStr "01d")]]);
    ("clouds", JDict [("all", JInt 5)]);
    ("coord", JDict [("lat", JFloat "9.93"); ("lon", JFloat "-84.08")]) ].

(** The six sections, with an empty [main]. *)
Definition esc_payload_main_vacio : list (string * json esc_float) :=
  [ ("name", JStr "San Jose");
    ("sys", JDict [("country", JStr "CR"); ("sunrise", JInt 1700000000);
                   ("sunset", JInt 1700040000)]);
    ("main", JDict []);
    ("weather", JList [JDict [("description", JStr "clear sky");
                              ("icon", JStr "01d")]]);
    ("clouds", JDict [("all", JInt 5)]);
    ("coord", JDict [("lat", JFloat "9.93"); ("lon", JFloat "-84.08")]) ].

(** Scenario C: the provider answers 503 to every request. *)
Definition esc_http_503 (n : nat) (url : string) : http_outcome esc_float :=
  Response 503 None.

(** A provider that answers 503 twice and then sends the payload of
    scenario A. *)
Definition esc_http_tercera (n : nat) (url : string) : http_outcome esc_float :=
  match n with
  | 0%nat | 1%nat => Response 503 None
  | _ => Response 200 (Some (JDict esc_payload))
  end.

(** A provider that sends the payload of scenario B. *)
Definition esc_http_sin_coord (n : nat) (url : string) : http_outcome esc_float :=
  Response 200 (Some (JDict esc_payload_sin_coord)).

(** Files can be opened. *)
Definition esc_open (n : nat) (path : string) : option exn := None.

(** Scenario D: the insert fails in the first run and succeeds in the
    second. *)
Definition esc_mongo (n : nat) : mongo_outcome :=
  match n with
  | 0%nat => InsertError (ExternalError "AutoReconnect")
  | _ => Inserted "655f1a2b3c4d5e6f7a8b9c0d"
  end.

Definition esc_transformar_datos :=
  transformar_datos esc_float esc_float_nonzero esc_float_time_t esc_utcoffset
    esc_timestamp_error esc_now.

Definition esc_cargar_a_mongo :=
  cargar_a_mongo esc_float esc_mongo "mongodb://localhost" "clima_data" "clima_data".

Definition esc_clima_flow (http_reply : nat -> string -> http_outcome esc_float) :=
  clima_flow esc_float esc_float_nonzero esc_float_time_t esc_utcoffset
    esc_timestamp_error esc_float_repr esc_float_of_str esc_int_max_str_digits
    http_reply esc_open esc_mongo esc_now "mongodb://localhost" esc_api_key "clima_data" "clima_data".

(** ** The statements on the scenarios *)

(** C1 on an extraction that fails twice and then succeeds: three runs with
    a wait of five seconds between two of them, the payload of the third,
    and three requests made. *)
Lemma run_task_attempts_witness :
  run_task 3 5
    (extraer_datos_clima esc_float esc_http_tercera esc_api_key "San Jose,CR")
    esc_w0
  = (Ok esc_payload, 3%nat,
     failed_extract_events esc_api_key "San Jose,CR" ++ Sleep 5
     :: failed_extract_events esc_api_key "San Jose,CR" ++ Sleep 5
     :: [Log "extract_start"; HttpGet (weather_url esc_api_key "San Jose,CR");
         Log "extract_success"; Log "extract_time"],
     mkWorld ∅ 3 0 0 0).
Proof.
  apply (proj1 (run_task_attempts 3 5
                  (extraer_datos_clima esc_float esc_http_tercera esc_api_key
                     "San Jose,CR") esc_w0) 2%nat esc_payload).
  - unfold max_attempts. lia.
  - intros i Hi. destruct i as [|[|i]]; [by eexists | by eexists | lia].
  - reflexivity.
Defined.

(** Scenario C on the program: a provider that answers 503 to every request
    is asked four times, not three. *)
Lemma extraction_503_four_attempts :
  (run_task (retries task_extraer_datos_clima)
     (retry_delay_seconds task_extraer_datos_clima)
     (extraer_datos_clima esc_float esc_http_503 esc_api_key "San Jose,CR")
     esc_w0).1.1
  = (Err (HTTPError 503), 4%nat)
  /\ 4%nat <> 3%nat.
Proof. split; [reflexivity | discriminate]. Qed.

(** C2, in the form that holds of the program, on scenario C. *)
Lemma clima_flow_extraction_exhausted_witness :
  max_attempts (retries task_extraer_datos_clima) = 4%nat
  /\ (run_task (retries task_extraer_datos_clima)
        (retry_delay_seconds task_extraer_datos_clima)
        (extraer_datos_clima esc_float esc_http_503 esc_api_key "San Jose,CR")
        esc_w0).1.1
     = (Err (HTTPError 503), 4%nat)
  /\ exists t w',
       esc_clima_flow esc_http_503 "San Jose,CR" "clima_data.json" esc_w0
       = (Err (HTTPError 503), t, w')
       /\ Forall (fun ev => later_stage_event ev = false) t
       /\ mongo_calls w' = 0%nat.
Proof.
  destruct (clima_flow_extraction_exhausted esc_float esc_float_nonzero
              esc_float_time_t esc_utcoffset esc_timestamp_error esc_float_repr
              esc_float_of_str esc_int_max_str_digits esc_http_503 esc_open
              esc_mongo esc_now
              "mongodb://localhost" esc_api_key "clima_data" "clima_data"
              "San Jose,CR" "clima_data.json" esc_w0
              (fun _ => HTTPError 503))
    as (H1 & H2 & t & w' & H3 & _ & H4 & _ & H5 & _).
  - intros i Hi. reflexivity.
  - split; [exact H1|]. split; [exact H2|]. exists t, w'. by repeat split.
Defined.

(** C3 on scenario B. *)
Lemma transformar_datos_missing_section_witness :
  run_task (retries task_transformar_datos)
    (retry_delay_seconds task_transformar_datos)
    (esc_transformar_datos esc_payload_sin_coord) esc_w0
  = (Err (ValueError "Faltan claves requeridas en la respuesta: ['coord']"),
     1%nat,
     [Log "transform_start"; Log "transform_error"; Log "transform_time"],
     esc_w0)
  /\ max_attempts (retries task_transformar_datos) = 1%nat.
Proof.
  apply (transformar_datos_missing_section_runs_once esc_float esc_float_nonzero
           esc_float_time_t esc_utcoffset esc_timestamp_error esc_now
           esc_payload_sin_coord esc_w0 "coord").
  - simpl. tauto.
  - reflexivity.
Defined.

(** C4 on scenario B: the message names [coord], and the flow ends without
    an event of the loader. *)
Lemma transformar_datos_invalid_payload_witness :
  exists msg,
    mentions msg "coord"
    /\ (esc_transformar_datos esc_payload_sin_coord esc_w0).1.1
       = Err (ValueError msg)
    /\ exists t w',
         esc_clima_flow esc_http_sin_coord "San Jose,CR" "clima_data.json" esc_w0
         = (Err (ValueError msg), t, w')
         /\ Forall (fun ev => loader_event ev = false) t
         /\ mongo_calls w' = 0%nat.
Proof.
  destruct (transformar_datos_invalid_payload esc_float esc_float_nonzero
              esc_float_time_t esc_utcoffset esc_timestamp_error esc_float_repr
              esc_float_of_str esc_int_max_str_digits esc_http_sin_coord
              esc_open esc_mongo esc_now
              "mongodb://localhost" esc_api_key "clima_data" "clima_data"
              esc_payload_sin_coord)
    as (msg & Hrun & _ & _ & Hment & Hflow).
  - left. discriminate.
  - exists msg. split; [|split].
    + apply Hment; [simpl; tauto | reflexivity].
    + unfold esc_transformar_datos. by rewrite Hrun.
    + destruct (Hflow "San Jose,CR" "clima_data.json" esc_w0 _ _ eq_refl)
        as (t & Ht & Hev & Hm).
      eexists t, _. split; [exact Ht|]. split; [exact Hev | exact Hm].
Defined.

(** The six required sections are there and [sys] has no [country]: what is
    raised is a [KeyError], which is not the validation error. *)
Lemma transformar_datos_sin_country_KeyError :
  missing_keys esc_float esc_payload_sin_country = []
  /\ (esc_transformar_datos esc_payload_sin_country esc_w0).1.1
     = Err (KeyError (KStr "country"))
  /\ is_ValueError (KeyError (KStr "country")) = false.
Proof. repeat split. Qed.

(** C5, in the form that holds of the program, on that payload: the checks
    pass, and the first field that cannot be built, [pais], decides the
    exception. *)
Lemma transformar_datos_record_or_exception_witness :
  validar esc_float esc_float_nonzero esc_payload_sin_country = Ok tt
  /\ primera_falla esc_float (entradas esc_float esc_float_time_t esc_utcoffset
                      esc_timestamp_error (esc_now 0) esc_payload_sin_country)
     = Some (KeyError (KStr "country"))
  /\ (esc_transformar_datos esc_payload_sin_country esc_w0).1.1
     = Err (KeyError (KStr "country")).
Proof.
  destruct (proj1 (proj2 (proj2
    (transformar_datos_record_or_exception esc_float esc_float_nonzero
       esc_float_time_t esc_utcoffset esc_timestamp_error esc_now
       esc_payload_sin_country esc_w0))) eq_refl eq_refl) as [Hval Hfirst].
  split; [exact Hval|]. split; [reflexivity|]. exact Hfirst.
Defined.

Lemma esc_registro_well_formed :
  well_formed esc_float esc_float_repr esc_float_of_str (JDict esc_registro).
Proof.
  constructor.
  - apply (bool_decide_unpack _). by vm_compute.
  - repeat (constructor; simpl);
      try (split; reflexivity);
      apply (bool_decide_unpack _); by vm_compute.
Qed.


(** A city whose name holds a lone surrogate, [U+D83D], as a [str] of Python
    can: the first half of an emoji cut in two. *)
Definition esc_ciudad_surrogate : string :=
  "San Jose " +:+ String (PyStr.byte 237) (String (PyStr.byte 160)
                    (String (PyStr.byte 189) EmptyString)).

(** The payload of scenario A for that city, as the service can send it (the
    escape of a lone surrogate is accepted by [response.json()]). *)
Definition esc_payload_surrogate : list (string * json esc_float) :=
  ("name", JStr esc_ciudad_surrogate) :: tail esc_payload.

(** The record of scenario A for that city. *)
Definition esc_registro_surrogate : list (string * json esc_float) :=
  ("ciudad", JStr esc_ciudad_surrogate) :: tail esc_registro.

Definition esc_guardar_surrogate :=
  run_task (retries task_guardar_json) (retry_delay_seconds task_guardar_json)
    (guardar_json esc_float esc_float_repr esc_int_max_str_digits esc_open
       esc_registro_surrogate "clima_data.json")
    esc_w0.


(** The six required sections are there and [main] is empty: no record is
    produced. *)
Lemma transformar_datos_main_vacio_fails :
  missing_keys esc_float esc_payload_main_vacio = []
  /\ truthy esc_float esc_float_nonzero
       (dict_get_default esc_float esc_payload_main_vacio "weather" JNull)
     = true
  /\ (esc_transformar_datos esc_payload_main_vacio esc_w0).1.1
     = Err (KeyError (KStr "temp")).
Proof. repeat split. Qed.

(** C7, in the form that holds of the program, on scenario A. *)
Lemma transformar_datos_complete_payload_witness :
  esc_transformar_datos esc_payload esc_w0
  = (Ok esc_registro,
     [Log "transform_start"; Log "transform_success"; Log "transform_time"],
     count_clock esc_w0).
Proof.
  apply (transformar_datos_complete_payload esc_float esc_float_nonzero
           esc_float_time_t esc_utcoffset esc_timestamp_error esc_now
           esc_payload [] esc_campos 1700000000 1700040000 esc_w0).
  - split; [reflexivity|]. split; [|split; [|split]].
    + eexists. repeat split; reflexivity.
    + eexists. repeat split; reflexivity.
    + eexists _, _. repeat split; reflexivity.
    + eexists. repeat split; reflexivity.
  - eexists. repeat split; reflexivity.
  - left. by split.
  - by repeat split.
Defined.

(** C8 on scenario D: the insert of the first run raises and that of the
    second is confirmed; the call makes two runs and returns the confirmation
    with the id of the second, two clients were constructed, each closed by
    its run, and none is open at the end. *)
Lemma cargar_a_mongo_releases_witness :
  (run_task 3 5 (esc_cargar_a_mongo esc_registro) esc_w0).1.1
  = (Ok "Documento insertado en MongoDB con _id=655f1a2b3c4d5e6f7a8b9c0d", 2%nat)
  /\ open_clients (run_task 3 5 (esc_cargar_a_mongo esc_registro) esc_w0).1.2 0
     = Some 0%nat
  /\ count_events is_close
       (run_task 3 5 (esc_cargar_a_mongo esc_registro) esc_w0).1.2
     = 2%nat
  /\ mongo_calls (run_task 3 5 (esc_cargar_a_mongo esc_registro) esc_w0).2
     = 2%nat.
Proof.
  destruct (cargar_a_mongo_releases esc_float esc_mongo "mongodb://localhost"
              "clima_data" "clima_data" esc_registro 3 5 esc_w0
              (run_task 3 5 (esc_cargar_a_mongo esc_registro) esc_w0).2
              (run_task 3 5 (esc_cargar_a_mongo esc_registro) esc_w0).1.1.1
              (run_task 3 5 (esc_cargar_a_mongo esc_registro) esc_w0).1.1.2
              (run_task 3 5 (esc_cargar_a_mongo esc_registro) esc_w0).1.2)
    as (Hopen & _ & Hall & _ & Hcalls & _ & _ & _ & Hk & _).
  - reflexivity.
  - destruct (Hk 1%nat "655f1a2b3c4d5e6f7a8b9c0d") as [Hr Hruns].
    + unfold max_attempts. lia.
    + intros i other_id Hi. destruct i as [|i]; [discriminate | lia].
    + reflexivity.
    + split; [|split; [exact Hopen|split; [|exact Hcalls]]].
      * by rewrite (surjective_pairing (run_task _ _ _ _).1.1), Hr, Hruns.
      * rewrite Hall; [exact Hruns|]. rewrite Hruns. intros i e Hi.
        destruct i as [|[|i]]; [discriminate | discriminate | lia].
Defined.

(** C9 on a file that names a city while [CITY] is already set. *)
Lemma load_env_file_keeps_defined_witness :
  (load_env_file ".env" None
     {[ ".env" := "CITY=San Jose,CR" ]} {[ "CITY" := "Lima,PE" ]}).2
  !! "CITY"
  = Some "Lima,PE".
Proof.
  apply (proj1 (load_env_file_keeps_defined ".env" None
                  {[ ".env" := "CITY=San Jose,CR" ]} {[ "CITY" := "Lima,PE" ]})).
  reflexivity.
Defined.

(** C10 on a variable set to the empty text. *)
Lemma get_required_env_spec_witness :
  get_required_env {[ "MONGO_URI" := EmptyString ]} "MONGO_URI"
  = Err (ValueError "Variable de entorno requerida no definida: MONGO_URI").
Proof.
  apply (proj1 (get_required_env_spec {[ "MONGO_URI" := EmptyString ]} "MONGO_URI")).
  right. reflexivity.
Defined.

(** * Instances of the further properties *)

(** A configuration file: a comment, a blank line, the two required
    settings and a quoted city. *)
Definition esc_env_text : string :=
  "# clima" +:+ esc_nl +:+ esc_nl
  +:+ "MONGO_URI=mongodb://localhost:27017" +:+ esc_nl
  +:+ "OPENWEATHER_API_KEY = k" +:+ esc_nl
  +:+ "CITY='Lima,PE'" +:+ esc_nl.

Definition esc_fs : filesystem := {[ ".env" := esc_env_text ]}.

(** A provider that sends the payload of scenario A at once, and a store
    that accepts the first insert. *)
Definition esc_http_ok (n : nat) (url : string) : http_outcome esc_float :=
  Response 200 (Some (JDict esc_payload)).

Definition esc_mongo_ok (n : nat) : mongo_outcome :=
  Inserted "655f1a2b3c4d5e6f7a8b9c0d".

(** The payload of scenario A with two more keys, in another order. *)
Definition esc_payload_con_extras : list (string * json esc_float) :=
  ("cod", JInt 200) :: rev esc_payload ++ [("base", JStr "stations")].

Lemma esc_payload_well_formed :
  well_formed esc_float esc_float_repr esc_float_of_str (JDict esc_payload).
Proof.
  constructor.
  - apply (bool_decide_unpack _). by vm_compute.
  - repeat (constructor; simpl);
      try (split; reflexivity);
      apply (bool_decide_unpack _); by vm_compute.
Qed.

Lemma load_env_file_idempotent_witness :
  load_env_file ".env" None esc_fs (load_env_file ".env" None esc_fs ∅).2
  = (Ok tt, (load_env_file ".env" None esc_fs ∅).2).
Proof.
  apply (load_env_file_idempotent ".env" None esc_fs ∅).
  by vm_compute.
Defined.

Lemma load_env_file_new_variable_witness :
  exists text raw_line,
    esc_fs !! ".env" = Some text
    /\ In raw_line (PyStr.lines text)
    /\ env_assignment raw_line = Some ("CITY", "Lima,PE")
    /\ "CITY" <> EmptyString /\ PyStr.contains_char "=" "CITY" = false
    /\ PyStr.has_nul "CITY" = false /\ PyStr.has_nul "Lima,PE" = false.
Proof.
  apply (load_env_file_new_variable ".env" None esc_fs ∅ "CITY" "Lima,PE").
  - reflexivity.
  - by vm_compute.
Defined.

Lemma load_settings_spec_witness :
  let s := mkSettings "mongodb://localhost:27017" "k" "clima_data" "clima_data"
             "Cartago,CR" in
  s_MONGO_URI s <> EmptyString /\ s_API_KEY s <> EmptyString.
Proof.
  destruct (load_settings_spec ".env" esc_fs {[ "CITY" := "Cartago,CR" ]}
              (load_env_file ".env" None esc_fs {[ "CITY" := "Cartago,CR" ]}).2
              (mkSettings "mongodb://localhost:27017" "k" "clima_data"
                 "clima_data" "Cartago,CR"))
    as (_ & Huri & Hkey & _).
  - by vm_compute.
  - by split.
Defined.


Lemma transformar_datos_reads_only_witness :
  esc_transformar_datos esc_payload esc_w0
  = esc_transformar_datos esc_payload_con_extras esc_w0.
Proof.
  apply (transformar_datos_reads_only esc_float esc_float_nonzero
           esc_float_time_t esc_utcoffset esc_timestamp_error esc_now
           esc_payload esc_payload_con_extras esc_w0).
  intros k Hin. simpl in Hin.
  destruct Hin as [<-|[<-|[<-|[<-|[<-|[<-|[<-|[<-|[]]]]]]]]]; reflexivity.
Defined.

(** The record of scenario A for a city with an accent. *)
Definition esc_registro_acento : list (string * json esc_float) :=
  ("ciudad", JStr "San José") :: tail esc_registro.

Lemma esc_registro_acento_well_formed :
  well_formed esc_float esc_float_repr esc_float_of_str (JDict esc_registro_acento).
Proof.
  constructor.
  - apply (bool_decide_unpack _). by vm_compute.
  - repeat (constructor; simpl);
      try (split; reflexivity);
      apply (bool_decide_unpack _); by vm_compute.
Qed.

